(** * PawPal appointment routes: a shallow embedding and its properties

    The development follows the Express router of the appointment
    subsystem (create, list, status change, reschedule, availability).
    Firestore collections are finite maps from document id to document,
    instants are milliseconds since the epoch ([Z]), and every handler is a
    function from an environment and a database state to an outcome and a
    new database state.  A rejected [await] is a thrown exception: writes
    that were committed before it stay committed, and the handler's
    [catch] block turns it into a 500 response.  The same holds for what
    the Firestore client throws by itself: a [Timestamp] outside the years
    1 to 9999, and a document with an [undefined] field.  Strings are
    UTF-8 byte sequences. *)

From Stdlib Require Import ZArith String Ascii List Lia Bool Sorted.
From stdpp Require Import gmap strings list fin_maps sorting.

Local Open Scope string_scope.
Local Open Scope Z_scope.

(** ** Documents *)

(** A document of the [appointments] collection.  Fields that a handler
    only adds later are optional ([None] = the field is absent);
    [rescheduleReason] distinguishes absent ([None]) from the stored
    [null] ([Some None]). *)
Record Appointment := mkAppointment {
  ownerId : string;
  petId : string;
  veterinarianId : string;
  dateTime : Z;
  duration : Z;
  type : string;
  reason : string;
  notes : option string;
  status : string;
  createdAt : Z;
  updatedAt : Z;
  statusReason : option string;
  confirmedAt : option Z;
  completedAt : option Z;
  cancelledAt : option Z;
  rescheduledAt : option Z;
  rescheduleReason : option (option string)
}.

(** A document of the [pets] collection.  Every pet has a name: the pet
    routes refuse to create one without. *)
Record Pet := mkPet { pet_ownerId : string; pet_name : string }.

Record User := mkUser {
  role : string;
  vetApplicationStatus : string;
  firstName : string;
  lastName : string
}.

Record Notification := mkNotification {
  userId : string;
  n_type : string;
  title : string;
  message : string;
  n_appointmentId : string
}.

(** The database: one finite map per collection, notifications in the
    order they were added. *)
Record World := mkWorld {
  appointments : gmap string Appointment;
  pets : gmap string Pet;
  users : gmap string User;
  notifications : list Notification
}.

(** ** Environment of one request *)

Inductive DbOp :=
| ReadPet | ReadUser | ReadAppointment | QueryAppointments
| WriteAppointment | WriteNotification.

(** The instants a Firestore [Timestamp] holds, in milliseconds since the
    epoch: 0001-01-01T00:00:00.000Z to 9999-12-31T23:59:59.999Z. *)
Definition minTimestamp : Z := -62135596800000.
Definition maxTimestamp : Z := 253402300799999.

Definition validTimestamp (ms : Z) : bool :=
  (minTimestamp <=? ms) && (ms <=? maxTimestamp).

(** [now] is what [new Date()] and the server timestamp give during the
    request, [autoId] is the id Firestore picks for [add], [fails] tells
    which database calls reject, [toLocaleString] is the date formatting
    of the runtime.  The clock of the server reads an instant that a
    [Timestamp] holds ([now_valid]). *)
Record Env := mkEnv {
  now : Z;
  autoId : string;
  fails : DbOp -> bool;
  toLocaleString : Z -> string;
  now_valid : validTimestamp now = true
}.

(** A JavaScript [Date]: a time value or the invalid date. *)
Inductive JsDate := ValidDate (ms : Z) | InvalidDate.

(** ** Responses *)

Inductive Payload :=
| Message (text : string)
| Created (id : string) (appointment : Appointment)
| AppointmentList (items : list (string * Appointment * option Pet * option User))
                  (hasMore : bool)
| Availability (vet : string) (availableSlots : list Z).

Inductive Response :=
| Json (httpStatus : Z) (payload : Payload)
| ErrorJson (httpStatus : Z) (code : string).

(** ** Handlers as state-and-exception computations *)

Inductive outcome (A : Type) := Returned (a : A) | Thrown.
Arguments Returned {A} a.
Arguments Thrown {A}.

Definition Handler (A : Type) : Type := Env -> World -> outcome A * World.

Definition ret {A} (a : A) : Handler A := fun _ w => (Returned a, w).

Definition bind {A B} (m : Handler A) (k : A -> Handler B) : Handler B :=
  fun e w =>
    match m e w with
    | (Returned a, w') => k a e w'
    | (Thrown, w') => (Thrown, w')
    end.

Definition throw {A} : Handler A := fun _ w => (Thrown, w).

Definition askEnv : Handler Env := fun e w => (Returned e, w).

(** [try { body } catch (error) { res.status(500).json(...) }] *)
Definition tryCatch (body : Handler Response) (code : string) : Handler Response :=
  fun e w =>
    match body e w with
    | (Returned r, w') => (Returned r, w')
    | (Thrown, w') => (Returned (ErrorJson 500 code), w')
    end.

Notation "'let*' x ':=' m 'in' k" := (bind m (fun x => k))
  (at level 10, x pattern, m at level 100, k at level 200).

(** An awaited database call: rejects when the environment says so. *)
Definition await {A} (op : DbOp) (run : World -> A * World) : Handler A :=
  fun e w => if fails e op then (Thrown, w) else let (a, w') := run w in (Returned a, w').

Definition getPet (id : string) : Handler (option Pet) :=
  await ReadPet (fun w => (pets w !! id, w)).

Definition getUser (id : string) : Handler (option User) :=
  await ReadUser (fun w => (users w !! id, w)).

Definition getAppointment (id : string) : Handler (option Appointment) :=
  await ReadAppointment (fun w => (appointments w !! id, w)).

(** A query snapshot: the matching documents with their ids. *)
Definition queryAppointments (p : string * Appointment -> bool)
  : Handler (list (string * Appointment)) :=
  await QueryAppointments (fun w => (List.filter p (map_to_list (appointments w)), w)).

Definition setAppointments (m : gmap string Appointment) (w : World) : World :=
  mkWorld m (pets w) (users w) (notifications w).

Definition addAppointment (data : Appointment) : Handler string :=
  fun e w =>
    if fails e WriteAppointment then (Thrown, w)
    else (Returned (autoId e), setAppointments (<[autoId e := data]> (appointments w)) w).

(** [appointmentRef.update(fields)]: rewrites the named fields of an
    existing document and rejects when the document does not exist. *)
Definition updateAppointment (id : string) (f : Appointment -> Appointment) : Handler unit :=
  fun e w =>
    if fails e WriteAppointment then (Thrown, w)
    else match appointments w !! id with
         | Some a => (Returned tt, setAppointments (<[id := f a]> (appointments w)) w)
         | None => (Thrown, w)
         end.

Definition addNotification (n : Notification) : Handler unit :=
  await WriteNotification
    (fun w => (tt, mkWorld (appointments w) (pets w) (users w) (notifications w ++ [n]))).

(** [notifications.add] of a document whose [data] object carries the
    [reason] of the request body as it came.  Firestore refuses a document
    with an [undefined] field (the routes do not set
    [ignoreUndefinedProperties]): when the body has no [reason], [add]
    throws and nothing is written. *)
Definition addNotificationWith (reason : option string) (n : Notification)
  : Handler unit :=
  match reason with
  | Some _ => addNotification n
  | None => throw
  end.

(** ** JavaScript helpers *)

(** Truthiness of an optional string field: [undefined] and the empty
    string are falsy. *)
Definition truthy (s : option string) : bool :=
  match s with
  | Some s => negb (String.eqb s "")
  | None => false
  end.

Definition str (s : option string) : string := default "" s.

(** Strings are in UTF-8.  The white space that [String.prototype.trim]
    strips ([WhiteSpace] and [LineTerminator] of ECMAScript) is: the
    one-byte code points TAB, LF, VT, FF, CR and SP; *)
Definition isSpace (c : ascii) : bool :=
  existsb (Ascii.eqb c) [" "; "009"; "010"; "011"; "012"; "013"]%char.

(** the two-byte code point U+00A0 (C2 A0); *)
Definition isSpace2 (c1 c2 : ascii) : bool :=
  (N_of_ascii c1 =? 194)%N && (N_of_ascii c2 =? 160)%N.

(** and the three-byte code points U+1680 (E1 9A 80), U+2000 to U+200A
    (E2 80 80 to E2 80 8A), U+2028, U+2029, U+202F (E2 80 A8, A9, AF),
    U+205F (E2 81 9F), U+3000 (E3 80 80) and U+FEFF (EF BB BF). *)
Definition isSpace3 (c1 c2 c3 : ascii) : bool :=
  let b1 := N_of_ascii c1 in
  let b2 := N_of_ascii c2 in
  let b3 := N_of_ascii c3 in
  ((b1 =? 225) && (b2 =? 154) && (b3 =? 128)
   || (b1 =? 226) && (b2 =? 128)
      && ((128 <=? b3) && (b3 <=? 138) || (b3 =? 168) || (b3 =? 169) || (b3 =? 175))
   || (b1 =? 226) && (b2 =? 129) && (b3 =? 159)
   || (b1 =? 227) && (b2 =? 128) && (b3 =? 128)
   || (b1 =? 239) && (b2 =? 187) && (b3 =? 191))%N.

(** Drops the code points at the front of [s] that the three predicates
    recognise by their one, two or three bytes. *)
Fixpoint trimFront (sp1 : ascii -> bool) (sp2 : ascii -> ascii -> bool)
  (sp3 : ascii -> ascii -> ascii -> bool) (s : string) : string :=
  match s with
  | String c1 s1 =>
      if sp1 c1 then trimFront sp1 sp2 sp3 s1
      else
        match s1 with
        | String c2 s2 =>
            if sp2 c1 c2 then trimFront sp1 sp2 sp3 s2
            else
              match s2 with
              | String c3 s3 => if sp3 c1 c2 c3 then trimFront sp1 sp2 sp3 s3 else s
              | EmptyString => s
              end
        | EmptyString => s
        end
  | EmptyString => EmptyString
  end.

Definition trimStart (s : string) : string := trimFront isSpace isSpace2 isSpace3 s.

Definition reverse (s : string) : string :=
  string_of_list_ascii (rev (list_ascii_of_string s)).

(** White space at the end is white space at the front of the reversed
    string, its bytes read backwards. *)
Definition trimEnd (s : string) : string :=
  reverse (trimFront isSpace (fun c2 c1 => isSpace2 c1 c2)
             (fun c3 c2 c1 => isSpace3 c1 c2 c3) (reverse s)).

(** [String.prototype.trim] *)
Definition trim (s : string) : string := trimEnd (trimStart s).

(** A code point that the three predicates recognise starts [s]. *)
Definition startsWith (sp1 : ascii -> bool) (sp2 : ascii -> ascii -> bool)
  (sp3 : ascii -> ascii -> ascii -> bool) (s : string) : bool :=
  match s with
  | String c1 s1 =>
      sp1 c1
      || match s1 with
         | String c2 s2 =>
             sp2 c1 c2
             || match s2 with
                | String c3 _ => sp3 c1 c2 c3
                | EmptyString => false
                end
         | EmptyString => false
         end
  | EmptyString => false
  end.

(** The string starts, or ends, with a white space code point. *)
Definition startsWithSpace (s : string) : bool := startsWith isSpace isSpace2 isSpace3 s.

Definition endsWithSpace (s : string) : bool :=
  startsWith isSpace (fun c2 c1 => isSpace2 c1 c2) (fun c3 c2 c1 => isSpace3 c1 c2 c3)
    (reverse s).

(** The string consists of white space only. *)
Definition blank (s : string) : bool := String.eqb (trimStart s) "".

(** [a <= b] on dates: any comparison with the invalid date is false. *)
Definition dateLeb (d : JsDate) (t : Z) : bool :=
  match d with
  | ValidDate ms => ms <=? t
  | InvalidDate => false
  end.

(** [admin.firestore.Timestamp.fromDate]: throws on the invalid date and
    on a date outside the range of a [Timestamp]. *)
Definition timestampFromDate (d : JsDate) : Handler Z :=
  match d with
  | ValidDate ms => if validTimestamp ms then ret ms else throw
  | InvalidDate => throw
  end.

(** [status in ['confirmed', 'pending']] *)
Definition isBlocking (s : string) : bool :=
  existsb (String.eqb s) ["confirmed"; "pending"].

(** The conflict query shared by create and reschedule:
    [veterinarianId == vet], [status in [confirmed, pending]],
    [dateTime >= startTime], [dateTime < endTime]. *)
Definition conflictFilter (vet : string) (startTime endTime : Z)
  (doc : string * Appointment) : bool :=
  String.eqb (veterinarianId doc.2) vet
  && isBlocking (status doc.2)
  && (startTime <=? dateTime doc.2)
  && (dateTime doc.2 <? endTime).

(** ** POST / : create an appointment *)

Record CreateBody := mkCreateBody {
  body_petId : option string;
  body_veterinarianId : option string;
  body_dateTime : option JsDate;
  body_type : option string;
  body_reason : option string;
  body_notes : option string;
  body_duration : option Z
}.

Definition createAppointment (uid : string) (body : CreateBody) : Handler Response :=
  tryCatch (
    let petId := str (body_petId body) in
    let veterinarianId := str (body_veterinarianId body) in
    let duration := default 30 (body_duration body) in
    if negb (truthy (body_petId body) && truthy (body_veterinarianId body)
             && bool_decide (is_Some (body_dateTime body))
             && truthy (body_type body) && truthy (body_reason body))
    then ret (ErrorJson 400 "MISSING_FIELDS")
    else
    let* petDoc := getPet petId in
    match petDoc with
    | None => ret (ErrorJson 403 "PET_ACCESS_DENIED")
    | Some pet =>
    if negb (String.eqb (pet_ownerId pet) uid) then ret (ErrorJson 403 "PET_ACCESS_DENIED")
    else
    let* vetDoc := getUser veterinarianId in
    if match vetDoc with
       | None => true
       | Some vet => negb (String.eqb (role vet) "veterinarian")
                     || negb (String.eqb (vetApplicationStatus vet) "approved")
       end
    then ret (ErrorJson 400 "VET_NOT_AVAILABLE")
    else
    let* e := askEnv in
    let appointmentDateTime := default InvalidDate (body_dateTime body) in
    if dateLeb appointmentDateTime (now e) then ret (ErrorJson 400 "INVALID_DATE")
    else
    let* startTime := timestampFromDate appointmentDateTime in
    let* endTime := timestampFromDate (ValidDate (startTime + duration * 60000)) in
    let* conflictingAppointments :=
      queryAppointments (conflictFilter veterinarianId startTime endTime) in
    if negb (bool_decide (conflictingAppointments = []))
    then ret (ErrorJson 409 "TIME_CONFLICT")
    else
    let appointmentData :=
      {| ownerId := uid; petId := petId; veterinarianId := veterinarianId;
         dateTime := startTime; duration := duration;
         type := str (body_type body);
         reason := trim (str (body_reason body));
         notes := if truthy (body_notes body) then Some (trim (str (body_notes body))) else None;
         status := "pending";
         createdAt := now e; updatedAt := now e;
         statusReason := None; confirmedAt := None; completedAt := None;
         cancelledAt := None; rescheduledAt := None; rescheduleReason := None |} in
    let* docId := addAppointment appointmentData in
    let* _ := addNotification
      {| userId := veterinarianId; n_type := "new_appointment";
         title := "New Appointment Request";
         message := "New appointment request for " +:+ pet_name pet;
         n_appointmentId := docId |} in
    ret (Json 201 (Created docId appointmentData))
    end
  ) "CREATE_APPOINTMENT_FAILED".

(** ** GET / : the caller's appointments, one page *)

(** [limit] and [offset] are the [parseInt] of the query parameters
    ([None] = parameter absent, the defaults 20 and 0 apply);
    [q_upcoming] is [upcoming === 'true']. *)
Record ListQuery := mkListQuery {
  q_status : option string;
  q_limit : option Z;
  q_offset : option Z;
  q_upcoming : bool
}.

Fixpoint insertBy {A} (leb : A -> A -> bool) (x : A) (l : list A) : list A :=
  match l with
  | [] => [x]
  | y :: l' => if leb x y then x :: l else y :: insertBy leb x l'
  end.

(** [orderBy]: a stable insertion sort along the comparison. *)
Definition orderBy {A} (leb : A -> A -> bool) (l : list A) : list A :=
  foldr (insertBy leb) [] l.

Definition listFilter (userRole : option string) (uid : string) (q : ListQuery)
  (t : Z) (doc : string * Appointment) : bool :=
  (if bool_decide (userRole = Some "veterinarian")
   then String.eqb (veterinarianId doc.2) uid
   else String.eqb (ownerId doc.2) uid)
  && (if truthy (q_status q) && negb (String.eqb (str (q_status q)) "all")
      then String.eqb (status doc.2) (str (q_status q)) else true)
  && (if q_upcoming q then t <=? dateTime doc.2 else true).

(** [query.limit(n).offset(k).get()]: Firestore rejects negative
    arguments; otherwise the page is cut out of the ordered matches. *)
Definition getPage (p : string * Appointment -> bool) (asc : bool) (limit offset : Z)
  : Handler (list (string * Appointment)) :=
  if (limit <? 0) || (offset <? 0) then throw
  else
    let* matches := queryAppointments p in
    let ordered :=
      orderBy (fun x y => if asc then dateTime x.2 <=? dateTime y.2
                          else dateTime y.2 <=? dateTime x.2) matches in
    ret (take (Z.to_nat limit) (drop (Z.to_nat offset) ordered)).

(** [Promise.all(ids.map(id => collection.doc(id).get()))]: no call is
    made for an empty id set; the result keeps the documents that exist. *)
Definition getAll {A} (op : DbOp) (coll : World -> gmap string A) (ids : list string)
  : Handler (gmap string A) :=
  if bool_decide (ids = []) then ret ∅
  else await op (fun w =>
         (list_to_map (omap (fun id => pair id <$> coll w !! id) ids), w)).

Definition listAppointments (uid : string) (q : ListQuery) : Handler Response :=
  tryCatch (
    let limit := default 20 (q_limit q) in
    let offset := default 0 (q_offset q) in
    let* userDoc := getUser uid in
    let userRole := role <$> userDoc in
    let* e := askEnv in
    let* snapshot := getPage (listFilter userRole uid q (now e)) (q_upcoming q) limit offset in
    let petIds := remove_dups (map (fun doc : string * Appointment => petId doc.2) snapshot) in
    let vetIds :=
      remove_dups (map (fun doc : string * Appointment => veterinarianId doc.2) snapshot) in
    let* petMap := getAll ReadPet pets petIds in
    let* vetMap := getAll ReadUser users vetIds in
    let enrichedAppointments :=
      map (fun doc : string * Appointment =>
             (doc.1, doc.2, petMap !! petId doc.2, vetMap !! veterinarianId doc.2)) snapshot in
    ret (Json 200 (AppointmentList enrichedAppointments
                     (Z.of_nat (length snapshot) =? limit)))
  ) "GET_APPOINTMENTS_FAILED".

(** ** PATCH /:appointmentId/status *)

(** The request body.  [sb_reason = None] is a body without a [reason]
    field ([undefined]); a [reason] that is present is a string (a JSON
    [null] behaves as the empty string does). *)
Record StatusBody := mkStatusBody {
  sb_status : string;
  sb_reason : option string
}.

Definition validStatuses : list string :=
  ["confirmed"; "cancelled"; "completed"; "no_show"].

(** The [updateData] object applied to the stored document. *)
Definition statusUpdate (st : string) (rsn : option string) (t : Z) (a : Appointment)
  : Appointment :=
  {| ownerId := ownerId a; petId := petId a; veterinarianId := veterinarianId a;
     dateTime := dateTime a; duration := duration a; type := type a;
     reason := reason a; notes := notes a;
     status := st;
     createdAt := createdAt a;
     updatedAt := t;
     statusReason := if truthy rsn then Some (trim (str rsn)) else statusReason a;
     confirmedAt := if String.eqb st "confirmed" then Some t else confirmedAt a;
     completedAt := if String.eqb st "completed" then Some t else completedAt a;
     cancelledAt := if String.eqb st "cancelled" then Some t else cancelledAt a;
     rescheduledAt := rescheduledAt a;
     rescheduleReason := rescheduleReason a |}.

Definition statusMessage (st : string) : string :=
  if String.eqb st "confirmed" then "Your appointment has been confirmed"
  else if String.eqb st "cancelled" then "Your appointment has been cancelled"
  else if String.eqb st "completed" then "Your appointment has been completed"
  else if String.eqb st "no_show" then "You were marked as no-show for your appointment"
  else "".

(** The party that did not make the request. *)
Definition otherParty (uid : string) (a : Appointment) : string :=
  if String.eqb (veterinarianId a) uid then ownerId a else veterinarianId a.

(** The notification written after a status change. *)
Definition statusNotification (uid appointmentId status : string) (appointmentData : Appointment)
  : Notification :=
  {| userId := otherParty uid appointmentData;
     n_type := "appointment_status_change";
     title := "Appointment Status Update";
     message := statusMessage status;
     n_appointmentId := appointmentId |}.

(** The permission check per requested status: only the veterinarian
    confirms, completes or marks a no-show; owner and veterinarian cancel. *)
Definition permissionError (status uid : string) (appointmentData : Appointment)
  : option Response :=
  if String.eqb status "confirmed" || String.eqb status "completed"
     || String.eqb status "no_show"
  then
    if negb (String.eqb (veterinarianId appointmentData) uid)
    then Some (ErrorJson 403 "VET_ONLY_ACTION") else None
  else if String.eqb status "cancelled"
  then
    if negb (String.eqb (ownerId appointmentData) uid)
       && negb (String.eqb (veterinarianId appointmentData) uid)
    then Some (ErrorJson 403 "ACCESS_DENIED") else None
  else None.

Definition updateStatus (uid appointmentId : string) (body : StatusBody) : Handler Response :=
  tryCatch (
    let status := sb_status body in
    if negb (existsb (String.eqb status) validStatuses)
    then ret (ErrorJson 400 "INVALID_STATUS")
    else
    let* appointmentDoc := getAppointment appointmentId in
    match appointmentDoc with
    | None => ret (ErrorJson 404 "APPOINTMENT_NOT_FOUND")
    | Some appointmentData =>
    match permissionError status uid appointmentData with
    | Some denied => ret denied
    | None =>
    let* e := askEnv in
    let* _ := updateAppointment appointmentId (statusUpdate status (sb_reason body) (now e)) in
    let* _ := addNotificationWith (sb_reason body)
                (statusNotification uid appointmentId status appointmentData) in
    ret (Json 200 (Message "Appointment status updated successfully"))
    end
    end
  ) "UPDATE_STATUS_FAILED".

(** [createNotification] of the notification service: the same write,
    wrapped in its own [try]/[catch] that logs and returns. *)
Definition createNotification (n : Notification) : Handler unit :=
  fun e w =>
    match addNotification n e w with
    | (Returned _, w') => (Returned tt, w')
    | (Thrown, w') => (Returned tt, w')
    end.

(** ** PATCH /:appointmentId/reschedule *)

(** The request body.  [rb_newDateTime = None] is a missing or empty
    [newDateTime]; [rb_reason = None] is a body without a [reason] field
    ([undefined]). *)
Record RescheduleBody := mkRescheduleBody {
  rb_newDateTime : option JsDate;
  rb_reason : option string
}.

(** The fields written by the reschedule update. *)
Definition rescheduleUpdate (startTime : Z) (rsn : option string) (t : Z) (a : Appointment)
  : Appointment :=
  {| ownerId := ownerId a; petId := petId a; veterinarianId := veterinarianId a;
     dateTime := startTime;
     duration := duration a; type := type a;
     reason := reason a; notes := notes a;
     status := "pending";
     createdAt := createdAt a;
     updatedAt := t;
     statusReason := statusReason a;
     confirmedAt := confirmedAt a;
     completedAt := completedAt a;
     cancelledAt := cancelledAt a;
     rescheduledAt := Some t;
     rescheduleReason := Some (if truthy rsn then Some (trim (str rsn)) else None) |}.

(** [conflictingAppointments.docs.some(doc => doc.id !== appointmentId)] *)
Definition hasConflict (docs : list (string * Appointment)) (appointmentId : string) : bool :=
  existsb (fun doc => negb (String.eqb doc.1 appointmentId)) docs.

Definition reschedule (uid appointmentId : string) (body : RescheduleBody) : Handler Response :=
  tryCatch (
    match rb_newDateTime body with
    | None => ret (ErrorJson 400 "MISSING_DATETIME")
    | Some newAppointmentDateTime =>
    let* appointmentDoc := getAppointment appointmentId in
    match appointmentDoc with
    | None => ret (ErrorJson 404 "APPOINTMENT_NOT_FOUND")
    | Some appointmentData =>
    if negb (String.eqb (ownerId appointmentData) uid)
       && negb (String.eqb (veterinarianId appointmentData) uid)
    then ret (ErrorJson 403 "ACCESS_DENIED")
    else
    let* e := askEnv in
    if dateLeb newAppointmentDateTime (now e) then ret (ErrorJson 400 "INVALID_DATE")
    else
    let* startTime := timestampFromDate newAppointmentDateTime in
    let* endTime :=
      timestampFromDate (ValidDate (startTime + duration appointmentData * 60000)) in
    let* conflictingAppointments :=
      queryAppointments
        (conflictFilter (veterinarianId appointmentData) startTime endTime) in
    if hasConflict conflictingAppointments appointmentId
    then ret (ErrorJson 409 "TIME_CONFLICT")
    else
    let* _ := updateAppointment appointmentId
                (rescheduleUpdate startTime (rb_reason body) (now e)) in
    let* _ := addNotificationWith (rb_reason body)
      {| userId := otherParty uid appointmentData;
         n_type := "appointment_rescheduled";
         title := "Appointment Rescheduled";
         message := "Your appointment has been rescheduled to "
                    +:+ toLocaleString e startTime;
         n_appointmentId := appointmentId |} in
    ret (Json 200 (Message "Appointment rescheduled successfully"))
    end
    end
  ) "RESCHEDULE_FAILED".

(** ** GET /availability/:veterinarianId *)

(** [Date.prototype.setHours(h, m, s, ms)] for a process whose local
    time zone is UTC: the instant on the same day at the given time. *)
Definition setHours (t h m s ms : Z) : Z :=
  t - t mod 86400000 + h * 3600000 + m * 60000 + s * 1000 + ms.

Record BookedSlot := mkBookedSlot { start : Z; slot_duration : Z }.

(** [bookedSlots.some(booked => slotTime >= bookedStart && slotTime < bookedEnd)] *)
Definition isBooked (bookedSlots : list BookedSlot) (slotTime : Z) : bool :=
  existsb (fun booked =>
             let bookedStart := start booked in
             let bookedEnd := bookedStart + slot_duration booked * 60000 in
             (bookedStart <=? slotTime) && (slotTime <? bookedEnd))
          bookedSlots.

(** The slot loop, [time] advancing by 30 minutes while [time < workEnd].
    [fuel] bounds the number of iterations; [generateSlots] supplies
    enough of it for the loop condition to end the loop. *)
Fixpoint slotLoop (fuel : nat) (now : Z) (bookedSlots : list BookedSlot)
  (workEnd time : Z) : list Z :=
  match fuel with
  | O => []
  | S fuel' =>
      if time <? workEnd then
        let slotTime := time in
        let rest := slotLoop fuel' now bookedSlots workEnd (time + 30 * 60000) in
        if slotTime <=? now then rest
        else if negb (isBooked bookedSlots slotTime) then slotTime :: rest
        else rest
      else []
  end.

Definition slotFuel (workStart workEnd : Z) : nat :=
  Z.to_nat ((workEnd - workStart) / (30 * 60000) + 1).

Definition generateSlots (now : Z) (bookedSlots : list BookedSlot)
  (workStart workEnd : Z) : list Z :=
  slotLoop (slotFuel workStart workEnd) now bookedSlots workEnd workStart.

Definition dayFilter (vet : string) (dayStart dayEnd : Z) (doc : string * Appointment) : bool :=
  String.eqb (veterinarianId doc.2) vet
  && isBlocking (status doc.2)
  && (dayStart <=? dateTime doc.2)
  && (dateTime doc.2 <=? dayEnd).

Definition getAvailability (veterinarianId : string) (date : option JsDate)
  : Handler Response :=
  tryCatch (
    match date with
    | None => ret (ErrorJson 400 "MISSING_DATE")
    | Some InvalidDate => ret (ErrorJson 400 "INVALID_DATE")
    | Some (ValidDate requestedDate) =>
    let* e := askEnv in
    if requestedDate <? setHours (now e) 0 0 0 0 then ret (ErrorJson 400 "INVALID_DATE")
    else
    let* vetDoc := getUser veterinarianId in
    if match vetDoc with
       | None => true
       | Some vet => negb (String.eqb (role vet) "veterinarian")
       end
    then ret (ErrorJson 404 "VET_NOT_FOUND")
    else
    let dayStart := setHours requestedDate 0 0 0 0 in
    let dayEnd := setHours requestedDate 23 59 59 999 in
    let* dayStartTime := timestampFromDate (ValidDate dayStart) in
    let* dayEndTime := timestampFromDate (ValidDate dayEnd) in
    let* appointmentsSnapshot :=
      queryAppointments (dayFilter veterinarianId dayStartTime dayEndTime) in
    let bookedSlots :=
      map (fun doc : string * Appointment =>
             {| start := dateTime doc.2; slot_duration := duration doc.2 |})
          appointmentsSnapshot in
    let workStart := setHours requestedDate 9 0 0 0 in
    let workEnd := setHours requestedDate 17 0 0 0 in
    ret (Json 200 (Availability veterinarianId
                     (generateSlots (now e) bookedSlots workStart workEnd)))
    end
  ) "GET_AVAILABILITY_FAILED".

(** ** The scheduling rules in the specification's words *)

(** End of an appointment's interval,
    [startTime + durationMinutes * 60s]. *)
Definition endTime (a : Appointment) : Z := dateTime a + duration a * 60000.

(** Half-open overlap of a candidate [cs, ce) with an existing [es, ee):
    [candidate.start < existing.end AND existing.start < candidate.end]. *)
Definition overlaps (cs ce es ee : Z) : Prop := cs < ee /\ es < ce.

(** Terminal statuses of the lifecycle. *)
Definition isTerminal (s : string) : bool :=
  existsb (String.eqb s) ["cancelled"; "completed"; "no_show"].

(** No call of the database rejects. *)
Definition reliable (e : Env) : Prop := forall op, fails e op = false.

(** The documents a conflict query returns on a database state. *)
Definition conflictSnapshot (w : World) (vet : string) (startTime endTime : Z)
  : list (string * Appointment) :=
  List.filter (conflictFilter vet startTime endTime) (map_to_list (appointments w)).

(** The document [id] is stored as a pending or confirmed appointment of
    veterinarian [vet] starting at [t]. *)
Definition stillBooked (w : World) (id vet : string) (t : Z) : Prop :=
  exists b, appointments w !! id = Some b
    /\ isBlocking (status b) = true
    /\ veterinarianId b = vet
    /\ dateTime b = t.

(** The handler answered with a success body. *)
Definition isJson (r : outcome Response) : bool :=
  match r with
  | Returned (Json _ _) => true
  | _ => false
  end.

(** ** Sample data for the scenarios *)

(** 2025-06-01T00:00Z, and a time of day on that date. *)
Definition june1 : Z := 1748736000000.
Definition at_ (h m : Z) : Z := june1 + h * 3600000 + m * 60000.

Definition booking (vet : string) (t d : Z) (st : string) : Appointment :=
  {| ownerId := "owner1"; petId := "pet1"; veterinarianId := vet;
     dateTime := t; duration := d; type := "checkup"; reason := "limping";
     notes := None; status := st; createdAt := 0; updatedAt := 0;
     statusReason := None; confirmedAt := None; completedAt := None;
     cancelledAt := None; rescheduledAt := None; rescheduleReason := None |}.

(** A clinic with one owner, one pet, one approved veterinarian and the
    given appointments. *)
Definition clinic (appts : gmap string Appointment) : World :=
  {| appointments := appts;
     pets := {[ "pet1" := mkPet "owner1" "Rex" ]};
     users := {[ "vet1" := mkUser "veterinarian" "approved" "Vera" "Vet";
                 "owner1" := mkUser "owner" "none" "Olive" "Owner" ]};
     notifications := [] |}.

(** A request on 2025-05-23 with every database call succeeding. *)
Definition quiet : Env :=
  {| now := 1748000000000; autoId := "new1"; fails := fun _ => false;
     toLocaleString := fun _ => "6/1/2025"; now_valid := eq_refl |}.

(** The same, with another id for the document that [add] creates. *)
Definition quietWith (id : string) : Env :=
  {| now := 1748000000000; autoId := id; fails := fun _ => false;
     toLocaleString := fun _ => "6/1/2025"; now_valid := eq_refl |}.

(** A request in the evening of 2025-06-01. *)
Definition evening : Env :=
  {| now := at_ 18 0; autoId := "new1"; fails := fun _ => false;
     toLocaleString := fun _ => "6/1/2025"; now_valid := eq_refl |}.

(** The same request with the notification write rejecting. *)
Definition notifyDown : Env :=
  {| now := 1748000000000; autoId := "new1";
     fails := fun op => match op with WriteNotification => true | _ => false end;
     toLocaleString := fun _ => "6/1/2025"; now_valid := eq_refl |}.

(** U+00A0, the no-break space, and U+FEFF, the byte order mark. *)
Definition nbsp : string := String "194" (String "160" "").
Definition bom : string := String "239" (String "187" (String "191" "")).

Definition request (t : Z) (d : option Z) : CreateBody :=
  {| body_petId := Some "pet1"; body_veterinarianId := Some "vet1";
     body_dateTime := Some (ValidDate t); body_type := Some "checkup";
     body_reason := Some "limping"; body_notes := None; body_duration := d |}.

(** A booking that its veterinarian confirmed on 2025-05-11. *)
Definition confirmedBooking (vet : string) (t d : Z) : Appointment :=
  {| ownerId := "owner1"; petId := "pet1"; veterinarianId := vet;
     dateTime := t; duration := d; type := "checkup"; reason := "limping";
     notes := None; status := "confirmed"; createdAt := 0; updatedAt := 1747000000000;
     statusReason := None; confirmedAt := Some 1747000000000; completedAt := None;
     cancelledAt := None; rescheduledAt := None; rescheduleReason := None |}.

(** The booked slots the availability handler collects for a date. *)
Definition dayBookings (w : World) (vet : string) (requestedDate : Z) : list BookedSlot :=
  map (fun doc : string * Appointment =>
         {| start := dateTime doc.2; slot_duration := duration doc.2 |})
      (List.filter (dayFilter vet (setHours requestedDate 0 0 0 0)
                      (setHours requestedDate 23 59 59 999))
         (map_to_list (appointments w))).

(** All appointments a list request matches, in the order of the query:
    what the query returns before [limit] and [offset] are applied. *)
Definition matchingAppointments (w : World) (uid : string) (q : ListQuery) (t : Z)
  : list (string * Appointment) :=
  orderBy (fun x y : string * Appointment =>
             if q_upcoming q then dateTime x.2 <=? dateTime y.2
             else dateTime y.2 <=? dateTime x.2)
    (List.filter (listFilter (role <$> users w !! uid) uid q t)
       (map_to_list (appointments w))).

(** ** GET /:appointmentId *)

(** The response of the single-appointment route: the stored document
    with its id, the pet document and the veterinarian's user document
    when they exist. *)
Inductive DetailResponse :=
| DetailJson (httpStatus : Z) (id : string) (appointment : Appointment)
             (pet : option Pet) (veterinarian : option User)
| DetailError (httpStatus : Z) (code : string).

Definition getAppointmentById (uid appointmentId : string) : Handler DetailResponse :=
  fun e w =>
    match
      (let* appointmentDoc := getAppointment appointmentId in
       match appointmentDoc with
       | None => ret (DetailError 404 "APPOINTMENT_NOT_FOUND")
       | Some appointmentData =>
       if negb (String.eqb (ownerId appointmentData) uid)
          && negb (String.eqb (veterinarianId appointmentData) uid)
       then ret (DetailError 403 "ACCESS_DENIED")
       else
       let* petDoc := getPet (petId appointmentData) in
       let* vetDoc := getUser (veterinarianId appointmentData) in
       ret (DetailJson 200 appointmentId appointmentData petDoc vetDoc)
       end) e w
    with
    | (Returned r, w') => (Returned r, w')
    | (Thrown, w') => (Returned (DetailError 500 "GET_APPOINTMENT_FAILED"), w')
    end.

(** ** The [verifyToken] middleware *)

(** [s.split(sep)] for a non-empty separator: the pieces between the
    occurrences of [sep], found from left to right.  [skip] counts the
    characters of an occurrence that are still to be passed over, [cur] is
    the piece read so far. *)
Fixpoint splitFrom (sep : string) (skip : nat) (cur : string) (s : string) : list string :=
  match s with
  | EmptyString => [cur]
  | String c s' =>
      match skip with
      | S k => splitFrom sep k cur s'
      | O =>
          if String.prefix sep s
          then cur :: splitFrom sep (String.length sep - 1) "" s'
          else splitFrom sep 0 (cur +:+ String c "") s'
      end
  end.

Definition split (sep s : string) : list string := splitFrom sep 0 "" s.

(** [verifyIdToken] is the identity provider: the uid of the decoded
    token, or [None] when it rejects.  [next] is the route handler, run
    with [req.user.uid]. *)
Definition verifyToken (verifyIdToken : string -> option string)
  (authorization : option string) (next : string -> Handler Response) : Handler Response :=
  match authorization with
  | None => ret (ErrorJson 401 "NO_TOKEN")
  | Some authHeader =>
      if negb (truthy (Some authHeader)) || negb (String.prefix "Bearer " authHeader)
      then ret (ErrorJson 401 "NO_TOKEN")
      else
        match split "Bearer " authHeader !! 1%nat with
        | None => ret (ErrorJson 401 "INVALID_TOKEN")
        | Some idToken =>
            match verifyIdToken idToken with
            | None => ret (ErrorJson 401 "INVALID_TOKEN")
            | Some uid => next uid
            end
        end
  end.

(** [sep] occurs somewhere in [s]. *)
Fixpoint occurs (sep s : string) : bool :=
  String.prefix sep s
  || match s with
     | String _ s' => occurs sep s'
     | EmptyString => false
     end.

(** ** Invariants of the appointment collection *)

(** No two pending or confirmed appointments of one veterinarian start at
    the same instant. *)
Definition distinctStarts (m : gmap string Appointment) : Prop :=
  forall id1 id2 a1 a2,
    id1 <> id2 -> m !! id1 = Some a1 -> m !! id2 = Some a2 ->
    veterinarianId a1 = veterinarianId a2 ->
    isBlocking (status a1) = true -> isBlocking (status a2) = true ->
    dateTime a1 <> dateTime a2.

(** The item of the list response for a document of the page. *)
Definition enrich (w : World) (doc : string * Appointment)
  : string * Appointment * option Pet * option User :=
  (doc.1, doc.2, pets w !! petId doc.2, users w !! veterinarianId doc.2).

(** The page of a list request: the ordered matches after [offset], cut
    at [limit]. *)
Definition pageOf (w : World) (uid : string) (q : ListQuery) (t : Z)
  : list (string * Appointment) :=
  take (Z.to_nat (default 20 (q_limit q)))
    (drop (Z.to_nat (default 0 (q_offset q))) (matchingAppointments w uid q t)).

(** ** The documents create writes *)

(** The appointment document create stores for a request with start [t],
    made at time [t0]. *)
Definition createdDocument (uid : string) (body : CreateBody) (t t0 : Z) : Appointment :=
  {| ownerId := uid; petId := str (body_petId body);
     veterinarianId := str (body_veterinarianId body);
     dateTime := t; duration := default 30 (body_duration body);
     type := str (body_type body);
     reason := trim (str (body_reason body));
     notes := if truthy (body_notes body) then Some (trim (str (body_notes body))) else None;
     status := "pending";
     createdAt := t0; updatedAt := t0;
     statusReason := None; confirmedAt := None; completedAt := None;
     cancelledAt := None; rescheduledAt := None; rescheduleReason := None |}.

(** The notification create adds for the veterinarian. *)
Definition createdNotification (body : CreateBody) (pet : Pet) (docId : string)
  : Notification :=
  {| userId := str (body_veterinarianId body); n_type := "new_appointment";
     title := "New Appointment Request";
     message := "New appointment request for " +:+ pet_name pet;
     n_appointmentId := docId |}.

(** The required fields of a create request are all present and
    non-empty. *)
Definition hasRequiredFields (body : CreateBody) : bool :=
  truthy (body_petId body) && truthy (body_veterinarianId body)
  && bool_decide (is_Some (body_dateTime body))
  && truthy (body_type body) && truthy (body_reason body).

(** The notification the reschedule route adds. *)
Definition rescheduleNotification (e : Env) (uid id : string) (t : Z) (a : Appointment)
  : Notification :=
  {| userId := otherParty uid a; n_type := "appointment_rescheduled";
     title := "Appointment Rescheduled";
     message := "Your appointment has been rescheduled to " +:+ toLocaleString e t;
     n_appointmentId := id |}.

(** The parts of an item of the list response. *)
Definition itemId (item : string * Appointment * option Pet * option User) : string :=
  item.1.1.1.
Definition itemAppointment (item : string * Appointment * option Pet * option User)
  : Appointment := item.1.1.2.
Definition itemPet (item : string * Appointment * option Pet * option User) : option Pet :=
  item.1.2.
Definition itemVet (item : string * Appointment * option Pet * option User) : option User :=
  item.2.

(** The order of the list query: ascending starts for upcoming
    appointments, descending otherwise. *)
Definition inQueryOrder (upcoming : bool) (a b : Appointment) : Prop :=
  if upcoming then dateTime a <= dateTime b else dateTime b <= dateTime a.

(** ** Running a handler symbolically *)

(** Exposes the database calls of a handler body as case distinctions on
    the environment and the database state. *)
Ltac unfold_db :=
  unfold tryCatch, bind, getAppointment, getPet, getUser, queryAppointments,
    updateAppointment, addAppointment, addNotificationWith, addNotification,
    await, askEnv, ret, throw.

(** * Properties *)

(** ** Conflict detection on create and reschedule *)

(** C1: the half-open overlap rule is only half implemented.  With a
    confirmed 30-minute booking of the veterinarian at 2025-06-01T10:00Z,
    a 30-minute request at 10:15Z overlaps it under the rule, yet the
    create handler answers 201 and stores the appointment; the requests at
    10:00Z (409) and at 10:30Z (201) behave as the scenario says. *)
Theorem create_misses_earlier_booking :
  let w := clinic {[ "a1" := booking "vet1" (at_ 10 0) 30 "confirmed" ]} in
  overlaps (at_ 10 15) (at_ 10 15 + 30 * 60000) (at_ 10 0) (endTime (booking "vet1" (at_ 10 0) 30 "confirmed"))
  /\ conflictSnapshot w "vet1" (at_ 10 15) (at_ 10 15 + 30 * 60000) = []
  /\ (exists a w', createAppointment "owner1" (request (at_ 10 15) (Some 30)) quiet w
                   = (Returned (Json 201 (Created "new1" a)), w')
                   /\ appointments w' !! "new1" = Some a
                   /\ dateTime a = at_ 10 15 /\ duration a = 30)
  /\ (createAppointment "owner1" (request (at_ 10 0) (Some 30)) quiet w).1
     = Returned (ErrorJson 409 "TIME_CONFLICT")
  /\ (exists a, (createAppointment "owner1" (request (at_ 10 30) (Some 30)) quiet w).1
                = Returned (Json 201 (Created "new1" a))).
Proof.
  cbv zeta. split; [| split; [| split; [| split]]].
  - unfold overlaps, endTime. vm_compute. split; reflexivity.
  - vm_compute. reflexivity.
  - eexists _, _. split; [vm_compute; reflexivity |].
    split; vm_compute; auto.
  - vm_compute. reflexivity.
  - eexists. vm_compute. reflexivity.
Qed.

(** *** What the conflict query selects *)

Lemma isBlocking_spec s :
  isBlocking s = true <-> s = "confirmed" \/ s = "pending".
Proof.
  unfold isBlocking. cbn [existsb]. rewrite !orb_true_iff, !String.eqb_eq.
  intuition discriminate.
Qed.

Lemma conflictFilter_spec vet s e id a :
  conflictFilter vet s e (id, a) = true
  <-> veterinarianId a = vet /\ isBlocking (status a) = true /\ s <= dateTime a < e.
Proof.
  unfold conflictFilter. cbn [snd].
  rewrite !andb_true_iff, String.eqb_eq, Z.leb_le, Z.ltb_lt. tauto.
Qed.

Lemma elem_of_conflictSnapshot w vet s e id a :
  In (id, a) (conflictSnapshot w vet s e)
  <-> appointments w !! id = Some a /\ conflictFilter vet s e (id, a) = true.
Proof.
  unfold conflictSnapshot. rewrite filter_In, <- list_elem_of_In, elem_of_map_to_list.
  tauto.
Qed.

Lemma hasConflict_spec docs id :
  hasConflict docs id = true <-> exists id' a, In (id', a) docs /\ id' <> id.
Proof.
  unfold hasConflict. rewrite existsb_exists. split.
  - intros [[id' a] [Hin Hne]]. exists id', a. split; [exact Hin |].
    cbn in Hne. apply negb_true_iff, String.eqb_neq in Hne. exact Hne.
  - intros (id' & a & Hin & Hne). exists (id', a). split; [exact Hin |].
    cbn. apply negb_true_iff, String.eqb_neq. exact Hne.
Qed.

(** A booking that the query selects overlaps the candidate under the
    half-open rule, provided its own interval is not empty. *)
Lemma conflictFilter_overlaps vet s e id a :
  0 < duration a ->
  conflictFilter vet s e (id, a) = true ->
  overlaps s e (dateTime a) (endTime a).
Proof.
  intros Hd H. apply conflictFilter_spec in H as (_ & _ & Hs & He).
  unfold overlaps, endTime. lia.
Qed.

(** A 409 of the create handler comes from a document that the
    conflict query selects for the requested interval. *)
Lemma create_conflict_inv uid body e w code w' :
  createAppointment uid body e w = (Returned (ErrorJson 409 code), w') ->
  exists t id b,
    body_dateTime body = Some (ValidDate t)
    /\ In (id, b) (conflictSnapshot w (str (body_veterinarianId body)) t
                     (t + default 30 (body_duration body) * 60000)).
Proof.
  unfold createAppointment. unfold_db.
  destruct (negb _); [intros [=] |].
  destruct (fails e ReadPet); [intros [=] |].
  destruct (pets w !! _) as [pet|]; [| intros [=]].
  destruct (negb _); [intros [=] |].
  destruct (fails e ReadUser); [intros [=] |].
  destruct (match users w !! _ with Some _ => _ | None => _ end); [intros [=] |].
  destruct (body_dateTime body) as [d|].
  2: { change (default InvalidDate None) with InvalidDate.
       cbn [dateLeb timestampFromDate ret throw]. intros [=]. }
  change (default InvalidDate (Some d)) with d.
  destruct (dateLeb d (now e)); [intros [=] |].
  destruct d as [t|]; cbn [timestampFromDate ret throw]; [| intros [=]].
  destruct (validTimestamp t) eqn:Hvt; cbn [timestampFromDate ret throw]; [| intros [=]].
  destruct (validTimestamp (t + _)) eqn:Hve; cbn [timestampFromDate ret throw]; [| intros [=]].
  destruct (fails e QueryAppointments); [intros [=] |].
  fold (conflictSnapshot w (str (body_veterinarianId body)) t
          (t + default 30 (body_duration body) * 60000)).
  destruct (conflictSnapshot _ _ _ _) as [| [id b] rest] eqn:Hq.
  - rewrite bool_decide_eq_true_2 by reflexivity. cbn [negb].
    destruct (fails e WriteAppointment); [intros [=] |].
    cbn. destruct (fails e WriteNotification); intros [=].
  - intros _. exists t, id, b. split; [reflexivity |].
    rewrite Hq. left. reflexivity.
Qed.

(** Every 409 of create is a real overlap with a blocking booking of the
    veterinarian, as long as that booking's interval is proper. *)
Lemma create_conflict_overlaps uid body e w code w' :
  createAppointment uid body e w = (Returned (ErrorJson 409 code), w') ->
  exists t id b,
    body_dateTime body = Some (ValidDate t)
    /\ appointments w !! id = Some b
    /\ veterinarianId b = str (body_veterinarianId body)
    /\ isBlocking (status b) = true
    /\ (0 < duration b ->
        overlaps t (t + default 30 (body_duration body) * 60000) (dateTime b) (endTime b)).
Proof.
  intros Hrun. apply create_conflict_inv in Hrun as (t & id & b & Ht & Hin).
  apply elem_of_conflictSnapshot in Hin as [Hb Hf].
  exists t, id, b. split; [exact Ht |]. split; [exact Hb |].
  pose proof Hf as Hf'. apply conflictFilter_spec in Hf' as (Hvet & Hblk & _).
  split; [exact Hvet |]. split; [exact Hblk |].
  intros Hd. eapply conflictFilter_overlaps; eassumption.
Qed.

(** C6, as stated, fails for a booking of no length.  Create accepts a
    request of duration 0 at 10:00 and stores it: the booking spans
    [10:00, 10:00) and so ends exactly at 10:00.  A 30-minute candidate
    starting at 10:00 is then answered 409: the conflict query selects the
    booking by its start and never looks at its end. *)
Lemma empty_booking_blocks_candidate_at_its_end :
  let w1 := (createAppointment "owner1" (request (at_ 10 0) (Some 0)) quiet (clinic ∅)).2 in
  exists b,
    (createAppointment "owner1" (request (at_ 10 0) (Some 0)) quiet (clinic ∅)).1
    = Returned (Json 201 (Created "new1" b))
    /\ appointments w1 !! "new1" = Some b
    /\ endTime b = at_ 10 0
    /\ conflictFilter "vet1" (at_ 10 0) (at_ 10 0 + 30 * 60000) ("new1", b) = true
    /\ (createAppointment "owner1" (request (at_ 10 0) (Some 30)) (quietWith "new2") w1).1
       = Returned (ErrorJson 409 "TIME_CONFLICT").
Proof.
  cbv zeta. eexists. split; [vm_compute; reflexivity |].
  split; [vm_compute; reflexivity |].
  split; [vm_compute; reflexivity |].
  split; vm_compute; reflexivity.
Qed.

(** C6, amended: for bookings of positive duration the conflict check is
    half-open at the end.  A booking of positive duration that ends
    exactly at [T] is not selected by the conflict query for a candidate
    starting at [T], whatever the candidate's end; a booking starting at
    [T] is not selected for a candidate ending exactly at [T], whatever
    the candidate's start; and a create request whose interval only
    touches the stored bookings in these two ways is never answered
    409. *)
Theorem conflict_query_half_open (vet : string) (T : Z) (id : string) (b : Appointment) :
  (0 < duration b -> endTime b = T ->
   forall candidateEnd, conflictFilter vet T candidateEnd (id, b) = false)
  /\ (dateTime b = T ->
      forall candidateStart, conflictFilter vet candidateStart T (id, b) = false)
  /\ (forall uid body e w,
         body_dateTime body = Some (ValidDate T) ->
         (forall id' b', appointments w !! id' = Some b' ->
            (0 < duration b' /\ endTime b' = T)
            \/ dateTime b' = T + default 30 (body_duration body) * 60000) ->
         forall code,
           (createAppointment uid body e w).1 <> Returned (ErrorJson 409 code)).
Proof.
  assert (Hends : forall i x, 0 < duration x -> endTime x = T ->
            forall candidateEnd, conflictFilter vet T candidateEnd (i, x) = false).
  { intros i x Hd HT candidateEnd. apply not_true_is_false. intros H.
    apply conflictFilter_spec in H as (_ & _ & Hs & _).
    unfold endTime in HT. lia. }
  split; [apply Hends |]. split.
  - intros HT candidateStart. apply not_true_is_false. intros H.
    apply conflictFilter_spec in H as (_ & _ & _ & He). lia.
  - intros uid body e w HT Htouch code Hr.
    destruct (createAppointment uid body e w) as [r w'] eqn:Hrun. cbn in Hr. subst r.
    apply create_conflict_inv in Hrun as (t & id' & b' & Ht & Hin).
    rewrite HT in Ht. injection Ht as <-.
    apply elem_of_conflictSnapshot in Hin as [Hb' Hf].
    apply conflictFilter_spec in Hf as (_ & _ & Hs & He).
    destruct (Htouch id' b' Hb') as [[Hd Hend] | Hstart].
    + unfold endTime in Hend. lia.
    + lia.
Qed.

Lemma conflict_query_half_open_witness :
  (forall candidateEnd,
      conflictFilter "vet1" (at_ 10 30) candidateEnd
        ("a1", booking "vet1" (at_ 10 0) 30 "confirmed") = false)
  /\ (forall candidateStart,
         conflictFilter "vet1" candidateStart (at_ 10 0)
           ("a1", booking "vet1" (at_ 10 0) 30 "confirmed") = false)
  /\ (createAppointment "owner1" (request (at_ 10 30) (Some 30)) quiet
        (clinic {[ "a1" := booking "vet1" (at_ 10 0) 30 "confirmed";
                   "a2" := booking "vet1" (at_ 11 0) 30 "pending" ]})).1
     <> Returned (ErrorJson 409 "TIME_CONFLICT").
Proof.
  split; [| split].
  - apply (proj1 (conflict_query_half_open "vet1" (at_ 10 30) "a1"
                    (booking "vet1" (at_ 10 0) 30 "confirmed"))).
    + simpl. lia.
    + reflexivity.
  - apply (proj1 (proj2 (conflict_query_half_open "vet1" (at_ 10 0) "a1"
                           (booking "vet1" (at_ 10 0) 30 "confirmed")))).
    reflexivity.
  - apply (proj2 (proj2 (conflict_query_half_open "vet1" (at_ 10 30) "a1"
                           (booking "vet1" (at_ 10 0) 30 "confirmed")))).
    + reflexivity.
    + intros id' b' Hb'. cbn [clinic appointments] in Hb'.
      apply lookup_insert_Some in Hb' as [[_ <-] | [_ Hb']].
      * left. split; [simpl; lia | reflexivity].
      * apply lookup_singleton_Some in Hb' as [_ <-]. right. reflexivity.
Defined.

(** A 409 of the reschedule handler comes from a document of the conflict
    query whose id differs from the rescheduled appointment's. *)
Lemma reschedule_conflict_inv e w uid id body code w' :
  reschedule uid id body e w = (Returned (ErrorJson 409 code), w') ->
  exists X t, appointments w !! id = Some X
    /\ rb_newDateTime body = Some (ValidDate t)
    /\ hasConflict (conflictSnapshot w (veterinarianId X) t (t + duration X * 60000)) id
       = true.
Proof.
  unfold reschedule. unfold_db.
  destruct (rb_newDateTime body) as [d|]; [| intros [=]].
  destruct (fails e ReadAppointment); [intros [=] |].
  destruct (appointments w !! id) as [X|] eqn:HX; [| intros [=]].
  destruct (_ && _); [intros [=] |].
  destruct (dateLeb d (now e)); [intros [=] |].
  destruct d as [t|]; cbn [timestampFromDate ret throw]; [| intros [=]].
  destruct (validTimestamp t) eqn:Hvt; cbn [timestampFromDate ret throw]; [| intros [=]].
  destruct (validTimestamp (t + _)) eqn:Hve; cbn [timestampFromDate ret throw]; [| intros [=]].
  destruct (fails e QueryAppointments); [intros [=] |].
  fold (conflictSnapshot w (veterinarianId X) t (t + duration X * 60000)).
  destruct (hasConflict _ id) eqn:Hc.
  - intros _. exists X, t. auto.
  - destruct (fails e WriteAppointment); [intros [=] |].
    rewrite HX. cbn.
    destruct (rb_reason body); [destruct (fails e WriteNotification) |]; intros [=].
Qed.

(** C7, as stated, fails.  Create accepts 30-minute bookings of one
    veterinarian at 10:00 and at 10:15 (the second starts inside the
    first, which the conflict query of create does not see).  Rescheduling
    the first to its own start 10:00 is then answered 409: the second
    booking starts inside the window [10:00, 10:30). *)
Lemma reschedule_to_own_time_refused :
  let w1 := (createAppointment "owner1" (request (at_ 10 0) (Some 30)) quiet (clinic ∅)).2 in
  let w2 :=
    (createAppointment "owner1" (request (at_ 10 15) (Some 30)) (quietWith "new2") w1).2 in
  (exists a, (createAppointment "owner1" (request (at_ 10 0) (Some 30)) quiet (clinic ∅)).1
             = Returned (Json 201 (Created "new1" a)))
  /\ (exists a,
        (createAppointment "owner1" (request (at_ 10 15) (Some 30)) (quietWith "new2") w1).1
        = Returned (Json 201 (Created "new2" a)))
  /\ dateTime <$> appointments w2 !! "new1" = Some (at_ 10 0)
  /\ reschedule "owner1" "new1"
       {| rb_newDateTime := Some (ValidDate (at_ 10 0)); rb_reason := Some "same time" |}
       quiet w2
     = (Returned (ErrorJson 409 "TIME_CONFLICT"), w2).
Proof.
  cbv zeta. split; [eexists; vm_compute; reflexivity |].
  split; [eexists; vm_compute; reflexivity |].
  split; vm_compute; reflexivity.
Qed.

(** C7, amended: self-exclusion.  When appointment [X] is rescheduled to
    its own current start time, [X] itself never blocks the move: a 409
    TIME_CONFLICT is always caused by another pending or confirmed
    appointment of the same veterinarian that starts inside
    [X.start, X.start + X.duration), and when there is no such
    appointment the handler does not answer 409. *)
Theorem reschedule_to_own_time (e : Env) (w : World) (uid id : string)
  (X : Appointment) (rsn : option string) :
  appointments w !! id = Some X ->
  (forall code,
      (reschedule uid id
         {| rb_newDateTime := Some (ValidDate (dateTime X)); rb_reason := rsn |} e w).1
      = Returned (ErrorJson 409 code) ->
      exists id' Y,
        id' <> id /\ appointments w !! id' = Some Y
        /\ veterinarianId Y = veterinarianId X /\ isBlocking (status Y) = true
        /\ dateTime X <= dateTime Y < endTime X)
  /\ ((forall id' Y, id' <> id -> appointments w !! id' = Some Y ->
         veterinarianId Y = veterinarianId X -> isBlocking (status Y) = true ->
         ~ (dateTime X <= dateTime Y < endTime X)) ->
      forall code,
        (reschedule uid id
           {| rb_newDateTime := Some (ValidDate (dateTime X)); rb_reason := rsn |} e w).1
        <> Returned (ErrorJson 409 code)).
Proof.
  intros HX.
  assert (Hcause : forall code,
    (reschedule uid id
       {| rb_newDateTime := Some (ValidDate (dateTime X)); rb_reason := rsn |} e w).1
    = Returned (ErrorJson 409 code) ->
    exists id' Y,
      id' <> id /\ appointments w !! id' = Some Y
      /\ veterinarianId Y = veterinarianId X /\ isBlocking (status Y) = true
      /\ dateTime X <= dateTime Y < endTime X).
  { intros code Hr.
    destruct (reschedule _ _ _ e w) as [r w'] eqn:Hrun. cbn in Hr. subst r.
    apply reschedule_conflict_inv in Hrun as (X' & t & HX' & Ht & Hc).
    cbn in Ht. rewrite HX in HX'. injection HX' as <-. injection Ht as <-.
    apply hasConflict_spec in Hc as (id' & Y & Hin & Hne).
    apply elem_of_conflictSnapshot in Hin as [HY Hf].
    apply conflictFilter_spec in Hf as (Hvet & Hblk & Hwin).
    exists id', Y. unfold endTime. auto. }
  split; [exact Hcause |].
  intros Hothers code Hr.
  destruct (Hcause code Hr) as (id' & Y & Hne & HY & Hvet & Hblk & Hwin).
  exact (Hothers id' Y Hne HY Hvet Hblk Hwin).
Qed.

Lemma reschedule_to_own_time_witness :
  (reschedule "owner1" "a1"
     {| rb_newDateTime := Some (ValidDate (at_ 10 0)); rb_reason := Some "same time" |} quiet
     (clinic {[ "a1" := booking "vet1" (at_ 10 0) 30 "confirmed";
                "a2" := booking "vet1" (at_ 10 30) 30 "pending" ]})).1
  <> Returned (ErrorJson 409 "TIME_CONFLICT").
Proof.
  refine (proj2 (reschedule_to_own_time quiet
            (clinic {[ "a1" := booking "vet1" (at_ 10 0) 30 "confirmed";
                       "a2" := booking "vet1" (at_ 10 30) 30 "pending" ]})
            "owner1" "a1" (booking "vet1" (at_ 10 0) 30 "confirmed") (Some "same time")
            _) _ "TIME_CONFLICT").
  - reflexivity.
  - intros id' Y Hne HY _ _. cbn [clinic appointments] in HY.
    rewrite lookup_insert_ne in HY by congruence.
    apply lookup_singleton_Some in HY as [_ <-].
    unfold endTime. vm_compute. intros [_ H]. discriminate H.
Defined.

(** ** Status changes and the appointment's current status *)

(** The success path of the status handler, whatever the stored status:
    the request carries a reason, so the notification document is one
    that Firestore takes. *)
Lemma updateStatus_ok e w uid id body a :
  reliable e ->
  appointments w !! id = Some a ->
  existsb (String.eqb (sb_status body)) validStatuses = true ->
  permissionError (sb_status body) uid a = None ->
  is_Some (sb_reason body) ->
  updateStatus uid id body e w
  = (Returned (Json 200 (Message "Appointment status updated successfully")),
     {| appointments :=
          <[id := statusUpdate (sb_status body) (sb_reason body) (now e) a]> (appointments w);
        pets := pets w; users := users w;
        notifications := notifications w ++ [statusNotification uid id (sb_status body) a] |}).
Proof.
  intros Hrel Ha Hvalid Hperm [r Hr]. unfold updateStatus. unfold_db.
  rewrite Hvalid. cbn [negb]. rewrite Hrel, Ha, Hperm, Hrel, Ha. cbn.
  rewrite Hr, Hrel. reflexivity.
Qed.

(** Without a reason in the body the update is written first and the
    notification document is refused afterwards: the response is the 500
    of the [catch] block and the new status stays stored. *)
Lemma updateStatus_no_reason e w uid id body a :
  fails e ReadAppointment = false ->
  fails e WriteAppointment = false ->
  appointments w !! id = Some a ->
  existsb (String.eqb (sb_status body)) validStatuses = true ->
  permissionError (sb_status body) uid a = None ->
  sb_reason body = None ->
  updateStatus uid id body e w
  = (Returned (ErrorJson 500 "UPDATE_STATUS_FAILED"),
     setAppointments
       (<[id := statusUpdate (sb_status body) None (now e) a]> (appointments w)) w).
Proof.
  intros Hread Hwrite Ha Hvalid Hperm Hr. unfold updateStatus. unfold_db.
  rewrite Hvalid. cbn [negb]. rewrite Hread, Ha, Hperm, Hwrite, Ha. cbn.
  rewrite Hr. reflexivity.
Qed.

(** A rejection other than the 500 of the [catch] block happens before
    any write. *)
Lemma updateStatus_rejected_unchanged e w uid id body c code w' :
  updateStatus uid id body e w = (Returned (ErrorJson c code), w') ->
  c <> 500 -> w' = w.
Proof.
  unfold updateStatus. unfold_db.
  destruct (negb _); [intros [= <- <- <-]; reflexivity |].
  destruct (fails e ReadAppointment); [intros [= <- <- <-]; congruence |].
  destruct (appointments w !! id) as [a|] eqn:Ha; [| intros [= <- <- <-]; reflexivity].
  destruct (permissionError _ uid a) as [denied|]; [intros [= -> <-]; reflexivity |].
  destruct (fails e WriteAppointment); [intros [= <- <- <-]; congruence |].
  rewrite Ha. cbn.
  destruct (sb_reason body); [| intros [= <- <- <-]; congruence].
  destruct (fails e WriteNotification); [intros [= <- <- <-]; congruence | intros [=]].
Qed.

(** The success path of the reschedule handler, whatever the stored
    status: the new start and the end of the window are instants a
    [Timestamp] holds, and the request carries a reason. *)
Lemma reschedule_ok e w uid id t r a :
  reliable e ->
  appointments w !! id = Some a ->
  ownerId a = uid \/ veterinarianId a = uid ->
  now e < t ->
  validTimestamp t = true ->
  validTimestamp (t + duration a * 60000) = true ->
  hasConflict (conflictSnapshot w (veterinarianId a) t (t + duration a * 60000)) id = false ->
  reschedule uid id {| rb_newDateTime := Some (ValidDate t); rb_reason := Some r |} e w
  = (Returned (Json 200 (Message "Appointment rescheduled successfully")),
     {| appointments := <[id := rescheduleUpdate t (Some r) (now e) a]> (appointments w);
        pets := pets w; users := users w;
        notifications := notifications w ++
          [{| userId := otherParty uid a; n_type := "appointment_rescheduled";
              title := "Appointment Rescheduled";
              message := "Your appointment has been rescheduled to " +:+ toLocaleString e t;
              n_appointmentId := id |}] |}).
Proof.
  intros Hrel Ha Hacc Ht Hvt Hve Hc. unfold reschedule. unfold_db.
  cbn [rb_newDateTime rb_reason].
  rewrite !Hrel, Ha.
  replace (negb (String.eqb (ownerId a) uid) && negb (String.eqb (veterinarianId a) uid))
    with false.
  2: { symmetry. apply andb_false_iff.
       destruct Hacc as [<- | <-]; [left | right]; rewrite String.eqb_refl; reflexivity. }
  cbn [dateLeb]. replace (t <=? now e) with false by (symmetry; apply Z.leb_gt; exact Ht).
  cbn [timestampFromDate ret]. rewrite Hvt. cbn [timestampFromDate ret]. rewrite Hve.
  cbn [ret]. rewrite ?Hrel.
  fold (conflictSnapshot w (veterinarianId a) t (t + duration a * 60000)).
  rewrite Hc, ?Hrel, Ha. cbn. rewrite ?Hrel. reflexivity.
Qed.

(** Without a reason in the body the reschedule is written first and the
    notification document is refused afterwards. *)
Lemma reschedule_no_reason e w uid id t a :
  reliable e ->
  appointments w !! id = Some a ->
  ownerId a = uid \/ veterinarianId a = uid ->
  now e < t ->
  validTimestamp t = true ->
  validTimestamp (t + duration a * 60000) = true ->
  hasConflict (conflictSnapshot w (veterinarianId a) t (t + duration a * 60000)) id = false ->
  reschedule uid id {| rb_newDateTime := Some (ValidDate t); rb_reason := None |} e w
  = (Returned (ErrorJson 500 "RESCHEDULE_FAILED"),
     setAppointments (<[id := rescheduleUpdate t None (now e) a]> (appointments w)) w).
Proof.
  intros Hrel Ha Hacc Ht Hvt Hve Hc. unfold reschedule. unfold_db.
  cbn [rb_newDateTime rb_reason].
  rewrite !Hrel, Ha.
  replace (negb (String.eqb (ownerId a) uid) && negb (String.eqb (veterinarianId a) uid))
    with false.
  2: { symmetry. apply andb_false_iff.
       destruct Hacc as [<- | <-]; [left | right]; rewrite String.eqb_refl; reflexivity. }
  cbn [dateLeb]. replace (t <=? now e) with false by (symmetry; apply Z.leb_gt; exact Ht).
  cbn [timestampFromDate ret]. rewrite Hvt. cbn [timestampFromDate ret]. rewrite Hve.
  cbn [ret]. rewrite ?Hrel.
  fold (conflictSnapshot w (veterinarianId a) t (t + duration a * 60000)).
  rewrite Hc, ?Hrel, Ha. reflexivity.
Qed.

Lemma reschedule_rejected_unchanged e w uid id body c code w' :
  reschedule uid id body e w = (Returned (ErrorJson c code), w') ->
  c <> 500 -> w' = w.
Proof.
  unfold reschedule. unfold_db.
  destruct (rb_newDateTime body) as [d|]; [| intros [= <- <- <-]; reflexivity].
  destruct (fails e ReadAppointment); [intros [= <- <- <-]; congruence |].
  destruct (appointments w !! id) as [a|] eqn:Ha; [| intros [= <- <- <-]; reflexivity].
  destruct (_ && _); [intros [= <- <- <-]; reflexivity |].
  destruct (dateLeb d (now e)); [intros [= <- <- <-]; reflexivity |].
  destruct d as [t|]; cbn [timestampFromDate ret throw]; [| intros [= <- <- <-]; congruence].
  destruct (validTimestamp t) eqn:Hvt; cbn [timestampFromDate ret throw];
    [| intros [= <- <- <-]; congruence].
  destruct (validTimestamp (t + _)) eqn:Hve; cbn [timestampFromDate ret throw];
    [| intros [= <- <- <-]; congruence].
  destruct (fails e QueryAppointments); [intros [= <- <- <-]; congruence |].
  destruct (hasConflict _ id); [intros [= <- <- <-]; reflexivity |].
  destruct (fails e WriteAppointment); [intros [= <- <- <-]; congruence |].
  rewrite Ha. cbn.
  destruct (rb_reason body); [| intros [= <- <- <-]; congruence].
  destruct (fails e WriteNotification); [intros [= <- <- <-]; congruence | intros [=]].
Qed.

(** C2, as stated, fails: a cancelled appointment is confirmed by its
    veterinarian with a 200 response, and a completed one is rescheduled
    back to pending with a 200 response.  When the request body has no
    reason the response is a 500 (the notification document is refused),
    and the cancelled appointment is stored as confirmed all the same. *)
Lemma terminal_appointment_is_moved :
  isTerminal "cancelled" = true /\ isTerminal "completed" = true
  /\ (exists w',
        updateStatus "vet1" "a1"
          {| sb_status := "confirmed"; sb_reason := Some "booked by mistake" |} quiet
          (clinic {[ "a1" := booking "vet1" (at_ 10 0) 30 "cancelled" ]})
        = (Returned (Json 200 (Message "Appointment status updated successfully")), w')
        /\ status <$> appointments w' !! "a1" = Some "confirmed")
  /\ (exists w',
        reschedule "owner1" "a1"
          {| rb_newDateTime := Some (ValidDate (at_ 11 0));
             rb_reason := Some "follow-up" |} quiet
          (clinic {[ "a1" := booking "vet1" (at_ 10 0) 30 "completed" ]})
        = (Returned (Json 200 (Message "Appointment rescheduled successfully")), w')
        /\ status <$> appointments w' !! "a1" = Some "pending"
        /\ dateTime <$> appointments w' !! "a1" = Some (at_ 11 0))
  /\ (exists w',
        updateStatus "vet1" "a1" {| sb_status := "confirmed"; sb_reason := None |} quiet
          (clinic {[ "a1" := booking "vet1" (at_ 10 0) 30 "cancelled" ]})
        = (Returned (ErrorJson 500 "UPDATE_STATUS_FAILED"), w')
        /\ status <$> appointments w' !! "a1" = Some "confirmed").
Proof.
  split; [reflexivity |]. split; [reflexivity |]. split; [| split].
  - eexists. split; [vm_compute; reflexivity |]. vm_compute. reflexivity.
  - eexists. split; [vm_compute; reflexivity |]. split; vm_compute; reflexivity.
  - eexists. split; [vm_compute; reflexivity |]. vm_compute. reflexivity.
Qed.

(** C2, amended: the handlers never read the stored status and know no
    invalid transition.  For an appointment in a terminal status and a
    working database:
    - a status change with a valid target status by a permitted caller
      stores the requested status; the response is 200 when the body
      carries a reason and the 500 of the [catch] block when it carries
      none (the notification document is then refused, after the update);
    - a reschedule by the owner or the veterinarian to a future time with
      no conflict, whose start and window end are instants a [Timestamp]
      holds, stores the new start with status [pending]; the response is
      200 with a reason in the body and 500 without;
    - a request rejected by a validation, permission, date or conflict
      check (any error other than the 500) leaves the database
      unchanged. *)
Theorem terminal_status_is_not_checked (e : Env) (w : World) (uid id : string)
  (a : Appointment) :
  reliable e ->
  appointments w !! id = Some a ->
  isTerminal (status a) = true ->
  (forall body,
      existsb (String.eqb (sb_status body)) validStatuses = true ->
      permissionError (sb_status body) uid a = None ->
      exists w',
        updateStatus uid id body e w
        = (Returned match sb_reason body with
                    | Some _ => Json 200 (Message "Appointment status updated successfully")
                    | None => ErrorJson 500 "UPDATE_STATUS_FAILED"
                    end, w')
        /\ status <$> appointments w' !! id = Some (sb_status body))
  /\ (forall t rsn,
         ownerId a = uid \/ veterinarianId a = uid ->
         now e < t ->
         validTimestamp t = true ->
         validTimestamp (t + duration a * 60000) = true ->
         hasConflict (conflictSnapshot w (veterinarianId a) t (t + duration a * 60000)) id
         = false ->
         exists w',
           reschedule uid id {| rb_newDateTime := Some (ValidDate t); rb_reason := rsn |} e w
           = (Returned match rsn with
                       | Some _ => Json 200 (Message "Appointment rescheduled successfully")
                       | None => ErrorJson 500 "RESCHEDULE_FAILED"
                       end, w')
           /\ status <$> appointments w' !! id = Some "pending"
           /\ dateTime <$> appointments w' !! id = Some t)
  /\ (forall body c code w',
         updateStatus uid id body e w = (Returned (ErrorJson c code), w') ->
         c <> 500 -> w' = w)
  /\ (forall body c code w',
         reschedule uid id body e w = (Returned (ErrorJson c code), w') ->
         c <> 500 -> w' = w).
Proof.
  intros Hrel Ha _. split; [| split; [| split]].
  - intros body Hvalid Hperm. destruct (sb_reason body) as [r|] eqn:Hr.
    + eexists. split.
      * apply updateStatus_ok; eauto.
      * cbn [appointments]. rewrite lookup_insert_eq. reflexivity.
    + eexists. split.
      * apply updateStatus_no_reason; eauto.
      * cbn [setAppointments appointments]. rewrite lookup_insert_eq. reflexivity.
  - intros t [r|] Hacc Ht Hvt Hve Hc.
    + eexists. split; [apply reschedule_ok; eassumption |].
      cbn [appointments]. rewrite lookup_insert_eq. split; reflexivity.
    + eexists. split; [apply reschedule_no_reason; eassumption |].
      cbn [setAppointments appointments]. rewrite lookup_insert_eq. split; reflexivity.
  - intros body c code w'. apply updateStatus_rejected_unchanged.
  - intros body c code w'. apply reschedule_rejected_unchanged.
Qed.

Lemma terminal_status_is_not_checked_witness :
  exists w',
    updateStatus "vet1" "a1"
      {| sb_status := "completed"; sb_reason := Some "seen after all" |} quiet
      (clinic {[ "a1" := booking "vet1" (at_ 10 0) 30 "no_show" ]})
    = (Returned (Json 200 (Message "Appointment status updated successfully")), w')
    /\ status <$> appointments w' !! "a1" = Some "completed".
Proof.
  refine (proj1 (terminal_status_is_not_checked quiet
                  (clinic {[ "a1" := booking "vet1" (at_ 10 0) 30 "no_show" ]})
                  "vet1" "a1" (booking "vet1" (at_ 10 0) 30 "no_show")
                  _ _ _)
           {| sb_status := "completed"; sb_reason := Some "seen after all" |} _ _).
  - intros op. reflexivity.
  - reflexivity.
  - reflexivity.
  - reflexivity.
  - reflexivity.
Defined.

(** ** Notification failure after a status change *)

(** Once the permission checks passed and the update is written, a
    rejected notification write reaches the [catch] block: the response is
    the 500 error although the new status is stored. *)
Lemma updateStatus_notification_failure e w uid id body a :
  fails e ReadAppointment = false ->
  fails e WriteAppointment = false ->
  fails e WriteNotification = true ->
  appointments w !! id = Some a ->
  existsb (String.eqb (sb_status body)) validStatuses = true ->
  permissionError (sb_status body) uid a = None ->
  updateStatus uid id body e w
  = (Returned (ErrorJson 500 "UPDATE_STATUS_FAILED"),
     setAppointments
       (<[id := statusUpdate (sb_status body) (sb_reason body) (now e) a]> (appointments w)) w).
Proof.
  intros Hread Hwrite Hnotify Ha Hvalid Hperm. unfold updateStatus. unfold_db.
  rewrite Hvalid. cbn [negb]. rewrite Hread, Ha, Hperm, Hwrite, Ha. cbn.
  destruct (sb_reason body); [rewrite Hnotify |]; reflexivity.
Qed.

(** C3: the status handler does not swallow a notification failure.  The
    veterinarian confirms a pending appointment while the notification
    write rejects: the update is stored (status [confirmed]), no
    notification is stored, and the caller receives 500
    UPDATE_STATUS_FAILED instead of the success response.  The
    notification service's [createNotification] returns normally under
    the same failure. *)
Theorem status_change_reports_notification_failure :
  let w := clinic {[ "a1" := booking "vet1" (at_ 10 0) 30 "pending" ]} in
  let body := {| sb_status := "confirmed"; sb_reason := None |} in
  permissionError "confirmed" "vet1" (booking "vet1" (at_ 10 0) 30 "pending") = None
  /\ fails notifyDown WriteAppointment = false
  /\ (exists w',
        updateStatus "vet1" "a1" body notifyDown w
        = (Returned (ErrorJson 500 "UPDATE_STATUS_FAILED"), w')
        /\ status <$> appointments w' !! "a1" = Some "confirmed"
        /\ notifications w' = [])
  /\ createNotification (statusNotification "vet1" "a1" "confirmed"
                           (booking "vet1" (at_ 10 0) 30 "pending")) notifyDown w
     = (Returned tt, w).
Proof.
  cbv zeta. split; [reflexivity |]. split; [reflexivity |]. split.
  - eexists. split; [| split].
    + apply updateStatus_notification_failure with
        (a := booking "vet1" (at_ 10 0) 30 "pending"); reflexivity.
    + vm_compute. reflexivity.
    + reflexivity.
  - reflexivity.
Qed.

(** ** The duration stored by create *)

(** A created appointment is the document stored under the returned id;
    it is pending and carries the requested start and duration. *)
Lemma create_success_inv uid body e w c p w' :
  createAppointment uid body e w = (Returned (Json c p), w') ->
  exists a t,
    c = 201 /\ p = Created (autoId e) a
    /\ appointments w' !! autoId e = Some a
    /\ body_dateTime body = Some (ValidDate t)
    /\ dateTime a = t
    /\ duration a = default 30 (body_duration body)
    /\ status a = "pending"
    /\ conflictSnapshot w (str (body_veterinarianId body)) t
         (t + default 30 (body_duration body) * 60000) = [].
Proof.
  unfold createAppointment. unfold_db.
  destruct (negb _); [intros [=] |].
  destruct (fails e ReadPet); [intros [=] |].
  destruct (pets w !! _) as [pet|]; [| intros [=]].
  destruct (negb _); [intros [=] |].
  destruct (fails e ReadUser); [intros [=] |].
  destruct (match users w !! _ with Some _ => _ | None => _ end); [intros [=] |].
  destruct (body_dateTime body) as [d|].
  2: { change (default InvalidDate None) with InvalidDate.
       cbn [dateLeb timestampFromDate ret throw]. intros [=]. }
  change (default InvalidDate (Some d)) with d.
  destruct (dateLeb d (now e)) eqn:Hd; [intros [=] |].
  destruct d as [t|]; cbn [timestampFromDate ret throw]; [| intros [=]].
  destruct (validTimestamp t) eqn:Hvt; cbn [timestampFromDate ret throw]; [| intros [=]].
  destruct (validTimestamp (t + _)) eqn:Hve; cbn [timestampFromDate ret throw]; [| intros [=]].
  destruct (fails e QueryAppointments); [intros [=] |].
  fold (conflictSnapshot w (str (body_veterinarianId body)) t
          (t + default 30 (body_duration body) * 60000)).
  destruct (negb _) eqn:Hq; [intros [=] |].
  destruct (fails e WriteAppointment); [intros [=] |].
  cbn. destruct (fails e WriteNotification); [intros [=] |].
  intros [= <- <- <-]. eexists _, t. repeat split.
  - cbn. apply lookup_insert_eq.
  - apply negb_false_iff, bool_decide_eq_true in Hq. exact Hq.
Qed.

(** Everything a 201 of create tells about the request and the database. *)
Lemma create_success_full uid body e w c p w' :
  createAppointment uid body e w = (Returned (Json c p), w') ->
  exists pet vet t,
    hasRequiredFields body = true
    /\ pets w !! str (body_petId body) = Some pet /\ pet_ownerId pet = uid
    /\ users w !! str (body_veterinarianId body) = Some vet
    /\ role vet = "veterinarian" /\ vetApplicationStatus vet = "approved"
    /\ body_dateTime body = Some (ValidDate t) /\ now e < t
    /\ conflictSnapshot w (str (body_veterinarianId body)) t
         (t + default 30 (body_duration body) * 60000) = []
    /\ c = 201 /\ p = Created (autoId e) (createdDocument uid body t (now e))
    /\ w' = {| appointments :=
                 <[autoId e := createdDocument uid body t (now e)]> (appointments w);
               pets := pets w; users := users w;
               notifications :=
                 notifications w ++ [createdNotification body pet (autoId e)] |}.
Proof.
  unfold createAppointment. fold (hasRequiredFields body). unfold_db.
  destruct (hasRequiredFields body) eqn:Hreq; cbn [negb]; [| intros [=]].
  destruct (fails e ReadPet); [intros [=] |].
  destruct (pets w !! _) as [pet|] eqn:Hpet; [| intros [=]].
  destruct (String.eqb (pet_ownerId pet) uid) eqn:Hown; cbn [negb]; [| intros [=]].
  destruct (fails e ReadUser); [intros [=] |].
  destruct (users w !! _) as [vet|] eqn:Hvet; [| intros [=]].
  destruct (String.eqb (role vet) "veterinarian") eqn:Hrole; cbn [negb orb]; [| intros [=]].
  destruct (String.eqb (vetApplicationStatus vet) "approved") eqn:Happr;
    cbn [negb]; [| intros [=]].
  destruct (body_dateTime body) as [d|] eqn:Hdate.
  2: { change (default InvalidDate None) with InvalidDate.
       cbn [dateLeb timestampFromDate ret throw]. intros [=]. }
  change (default InvalidDate (Some d)) with d.
  destruct (dateLeb d (now e)) eqn:Hd; [intros [=] |].
  destruct d as [t|]; cbn [timestampFromDate ret throw]; [| intros [=]].
  destruct (validTimestamp t) eqn:Hvt; cbn [timestampFromDate ret throw]; [| intros [=]].
  destruct (validTimestamp (t + _)) eqn:Hve; cbn [timestampFromDate ret throw]; [| intros [=]].
  destruct (fails e QueryAppointments); [intros [=] |].
  fold (conflictSnapshot w (str (body_veterinarianId body)) t
          (t + default 30 (body_duration body) * 60000)).
  destruct (negb _) eqn:Hq; [intros [=] |].
  destruct (fails e WriteAppointment); [intros [=] |].
  cbn. destruct (fails e WriteNotification); [intros [=] |].
  intros [= <- <- <-]. exists pet, vet, t.
  apply String.eqb_eq in Hown, Hrole, Happr.
  cbn in Hd. apply Z.leb_gt in Hd.
  apply negb_false_iff, bool_decide_eq_true in Hq.
  repeat (split; [first [assumption | reflexivity] |]). reflexivity.
Qed.

(** A 201 of create also tells that the start and the end of the window
    are instants a [Timestamp] holds. *)
Lemma create_success_timestamps uid body e w c p w' t :
  createAppointment uid body e w = (Returned (Json c p), w') ->
  body_dateTime body = Some (ValidDate t) ->
  validTimestamp t = true
  /\ validTimestamp (t + default 30 (body_duration body) * 60000) = true.
Proof.
  unfold createAppointment. unfold_db. intros Hrun Ht. revert Hrun. rewrite Ht.
  destruct (negb _); [intros [=] |].
  destruct (fails e ReadPet); [intros [=] |].
  destruct (pets w !! _) as [pet|]; [| intros [=]].
  destruct (negb _); [intros [=] |].
  destruct (fails e ReadUser); [intros [=] |].
  destruct (match users w !! _ with Some _ => _ | None => _ end); [intros [=] |].
  change (default InvalidDate (Some (ValidDate t))) with (ValidDate t).
  destruct (dateLeb _ (now e)); [intros [=] |].
  cbn [timestampFromDate ret throw].
  destruct (validTimestamp t) eqn:Hvt; cbn [timestampFromDate ret throw]; [| intros [=]].
  destruct (validTimestamp (t + _)) eqn:Hve; cbn [timestampFromDate ret throw]; [| intros [=]].
  auto.
Qed.

(** The success path of create. *)
Lemma create_ok uid body e w pet vet t :
  reliable e ->
  hasRequiredFields body = true ->
  pets w !! str (body_petId body) = Some pet -> pet_ownerId pet = uid ->
  users w !! str (body_veterinarianId body) = Some vet ->
  role vet = "veterinarian" -> vetApplicationStatus vet = "approved" ->
  body_dateTime body = Some (ValidDate t) -> now e < t ->
  validTimestamp t = true ->
  validTimestamp (t + default 30 (body_duration body) * 60000) = true ->
  conflictSnapshot w (str (body_veterinarianId body)) t
    (t + default 30 (body_duration body) * 60000) = [] ->
  createAppointment uid body e w
  = (Returned (Json 201 (Created (autoId e) (createdDocument uid body t (now e)))),
     {| appointments := <[autoId e := createdDocument uid body t (now e)]> (appointments w);
        pets := pets w; users := users w;
        notifications := notifications w ++ [createdNotification body pet (autoId e)] |}).
Proof.
  intros Hrel Hreq Hpet Hown Hvet Hrole Happr Ht Hfut Hvt Hve Hq.
  unfold createAppointment. fold (hasRequiredFields body). unfold_db.
  rewrite Hreq. cbn [negb]. rewrite Hrel, Hpet, Hown, String.eqb_refl. cbn [negb].
  rewrite Hrel, Hvet, Hrole, Happr, !String.eqb_refl. cbn [negb orb]. rewrite Ht.
  change (default InvalidDate (Some (ValidDate t))) with (ValidDate t).
  cbn [dateLeb]. replace (t <=? now e) with false by (symmetry; apply Z.leb_gt; exact Hfut).
  cbn [timestampFromDate ret]. rewrite Hvt. cbn [timestampFromDate ret]. rewrite Hve.
  cbn [ret]. rewrite Hrel.
  fold (conflictSnapshot w (str (body_veterinarianId body)) t
          (t + default 30 (body_duration body) * 60000)).
  rewrite Hq. rewrite bool_decide_eq_true_2 by reflexivity. cbn [negb].
  rewrite Hrel. cbn. rewrite Hrel. reflexivity.
Qed.

(** When the start or the end of the window is no instant a [Timestamp]
    holds, create fails in its [catch] block before any write. *)
Lemma create_unrepresentable uid body e w pet vet t :
  reliable e ->
  hasRequiredFields body = true ->
  pets w !! str (body_petId body) = Some pet -> pet_ownerId pet = uid ->
  users w !! str (body_veterinarianId body) = Some vet ->
  role vet = "veterinarian" -> vetApplicationStatus vet = "approved" ->
  body_dateTime body = Some (ValidDate t) -> now e < t ->
  validTimestamp t && validTimestamp (t + default 30 (body_duration body) * 60000) = false ->
  createAppointment uid body e w
  = (Returned (ErrorJson 500 "CREATE_APPOINTMENT_FAILED"), w).
Proof.
  intros Hrel Hreq Hpet Hown Hvet Hrole Happr Ht Hfut Hbad.
  unfold createAppointment. fold (hasRequiredFields body). unfold_db.
  rewrite Hreq. cbn [negb]. rewrite Hrel, Hpet, Hown, String.eqb_refl. cbn [negb].
  rewrite Hrel, Hvet, Hrole, Happr, !String.eqb_refl. cbn [negb orb]. rewrite Ht.
  change (default InvalidDate (Some (ValidDate t))) with (ValidDate t).
  cbn [dateLeb]. replace (t <=? now e) with false by (symmetry; apply Z.leb_gt; exact Hfut).
  cbn [timestampFromDate ret throw].
  destruct (validTimestamp t); cbn [timestampFromDate ret throw]; [| reflexivity].
  cbn [andb] in Hbad. rewrite Hbad. reflexivity.
Qed.

(** The conflict window of a zero or negative duration is empty. *)
Lemma conflictSnapshot_empty_window w vet t d :
  d <= 0 -> conflictSnapshot w vet t (t + d * 60000) = [].
Proof.
  intros Hd. destruct (conflictSnapshot w vet t (t + d * 60000)) as [| [id b] rest] eqn:Hq;
    [reflexivity |].
  assert (Hin : In (id, b) (conflictSnapshot w vet t (t + d * 60000)))
    by (rewrite Hq; left; reflexivity).
  apply elem_of_conflictSnapshot in Hin as [_ Hf].
  apply conflictFilter_spec in Hf as (_ & _ & Hwin). lia.
Qed.

(** C5, as stated, fails: create accepts a negative and a zero
    duration and stores them. *)
Lemma create_stores_nonpositive_duration :
  (exists a w',
      createAppointment "owner1" (request (at_ 10 0) (Some (-30))) quiet (clinic ∅)
      = (Returned (Json 201 (Created "new1" a)), w')
      /\ appointments w' !! "new1" = Some a /\ duration a = -30)
  /\ (exists a w',
         createAppointment "owner1" (request (at_ 10 0) (Some 0)) quiet (clinic ∅)
         = (Returned (Json 201 (Created "new1" a)), w')
         /\ appointments w' !! "new1" = Some a /\ duration a = 0).
Proof.
  split; eexists _, _; (split; [vm_compute; reflexivity |]);
    split; vm_compute; reflexivity.
Qed.

(** C5, amended: create stores the duration of the request, or 30 when
    the request has none, and never looks at its sign.
    - Every accepted appointment is stored with that duration, so the
      stored duration is positive exactly when the request carries a
      positive duration or none.
    - With a working database a request is accepted exactly when the
      required fields are present, the pet is the caller's, the
      veterinarian is approved, the start is in the future, the start and
      the end [start + duration] are instants a [Timestamp] holds, and no
      pending or confirmed appointment of the veterinarian starts in
      [start, start + duration).
    - For a zero or negative duration that window is empty: such a
      request is accepted whenever the other checks pass.
    - A request that passes the other checks and whose start or end is
      no such instant is answered 500, with nothing written. *)
Theorem created_duration_is_requested (uid : string) (body : CreateBody) (e : Env)
  (w : World) :
  (forall c id a w',
      createAppointment uid body e w = (Returned (Json c (Created id a)), w') ->
      appointments w' !! id = Some a
      /\ duration a = default 30 (body_duration body)
      /\ (0 < duration a <->
          body_duration body = None \/ exists d, body_duration body = Some d /\ 0 < d))
  /\ (reliable e ->
      (exists c p w', createAppointment uid body e w = (Returned (Json c p), w'))
      <-> (hasRequiredFields body = true
           /\ (exists pet, pets w !! str (body_petId body) = Some pet /\ pet_ownerId pet = uid)
           /\ (exists vet, users w !! str (body_veterinarianId body) = Some vet
                 /\ role vet = "veterinarian" /\ vetApplicationStatus vet = "approved")
           /\ exists t, body_dateTime body = Some (ValidDate t) /\ now e < t
                /\ validTimestamp t = true
                /\ validTimestamp (t + default 30 (body_duration body) * 60000) = true
                /\ conflictSnapshot w (str (body_veterinarianId body)) t
                     (t + default 30 (body_duration body) * 60000) = []))
  /\ (reliable e ->
      default 30 (body_duration body) <= 0 ->
      hasRequiredFields body = true ->
      (exists pet, pets w !! str (body_petId body) = Some pet /\ pet_ownerId pet = uid) ->
      (exists vet, users w !! str (body_veterinarianId body) = Some vet
         /\ role vet = "veterinarian" /\ vetApplicationStatus vet = "approved") ->
      forall t, body_dateTime body = Some (ValidDate t) -> now e < t ->
        validTimestamp t = true ->
        validTimestamp (t + default 30 (body_duration body) * 60000) = true ->
        exists a w',
          createAppointment uid body e w = (Returned (Json 201 (Created (autoId e) a)), w')
          /\ appointments w' !! autoId e = Some a
          /\ duration a = default 30 (body_duration body))
  /\ (reliable e ->
      hasRequiredFields body = true ->
      (exists pet, pets w !! str (body_petId body) = Some pet /\ pet_ownerId pet = uid) ->
      (exists vet, users w !! str (body_veterinarianId body) = Some vet
         /\ role vet = "veterinarian" /\ vetApplicationStatus vet = "approved") ->
      forall t, body_dateTime body = Some (ValidDate t) -> now e < t ->
        validTimestamp t && validTimestamp (t + default 30 (body_duration body) * 60000)
        = false ->
        createAppointment uid body e w
        = (Returned (ErrorJson 500 "CREATE_APPOINTMENT_FAILED"), w)).
Proof.
  split; [| split; [| split]].
  - intros c id a w' Hrun.
    apply create_success_inv in Hrun
      as (a' & t & _ & [= -> ->] & Hstored & _ & _ & Hdur & _).
    split; [exact Hstored |]. split; [exact Hdur |].
    rewrite Hdur. destruct (body_duration body) as [d|]; cbn [default].
    + split.
      * intros Hd. right. exists d. auto.
      * intros [[=] | (d' & [= <-] & Hd)]. exact Hd.
    + split; [auto | lia].
  - intros Hrel. split.
    + intros (c & p & w' & Hrun).
      pose proof Hrun as Hfull. apply create_success_full in Hfull
        as (pet & vet & t & Hreq & Hpet & Hown & Hvet & Hrole & Happr & Ht & Hfut & Hq & _).
      destruct (create_success_timestamps _ _ _ _ _ _ _ _ Hrun Ht) as [Hvt Hve].
      split; [exact Hreq |]. split; [exists pet; auto |]. split; [exists vet; auto |].
      exists t. auto.
    + intros (Hreq & (pet & Hpet & Hown) & (vet & Hvet & Hrole & Happr)
              & t & Ht & Hfut & Hvt & Hve & Hq).
      eexists _, _, _. eapply create_ok; eassumption.
  - intros Hrel Hd Hreq (pet & Hpet & Hown) (vet & Hvet & Hrole & Happr) t Ht Hfut Hvt Hve.
    eexists _, _. split; [| split].
    + eapply create_ok; try eassumption.
      apply conflictSnapshot_empty_window. exact Hd.
    + cbn [appointments]. apply lookup_insert_eq.
    + reflexivity.
  - intros Hrel Hreq (pet & Hpet & Hown) (vet & Hvet & Hrole & Happr) t Ht Hfut Hbad.
    eapply create_unrepresentable; eassumption.
Qed.

Lemma created_duration_is_requested_witness :
  exists a w',
    createAppointment "owner1" (request (at_ 10 0) (Some (-45))) quiet
      (clinic {[ "a1" := booking "vet1" (at_ 10 0) 30 "confirmed" ]})
    = (Returned (Json 201 (Created "new1" a)), w')
    /\ appointments w' !! "new1" = Some a
    /\ duration a = -45.
Proof.
  refine (proj1 (proj2 (proj2 (created_duration_is_requested "owner1"
                                 (request (at_ 10 0) (Some (-45))) quiet
                                 (clinic {[ "a1" := booking "vet1" (at_ 10 0) 30
                                                      "confirmed" ]}))))
            _ _ _ _ _ (at_ 10 0) _ _ _ _).
  - intros op. reflexivity.
  - cbn. lia.
  - reflexivity.
  - eexists. split; reflexivity.
  - eexists. split; [reflexivity |]. split; reflexivity.
  - reflexivity.
  - vm_compute. reflexivity.
  - reflexivity.
  - reflexivity.
Defined.

(** ** The fields written by a reschedule *)

(** A successful reschedule stores [rescheduleUpdate] of the stored
    document under the same id, after the date and conflict checks. *)
Lemma reschedule_success_inv e w uid id body c p w' :
  reschedule uid id body e w = (Returned (Json c p), w') ->
  exists X t,
    appointments w !! id = Some X
    /\ rb_newDateTime body = Some (ValidDate t)
    /\ now e < t
    /\ hasConflict (conflictSnapshot w (veterinarianId X) t (t + duration X * 60000)) id
       = false
    /\ appointments w' = <[id := rescheduleUpdate t (rb_reason body) (now e) X]> (appointments w).
Proof.
  unfold reschedule. unfold_db.
  destruct (rb_newDateTime body) as [d|]; [| intros [=]].
  destruct (fails e ReadAppointment); [intros [=] |].
  destruct (appointments w !! id) as [X|] eqn:HX; [| intros [=]].
  destruct (_ && _); [intros [=] |].
  destruct (dateLeb d (now e)) eqn:Hd; [intros [=] |].
  destruct d as [t|]; cbn [timestampFromDate ret throw]; [| intros [=]].
  destruct (validTimestamp t) eqn:Hvt; cbn [timestampFromDate ret throw]; [| intros [=]].
  destruct (validTimestamp (t + _)) eqn:Hve; cbn [timestampFromDate ret throw]; [| intros [=]].
  destruct (fails e QueryAppointments); [intros [=] |].
  fold (conflictSnapshot w (veterinarianId X) t (t + duration X * 60000)).
  destruct (hasConflict _ id) eqn:Hc; [intros [=] |].
  destruct (fails e WriteAppointment); [intros [=] |].
  rewrite HX. cbn.
  destruct (rb_reason body) as [r|]; [| intros [=]].
  destruct (fails e WriteNotification); [intros [=] |].
  intros [= <- <- <-]. exists X, t. repeat split; auto.
  cbn in Hd. apply Z.leb_gt in Hd. exact Hd.
Qed.

(** A successful reschedule carried a reason, and its new start and the
    end of its window are instants a [Timestamp] holds. *)
Lemma reschedule_success_request e w uid id body c p w' X :
  reschedule uid id body e w = (Returned (Json c p), w') ->
  appointments w !! id = Some X ->
  exists t r,
    rb_newDateTime body = Some (ValidDate t)
    /\ rb_reason body = Some r
    /\ validTimestamp t = true
    /\ validTimestamp (t + duration X * 60000) = true.
Proof.
  unfold reschedule. unfold_db. intros Hrun HX. revert Hrun.
  destruct (rb_newDateTime body) as [d|]; [| intros [=]].
  destruct (fails e ReadAppointment); [intros [=] |].
  rewrite HX.
  destruct (_ && _); [intros [=] |].
  destruct (dateLeb d (now e)) eqn:Hd; [intros [=] |].
  destruct d as [t|]; cbn [timestampFromDate ret throw]; [| intros [=]].
  destruct (validTimestamp t) eqn:Hvt; cbn [timestampFromDate ret throw]; [| intros [=]].
  destruct (validTimestamp (t + _)) eqn:Hve; cbn [timestampFromDate ret throw]; [| intros [=]].
  destruct (fails e QueryAppointments); [intros [=] |].
  destruct (hasConflict _ id) eqn:Hc; [intros [=] |].
  destruct (fails e WriteAppointment); [intros [=] |].
  rewrite HX. cbn.
  destruct (rb_reason body) as [r|]; [| intros [=]].
  intros _. exists t, r. auto.
Qed.

(** C9, as stated, fails: besides the start time, the status and the two
    timestamps, the reschedule also writes [rescheduleReason]. *)
Lemma reschedule_writes_reason :
  let X := confirmedBooking "vet1" (at_ 10 0) 30 in
  exists w' X',
    reschedule "vet1" "a1"
      {| rb_newDateTime := Some (ValidDate (at_ 14 0)); rb_reason := Some "surgery overran" |}
      quiet (clinic {[ "a1" := X ]})
    = (Returned (Json 200 (Message "Appointment rescheduled successfully")), w')
    /\ appointments w' !! "a1" = Some X'
    /\ rescheduleReason X = None
    /\ rescheduleReason X' = Some (Some "surgery overran")
    /\ rescheduleReason X' <> rescheduleReason X.
Proof.
  cbv zeta. eexists _, _. split; [vm_compute; reflexivity |].
  split; [vm_compute; reflexivity |].
  split; [reflexivity |]. split; [reflexivity |]. discriminate.
Qed.

(** C9, amended: a successful reschedule of a confirmed appointment
    stores the new start time, status [pending], [rescheduledAt] and
    [updatedAt] (the time of the request) and [rescheduleReason] (the
    reason of the request with the white space at its ends removed, or
    null when that reason is empty); every other field of the
    appointment, in particular the duration and [confirmedAt], and every
    other appointment stay as they were. *)
Theorem reschedule_frame (e : Env) (w w' : World) (uid id : string) (X : Appointment)
  (body : RescheduleBody) (c : Z) (p : Payload) :
  appointments w !! id = Some X ->
  status X = "confirmed" ->
  reschedule uid id body e w = (Returned (Json c p), w') ->
  exists t X',
    rb_newDateTime body = Some (ValidDate t)
    /\ appointments w' !! id = Some X'
    /\ status X' = "pending" /\ dateTime X' = t
    /\ rescheduledAt X' = Some (now e) /\ updatedAt X' = now e
    /\ rescheduleReason X'
       = Some (if truthy (rb_reason body) then Some (trim (str (rb_reason body))) else None)
    /\ duration X' = duration X /\ confirmedAt X' = confirmedAt X
    /\ ownerId X' = ownerId X /\ petId X' = petId X
    /\ veterinarianId X' = veterinarianId X
    /\ type X' = type X /\ reason X' = reason X /\ notes X' = notes X
    /\ createdAt X' = createdAt X /\ statusReason X' = statusReason X
    /\ completedAt X' = completedAt X /\ cancelledAt X' = cancelledAt X
    /\ (forall id', id' <> id -> appointments w' !! id' = appointments w !! id').
Proof.
  intros HX _ Hrun.
  apply reschedule_success_inv in Hrun as (X0 & t & HX0 & Ht & _ & _ & Hw').
  rewrite HX in HX0. injection HX0 as <-.
  exists t, (rescheduleUpdate t (rb_reason body) (now e) X).
  split; [exact Ht |]. split; [rewrite Hw'; apply lookup_insert_eq |].
  repeat (split; [reflexivity |]).
  intros id' Hne. rewrite Hw'. apply lookup_insert_ne. congruence.
Qed.

Lemma reschedule_frame_witness :
  exists t X',
    Some (ValidDate (at_ 14 0)) = Some (ValidDate t)
    /\ status X' = "pending" /\ dateTime X' = t
    /\ rescheduleReason X' = Some (Some "owner asked")
    /\ duration X' = 30 /\ confirmedAt X' = Some 1747000000000.
Proof.
  destruct (reschedule_frame quiet (clinic {[ "a1" := confirmedBooking "vet1" (at_ 10 0) 30 ]})
              (reschedule "vet1" "a1"
                 {| rb_newDateTime := Some (ValidDate (at_ 14 0));
                    rb_reason := Some (nbsp +:+ " owner asked" +:+ nbsp) |}
                 quiet (clinic {[ "a1" := confirmedBooking "vet1" (at_ 10 0) 30 ]})).2
              "vet1" "a1" (confirmedBooking "vet1" (at_ 10 0) 30)
              {| rb_newDateTime := Some (ValidDate (at_ 14 0));
                 rb_reason := Some (nbsp +:+ " owner asked" +:+ nbsp) |}
              200 (Message "Appointment rescheduled successfully"))
    as (t & X' & Ht & _ & Hs & Hd & _ & _ & Hr & Hdur & Hconf & _).
  - reflexivity.
  - reflexivity.
  - vm_compute. reflexivity.
  - exists t, X'. repeat split; auto.
Defined.

(** ** Availability *)

(** The loop visits the grid points [time + k * 30min] below [workEnd]
    and keeps the future ones that no booked slot contains. *)
Lemma slotLoop_In fuel now booked workEnd : forall time t,
  In t (slotLoop fuel now booked workEnd time)
  <-> (exists k : nat, (k < fuel)%nat /\ t = time + Z.of_nat k * (30 * 60000))
      /\ t < workEnd /\ now < t /\ isBooked booked t = false.
Proof.
  induction fuel as [| fuel IH]; intros time t; cbn [slotLoop].
  - split; [intros [] | intros [(k & Hk & _) _]; lia].
  - destruct (time <? workEnd) eqn:Hlt.
    + apply Z.ltb_lt in Hlt.
      assert (Hrest :
        In t (slotLoop fuel now booked workEnd (time + 30 * 60000))
        <-> (exists k : nat, (0 < k < S fuel)%nat /\ t = time + Z.of_nat k * (30 * 60000))
            /\ t < workEnd /\ now < t /\ isBooked booked t = false).
      { rewrite IH. split.
        - intros [(k & Hk & ->) H]. split; [| exact H]. exists (S k). split; lia.
        - intros [(k & Hk & ->) H]. split; [| exact H].
          destruct k as [| k]; [lia |]. exists k. split; lia. }
      destruct (time <=? now) eqn:Hpast.
      * apply Z.leb_le in Hpast. rewrite Hrest. split.
        -- intros [(k & Hk & ->) H]. split; [| exact H]. exists k. split; lia.
        -- intros [(k & Hk & ->) H]. split; [| exact H].
           destruct k as [| k]; [lia |]. exists (S k). split; lia.
      * apply Z.leb_gt in Hpast.
        destruct (isBooked booked time) eqn:Hb; cbn [negb In]; rewrite Hrest.
        -- split.
           ++ intros [(k & Hk & ->) H]. split; [| exact H]. exists k. split; lia.
           ++ intros [(k & Hk & ->) H]. split; [| exact H].
              destruct k as [| k].
              ** replace (time + Z.of_nat 0 * (30 * 60000)) with time in H by lia.
                 destruct H as (_ & _ & H). congruence.
              ** exists (S k). split; lia.
        -- split.
           ++ intros [<- | [(k & Hk & ->) H]].
              ** split; [exists 0%nat; split; lia | auto].
              ** split; [| exact H]. exists k. split; lia.
           ++ intros [(k & Hk & ->) H]. destruct k as [| k].
              ** left. lia.
              ** right. split; [| exact H]. exists (S k). split; lia.
    + apply Z.ltb_ge in Hlt. split; [intros [] |].
      intros [(k & Hk & ->) H]. lia.
Qed.

(** The fuel of [generateSlots] covers every grid point below [workEnd]:
    the loop ends because [time < workEnd] fails. *)
Lemma generateSlots_In now booked workStart workEnd t :
  In t (generateSlots now booked workStart workEnd)
  <-> (exists k : nat, t = workStart + Z.of_nat k * (30 * 60000))
      /\ t < workEnd /\ now < t /\ isBooked booked t = false.
Proof.
  unfold generateSlots. rewrite slotLoop_In. split.
  - intros [(k & _ & ->) H]. split; [exists k; reflexivity | exact H].
  - intros [(k & ->) H]. split; [| exact H]. exists k. split; [| reflexivity].
    destruct H as (Hlt & _). unfold slotFuel.
    assert (Z.of_nat k <= (workEnd - workStart) / (30 * 60000))
      by (apply Z.div_le_lower_bound; lia).
    lia.
Qed.

Lemma slotLoop_lower fuel now booked workEnd : forall time,
  Forall (fun s => time <= s) (slotLoop fuel now booked workEnd time).
Proof.
  induction fuel as [| fuel IH]; intros time; cbn [slotLoop]; [constructor |].
  destruct (time <? workEnd); [| constructor].
  assert (Hrest : Forall (fun s => time <= s)
                    (slotLoop fuel now booked workEnd (time + 30 * 60000))).
  { eapply Forall_impl; [apply IH |]. cbn. intros s Hs. lia. }
  destruct (time <=? now); [exact Hrest |].
  destruct (negb (isBooked booked time)); [| exact Hrest].
  constructor; [lia | exact Hrest].
Qed.

(** The slots come out in strictly ascending order. *)
Lemma slotLoop_sorted fuel now booked workEnd : forall time,
  StronglySorted Z.lt (slotLoop fuel now booked workEnd time).
Proof.
  induction fuel as [| fuel IH]; intros time; cbn [slotLoop]; [constructor |].
  destruct (time <? workEnd); [| constructor].
  destruct (time <=? now); [apply IH |].
  destruct (negb (isBooked booked time)); [| apply IH].
  constructor; [apply IH |].
  eapply Forall_impl; [apply slotLoop_lower |]. cbn. intros s Hs. lia.
Qed.

(** A slot start lies in a booked interval only if the slot's own
    30-minute interval overlaps that booking. *)
Lemma isBooked_overlaps booked t :
  isBooked booked t = true ->
  exists b, In b booked
    /\ overlaps t (t + 30 * 60000) (start b) (start b + slot_duration b * 60000).
Proof.
  unfold isBooked. rewrite existsb_exists. intros (b & Hin & Hb).
  apply andb_true_iff in Hb as [Hs He]. apply Z.leb_le in Hs. apply Z.ltb_lt in He.
  exists b. split; [exact Hin |]. unfold overlaps. lia.
Qed.

(** A future grid point below [workEnd] that is withheld overlaps one of
    the booked slots. *)
Lemma withheld_slot_overlaps now booked workStart workEnd (k : nat) :
  let t := workStart + Z.of_nat k * (30 * 60000) in
  t < workEnd -> now < t ->
  ~ In t (generateSlots now booked workStart workEnd) ->
  exists b, In b booked
    /\ overlaps t (t + 30 * 60000) (start b) (start b + slot_duration b * 60000).
Proof.
  intros t Hlt Hnow Hout. apply isBooked_overlaps.
  destruct (isBooked booked t) eqn:Hb; [reflexivity |].
  exfalso. apply Hout. apply generateSlots_In.
  split; [exists k; reflexivity | auto].
Qed.

(** The handler answers 200 only for a valid date, with the slots
    generated for that day's bookings between 09:00 and 17:00, and writes
    nothing. *)
Lemma getAvailability_success_inv vet date e w c p w' :
  getAvailability vet date e w = (Returned (Json c p), w') ->
  exists d,
    date = Some (ValidDate d)
    /\ p = Availability vet
             (generateSlots (now e) (dayBookings w vet d)
                (setHours d 9 0 0 0) (setHours d 17 0 0 0))
    /\ w' = w.
Proof.
  unfold getAvailability. unfold_db.
  destruct date as [[d |] |]; [| intros [=] | intros [=]].
  destruct (d <? _); [intros [=] |].
  destruct (fails e ReadUser); [intros [=] |].
  destruct (match users w !! vet with Some _ => _ | None => _ end); [intros [=] |].
  cbn [timestampFromDate ret throw].
  destruct (validTimestamp (setHours d 0 0 0 0)); cbn [timestampFromDate ret throw];
    [| intros [=]].
  destruct (validTimestamp (setHours d 23 59 59 999)); cbn [timestampFromDate ret throw];
    [| intros [=]].
  destruct (fails e QueryAppointments); [intros [=] |].
  intros [= <- <- <-]. exists d. auto.
Qed.

(** C8: every slot of a successful availability response lies between
    09:00 (inclusive) and 17:00 (exclusive) of the requested date and is
    strictly later than the time of the request, and the slots are in
    strictly ascending order; the list may be empty (here: a day with one
    booking from 09:00 to 17:00). *)
Theorem availability_slots_in_hours_future_ascending :
  (forall vet date e w c vet' slots w',
      getAvailability vet date e w = (Returned (Json c (Availability vet' slots)), w') ->
      exists d,
        date = Some (ValidDate d)
        /\ Forall (fun s => setHours d 9 0 0 0 <= s < setHours d 17 0 0 0 /\ now e < s) slots
        /\ StronglySorted Z.lt slots)
  /\ getAvailability "vet1" (Some (ValidDate june1)) quiet
       (clinic {[ "a1" := booking "vet1" (at_ 9 0) 480 "confirmed" ]})
     = (Returned (Json 200 (Availability "vet1" [])),
        clinic {[ "a1" := booking "vet1" (at_ 9 0) 480 "confirmed" ]}).
Proof.
  split.
  - intros vet date e w c vet' slots w' Hrun.
    apply getAvailability_success_inv in Hrun as (d & -> & [= <- ->] & _).
    exists d. split; [reflexivity |]. split.
    + apply Forall_forall. intros s Hs. apply list_elem_of_In in Hs.
      apply generateSlots_In in Hs as ((k & ->) & Hlt & Hnow & _). lia.
    + apply slotLoop_sorted.
  - vm_compute. reflexivity.
Qed.

Lemma availability_slots_in_hours_future_ascending_witness :
  exists d slots,
    Some (ValidDate june1) = Some (ValidDate d)
    /\ Forall (fun s => setHours d 9 0 0 0 <= s < setHours d 17 0 0 0 /\ now quiet < s) slots
    /\ StronglySorted Z.lt slots
    /\ length slots = 15%nat.
Proof.
  destruct (proj1 availability_slots_in_hours_future_ascending
              "vet1" (Some (ValidDate june1)) quiet
              (clinic {[ "a1" := booking "vet1" (at_ 9 30) 30 "confirmed" ]})
              200 "vet1"
              (generateSlots (now quiet)
                 (dayBookings (clinic {[ "a1" := booking "vet1" (at_ 9 30) 30 "confirmed" ]})
                    "vet1" june1)
                 (setHours june1 9 0 0 0) (setHours june1 17 0 0 0))
              (clinic {[ "a1" := booking "vet1" (at_ 9 30) 30 "confirmed" ]}))
    as (d & Hd & Hall & Hsorted).
  - vm_compute. reflexivity.
  - exists d, (generateSlots (now quiet)
                 (dayBookings (clinic {[ "a1" := booking "vet1" (at_ 9 30) 30 "confirmed" ]})
                    "vet1" june1)
                 (setHours june1 9 0 0 0) (setHours june1 17 0 0 0)).
    split; [exact Hd |]. split; [exact Hall |]. split; [exact Hsorted |].
    vm_compute. reflexivity.
Defined.

(** C4: the availability handler tests whether the slot's start lies in
    a booked interval, not whether the slot's interval overlaps it.  With
    a confirmed 30-minute booking at 09:45, the slot 09:30 (interval
    09:30-10:00, overlapping 09:45-10:15) is offered and only 10:00 is
    withheld, while a create request for that 09:30 slot is refused with
    409.  The scenario with the booking at 09:30 gives the 15 slots
    09:00, 10:00, 10:30, ..., 16:30. *)
Theorem availability_offers_overlapping_slot :
  let w := clinic {[ "a1" := booking "vet1" (at_ 9 45) 30 "confirmed" ]} in
  overlaps (at_ 9 30) (at_ 9 30 + 30 * 60000) (at_ 9 45)
    (endTime (booking "vet1" (at_ 9 45) 30 "confirmed"))
  /\ (exists slots,
        getAvailability "vet1" (Some (ValidDate june1)) quiet w
        = (Returned (Json 200 (Availability "vet1" slots)), w)
        /\ In (at_ 9 30) slots /\ ~ In (at_ 10 0) slots /\ length slots = 15%nat)
  /\ (createAppointment "owner1" (request (at_ 9 30) (Some 30)) quiet w).1
     = Returned (ErrorJson 409 "TIME_CONFLICT")
  /\ (getAvailability "vet1" (Some (ValidDate june1)) quiet
        (clinic {[ "a1" := booking "vet1" (at_ 9 30) 30 "confirmed" ]})).1
     = Returned (Json 200 (Availability "vet1"
         (at_ 9 0 :: map (fun k => at_ 10 0 + Z.of_nat k * (30 * 60000)) (seq 0 14)))).
Proof.
  cbv zeta. split; [| split; [| split]].
  - unfold overlaps, endTime. vm_compute. split; reflexivity.
  - eexists. split; [vm_compute; reflexivity |]. split; [| split].
    + cbn. right. left. reflexivity.
    + cbn. intros H. repeat (destruct H as [H | H]; [discriminate H |]). destruct H.
    + reflexivity.
  - vm_compute. reflexivity.
  - vm_compute. reflexivity.
Qed.

(** ** Pagination *)

Lemma insertBy_length {A} (leb : A -> A -> bool) x l :
  length (insertBy leb x l) = S (length l).
Proof.
  induction l as [| y l IH]; cbn [insertBy]; [reflexivity |].
  destruct (leb x y); cbn [length]; [reflexivity | rewrite IH; reflexivity].
Qed.

Lemma orderBy_length {A} (leb : A -> A -> bool) l :
  length (orderBy leb l) = length l.
Proof.
  unfold orderBy. induction l as [| x l IH]; cbn [foldr length]; [reflexivity |].
  rewrite insertBy_length, IH. reflexivity.
Qed.

(** A 200 response of the list handler carries one item per document of
    the page, and [hasMore] compares the page size with the limit. *)
Lemma listAppointments_success_inv uid q e w c items hasMore w' :
  listAppointments uid q e w = (Returned (Json c (AppointmentList items hasMore)), w') ->
  0 <= default 20 (q_limit q) /\ 0 <= default 0 (q_offset q)
  /\ length items
     = length (take (Z.to_nat (default 20 (q_limit q)))
                 (drop (Z.to_nat (default 0 (q_offset q)))
                    (matchingAppointments w uid q (now e))))
  /\ hasMore = (Z.of_nat (length items) =? default 20 (q_limit q)).
Proof.
  unfold listAppointments, getPage, getAll. unfold_db.
  destruct (fails e ReadUser) eqn:Hru; [intros [=] |].
  destruct ((_ <? 0) || (_ <? 0)) eqn:Hneg; [intros [=] |].
  apply orb_false_iff in Hneg as [Hl Ho]. apply Z.ltb_ge in Hl, Ho.
  destruct (fails e QueryAppointments); [intros [=] |].
  fold (matchingAppointments w uid q (now e)).
  set (snapshot := take _ (drop _ (matchingAppointments w uid q (now e)))).
  destruct (bool_decide (remove_dups (map _ snapshot) = [])).
  - destruct (bool_decide (remove_dups (map _ snapshot) = [])).
    + intros [= <- <- <- <-]. rewrite length_map. auto.
    + rewrite Hru. intros [= <- <- <- <-]. rewrite length_map. auto.
  - destruct (fails e ReadPet); [intros [=] |].
    destruct (bool_decide (remove_dups (map _ snapshot) = [])).
    + intros [= <- <- <- <-]. rewrite length_map. auto.
    + rewrite Hru. intros [= <- <- <- <-]. rewrite length_map. auto.
Qed.

(** With the database answering and non-negative [limit] and [offset],
    the list handler returns the requested page. *)
Lemma listAppointments_ok uid q e w :
  reliable e ->
  0 <= default 20 (q_limit q) -> 0 <= default 0 (q_offset q) ->
  exists items,
    listAppointments uid q e w
    = (Returned (Json 200 (AppointmentList items
                             (Z.of_nat (length items) =? default 20 (q_limit q)))), w)
    /\ length items
       = length (take (Z.to_nat (default 20 (q_limit q)))
                   (drop (Z.to_nat (default 0 (q_offset q)))
                      (matchingAppointments w uid q (now e)))).
Proof.
  intros Hrel Hl Ho. unfold listAppointments, getPage, getAll. unfold_db.
  rewrite !Hrel.
  replace ((default 20 (q_limit q) <? 0) || (default 0 (q_offset q) <? 0)) with false
    by (symmetry; apply orb_false_iff; split; apply Z.ltb_ge; assumption).
  rewrite ?Hrel.
  fold (matchingAppointments w uid q (now e)).
  set (snapshot := take _ (drop _ (matchingAppointments w uid q (now e)))).
  destruct (bool_decide (remove_dups (map _ snapshot) = []));
    rewrite ?Hrel;
    destruct (bool_decide (remove_dups (map _ snapshot) = []));
    rewrite ?Hrel;
    match goal with
    | |- context [AppointmentList (map ?f snapshot) _] =>
        exists (map f snapshot); rewrite (length_map f snapshot); split; reflexivity
    end.
Qed.

(** C10: [hasMore] is true exactly when the number of appointments
    returned equals the limit.  Consequently, when the matching
    appointments end exactly at a page boundary, the last full page
    reports [hasMore = true] although the next page is empty. *)
Theorem hasMore_iff_full_page :
  (forall uid q e w c items hasMore w',
      listAppointments uid q e w = (Returned (Json c (AppointmentList items hasMore)), w') ->
      (hasMore = true <-> Z.of_nat (length items) = default 20 (q_limit q)))
  /\ (forall uid st limit offset upcoming e w,
         reliable e -> 0 < limit -> 0 <= offset ->
         Z.of_nat (length (matchingAppointments w uid
                             (mkListQuery st (Some limit) (Some offset) upcoming) (now e)))
         = offset + limit ->
         (exists items,
             (listAppointments uid (mkListQuery st (Some limit) (Some offset) upcoming) e w).1
             = Returned (Json 200 (AppointmentList items true))
             /\ Z.of_nat (length items) = limit)
         /\ (listAppointments uid
               (mkListQuery st (Some limit) (Some (offset + limit)) upcoming) e w).1
            = Returned (Json 200 (AppointmentList [] false))).
Proof.
  split.
  - intros uid q e w c items hasMore w' Hrun.
    apply listAppointments_success_inv in Hrun as (_ & _ & _ & ->).
    apply Z.eqb_eq.
  - intros uid st limit offset upcoming e w Hrel Hlimit Hoffset Hlen. split.
    + destruct (listAppointments_ok uid (mkListQuery st (Some limit) (Some offset) upcoming)
                  e w Hrel) as (items & Hrun & Hitems).
      { cbn. lia. }
      { cbn. lia. }
      cbn [default q_limit q_offset from_option id] in Hrun, Hitems.
      assert (Hfull : Z.of_nat (length items) = limit).
      { rewrite Hitems, length_take, length_drop. lia. }
      exists items. split; [| exact Hfull].
      rewrite Hrun. cbn [fst]. apply Z.eqb_eq in Hfull. rewrite Hfull. reflexivity.
    + destruct (listAppointments_ok uid
                  (mkListQuery st (Some limit) (Some (offset + limit)) upcoming)
                  e w Hrel) as (items & Hrun & Hitems).
      { cbn. lia. }
      { cbn. lia. }
      cbn [default q_limit q_offset from_option id] in Hrun, Hitems.
      assert (Hempty : items = []).
      { apply length_zero_iff_nil. rewrite Hitems, length_take, length_drop.
        change (matchingAppointments w uid
                  (mkListQuery st (Some limit) (Some (offset + limit)) upcoming) (now e))
          with (matchingAppointments w uid
                  (mkListQuery st (Some limit) (Some offset) upcoming) (now e)).
        lia. }
      rewrite Hrun, Hempty. cbn [fst length].
      replace (Z.of_nat 0 =? limit) with false by (symmetry; apply Z.eqb_neq; lia).
      reflexivity.
Qed.

Lemma hasMore_iff_full_page_witness :
  (exists items,
      (listAppointments "owner1" (mkListQuery None (Some 2) (Some 0) false) quiet
         (clinic {[ "a1" := booking "vet1" (at_ 10 0) 30 "confirmed";
                    "a2" := booking "vet1" (at_ 11 0) 30 "pending" ]})).1
      = Returned (Json 200 (AppointmentList items true))
      /\ Z.of_nat (length items) = 2)
  /\ (listAppointments "owner1" (mkListQuery None (Some 2) (Some (0 + 2)) false) quiet
        (clinic {[ "a1" := booking "vet1" (at_ 10 0) 30 "confirmed";
                   "a2" := booking "vet1" (at_ 11 0) 30 "pending" ]})).1
     = Returned (Json 200 (AppointmentList [] false)).
Proof.
  apply (proj2 hasMore_iff_full_page "owner1" None 2 0 false quiet
           (clinic {[ "a1" := booking "vet1" (at_ 10 0) 30 "confirmed";
                      "a2" := booking "vet1" (at_ 11 0) 30 "pending" ]})).
  - intros op. reflexivity.
  - lia.
  - lia.
  - vm_compute. reflexivity.
Defined.

(** * Further properties of the routes *)

(** ** Create: checks, writes and what stays untouched *)

(** Whatever create answers, it either leaves the database as it was or
    has passed every check, stored the new document under the fresh id
    and, unless the notification write failed, added its notification. *)
Lemma create_write_inv uid body e w r w' :
  createAppointment uid body e w = (r, w') ->
  (w' = w /\ forall c p, r <> Returned (Json c p))
  \/ exists pet t,
       pets w !! str (body_petId body) = Some pet
       /\ body_dateTime body = Some (ValidDate t)
       /\ conflictSnapshot w (str (body_veterinarianId body)) t
            (t + default 30 (body_duration body) * 60000) = []
       /\ ((r = Returned (ErrorJson 500 "CREATE_APPOINTMENT_FAILED")
            /\ w' = setAppointments
                      (<[autoId e := createdDocument uid body t (now e)]> (appointments w)) w)
           \/ (r = Returned (Json 201 (Created (autoId e) (createdDocument uid body t (now e))))
               /\ w' = {| appointments :=
                            <[autoId e := createdDocument uid body t (now e)]> (appointments w);
                          pets := pets w; users := users w;
                          notifications :=
                            notifications w ++ [createdNotification body pet (autoId e)] |})).
Proof.
  unfold createAppointment. fold (hasRequiredFields body). unfold_db.
  destruct (hasRequiredFields body) eqn:Hreq; cbn [negb];
    [| intros [= <- <-]; left; split; [reflexivity | discriminate]].
  destruct (fails e ReadPet);
    [intros [= <- <-]; left; split; [reflexivity | discriminate] |].
  destruct (pets w !! _) as [pet|] eqn:Hpet;
    [| intros [= <- <-]; left; split; [reflexivity | discriminate]].
  destruct (String.eqb (pet_ownerId pet) uid) eqn:Hown; cbn [negb];
    [| intros [= <- <-]; left; split; [reflexivity | discriminate]].
  destruct (fails e ReadUser);
    [intros [= <- <-]; left; split; [reflexivity | discriminate] |].
  destruct (match users w !! _ with Some _ => _ | None => _ end);
    [intros [= <- <-]; left; split; [reflexivity | discriminate] |].
  destruct (body_dateTime body) as [d|] eqn:Hdate.
  2: { change (default InvalidDate None) with InvalidDate.
       cbn [dateLeb timestampFromDate ret throw].
       intros [= <- <-]; left; split; [reflexivity | discriminate]. }
  change (default InvalidDate (Some d)) with d.
  destruct (dateLeb d (now e)) eqn:Hd;
    [intros [= <- <-]; left; split; [reflexivity | discriminate] |].
  destruct d as [t|]; cbn [timestampFromDate ret throw];
    [| intros [= <- <-]; left; split; [reflexivity | discriminate]].
  destruct (validTimestamp t); cbn [timestampFromDate ret throw];
    [| intros [= <- <-]; left; split; [reflexivity | discriminate]].
  destruct (validTimestamp (t + _)); cbn [timestampFromDate ret throw];
    [| intros [= <- <-]; left; split; [reflexivity | discriminate]].
  destruct (fails e QueryAppointments);
    [intros [= <- <-]; left; split; [reflexivity | discriminate] |].
  fold (conflictSnapshot w (str (body_veterinarianId body)) t
          (t + default 30 (body_duration body) * 60000)).
  destruct (negb _) eqn:Hq;
    [intros [= <- <-]; left; split; [reflexivity | discriminate] |].
  apply negb_false_iff, bool_decide_eq_true in Hq.
  destruct (fails e WriteAppointment);
    [intros [= <- <-]; left; split; [reflexivity | discriminate] |].
  cbn. destruct (fails e WriteNotification); intros [= <- <-]; right;
    exists pet, t; (split; [reflexivity |]); (split; [reflexivity |]);
    (split; [exact Hq |]); [left | right]; split; reflexivity.
Qed.

(** X1: a 201 of create means that the pet exists and belongs to the
    caller, that the veterinarian exists, has the veterinarian role and is
    approved, and that the start lies strictly after the time of the
    request; the new appointment is the caller's and pending. *)
Theorem create_accepts_only_authorized (uid : string) (body : CreateBody) (e : Env)
  (w w' : World) (c : Z) (id : string) (a : Appointment) :
  createAppointment uid body e w = (Returned (Json c (Created id a)), w') ->
  exists pet vet,
    pets w !! petId a = Some pet /\ pet_ownerId pet = uid
    /\ users w !! veterinarianId a = Some vet
    /\ role vet = "veterinarian" /\ vetApplicationStatus vet = "approved"
    /\ now e < dateTime a
    /\ ownerId a = uid /\ status a = "pending".
Proof.
  intros Hrun. apply create_success_full in Hrun
    as (pet & vet & t & _ & Hpet & Hown & Hvet & Hrole & Happr & _ & Ht & _ & _ & [= -> ->] & _).
  exists pet, vet. cbn [createdDocument petId veterinarianId dateTime ownerId status].
  repeat (split; [assumption |]). split; reflexivity.
Qed.

Lemma create_accepts_only_authorized_witness :
  exists pet vet,
    pets (clinic ∅) !! "pet1" = Some pet /\ pet_ownerId pet = "owner1"
    /\ users (clinic ∅) !! "vet1" = Some vet
    /\ role vet = "veterinarian" /\ vetApplicationStatus vet = "approved"
    /\ now quiet < at_ 10 0.
Proof.
  destruct (create_accepts_only_authorized "owner1" (request (at_ 10 0) None) quiet
              (clinic ∅)
              (createAppointment "owner1" (request (at_ 10 0) None) quiet (clinic ∅)).2
              201 "new1" (createdDocument "owner1" (request (at_ 10 0) None) (at_ 10 0)
                            (now quiet)))
    as (pet & vet & H1 & H2 & H3 & H4 & H5 & H6 & _).
  - vm_compute. reflexivity.
  - exists pet, vet. repeat (split; [assumption |]). exact H6.
Defined.

(** X2: create reports the first check that fails, in the order
    required fields, pet ownership, veterinarian, date, and leaves the
    database unchanged: a request with a missing or empty required field
    is answered 400 MISSING_FIELDS before any database call; a pet that
    is missing or not the caller's gives 403 whatever the veterinarian and
    the date are; an unknown, non-veterinarian or unapproved veterinarian
    gives 400 VET_NOT_AVAILABLE whatever the date is; a start that is not
    strictly in the future gives 400 INVALID_DATE. *)
Theorem create_reports_first_failed_check (uid : string) (body : CreateBody) (e : Env)
  (w : World) :
  (hasRequiredFields body = false ->
   createAppointment uid body e w = (Returned (ErrorJson 400 "MISSING_FIELDS"), w))
  /\ (hasRequiredFields body = true -> fails e ReadPet = false ->
      (forall pet, pets w !! str (body_petId body) = Some pet -> pet_ownerId pet <> uid) ->
      createAppointment uid body e w = (Returned (ErrorJson 403 "PET_ACCESS_DENIED"), w))
  /\ (hasRequiredFields body = true -> fails e ReadPet = false -> fails e ReadUser = false ->
      (exists pet, pets w !! str (body_petId body) = Some pet /\ pet_ownerId pet = uid) ->
      (forall vet, users w !! str (body_veterinarianId body) = Some vet ->
         role vet <> "veterinarian" \/ vetApplicationStatus vet <> "approved") ->
      createAppointment uid body e w = (Returned (ErrorJson 400 "VET_NOT_AVAILABLE"), w))
  /\ (hasRequiredFields body = true -> fails e ReadPet = false -> fails e ReadUser = false ->
      (exists pet, pets w !! str (body_petId body) = Some pet /\ pet_ownerId pet = uid) ->
      (exists vet, users w !! str (body_veterinarianId body) = Some vet
         /\ role vet = "veterinarian" /\ vetApplicationStatus vet = "approved") ->
      forall t, body_dateTime body = Some (ValidDate t) -> t <= now e ->
      createAppointment uid body e w = (Returned (ErrorJson 400 "INVALID_DATE"), w)).
Proof.
  unfold createAppointment. fold (hasRequiredFields body). unfold_db.
  split; [| split; [| split]].
  - intros ->. reflexivity.
  - intros -> Hrp Hpet. cbn [negb]. rewrite Hrp.
    destruct (pets w !! _) as [pet|]; [| reflexivity].
    specialize (Hpet pet eq_refl). apply String.eqb_neq in Hpet. rewrite Hpet. reflexivity.
  - intros -> Hrp Hru (pet & Hpet & <-) Hvet. cbn [negb]. rewrite Hrp, Hpet.
    rewrite String.eqb_refl. cbn [negb]. rewrite Hru.
    destruct (users w !! _) as [vet|]; [| reflexivity].
    destruct (Hvet vet eq_refl) as [H | H]; apply String.eqb_neq in H; rewrite H;
      cbn [negb orb]; [reflexivity | rewrite orb_true_r; reflexivity].
  - intros -> Hrp Hru (pet & Hpet & <-) (vet & Hvet & Hrole & Happr) t Ht Hpast.
    cbn [negb]. rewrite Hrp, Hpet.
    rewrite String.eqb_refl. cbn [negb]. rewrite Hru, Hvet, Hrole, Happr, Ht. cbn.
    apply Z.leb_le in Hpast. rewrite Hpast. reflexivity.
Qed.

Lemma create_reports_first_failed_check_witness :
  createAppointment "owner1"
    {| body_petId := Some "pet1"; body_veterinarianId := Some "vet1";
       body_dateTime := Some (ValidDate (at_ 10 0)); body_type := Some "checkup";
       body_reason := Some ""; body_notes := None; body_duration := None |}
    notifyDown (clinic ∅)
  = (Returned (ErrorJson 400 "MISSING_FIELDS"), clinic ∅).
Proof.
  apply (proj1 (create_reports_first_failed_check "owner1" _ notifyDown (clinic ∅))).
  reflexivity.
Defined.

(** X3: whatever create answers, also when a database call fails, it
    never changes the pets or the users, never changes or removes an
    appointment other than the one under the fresh id, and only appends to
    the notifications; and when it answers an error other than the 500 of
    the catch block, the database is exactly as before. *)
Theorem create_touches_only_new_document (uid : string) (body : CreateBody) (e : Env)
  (w w' : World) (r : outcome Response) :
  createAppointment uid body e w = (r, w') ->
  pets w' = pets w /\ users w' = users w
  /\ (forall id, id <> autoId e -> appointments w' !! id = appointments w !! id)
  /\ (exists added, notifications w' = (notifications w ++ added)%list)
  /\ (forall c code, r = Returned (ErrorJson c code) -> c <> 500 -> w' = w).
Proof.
  intros Hrun. apply create_write_inv in Hrun
    as [[-> Hr] | (pet & t & _ & _ & _ & [[-> ->] | [-> ->]])].
  - repeat split; auto. exists []. rewrite app_nil_r. reflexivity.
  - cbn. repeat split.
    + intros id Hne. apply lookup_insert_ne. congruence.
    + exists []. rewrite app_nil_r. reflexivity.
    + intros c code [= <- <-] Hc. congruence.
  - cbn. repeat split.
    + intros id Hne. apply lookup_insert_ne. congruence.
    + eexists. reflexivity.
    + intros c code [=].
Qed.

Lemma create_touches_only_new_document_witness :
  pets (createAppointment "owner1" (request (at_ 11 0) None) notifyDown
          (clinic {[ "a1" := booking "vet1" (at_ 10 0) 30 "confirmed" ]})).2
  = pets (clinic {[ "a1" := booking "vet1" (at_ 10 0) 30 "confirmed" ]})
  /\ appointments
       (createAppointment "owner1" (request (at_ 11 0) None) notifyDown
          (clinic {[ "a1" := booking "vet1" (at_ 10 0) 30 "confirmed" ]})).2 !! "a1"
     = Some (booking "vet1" (at_ 10 0) 30 "confirmed").
Proof.
  destruct (create_touches_only_new_document "owner1" (request (at_ 11 0) None) notifyDown
              (clinic {[ "a1" := booking "vet1" (at_ 10 0) 30 "confirmed" ]})
              (createAppointment "owner1" (request (at_ 11 0) None) notifyDown
                 (clinic {[ "a1" := booking "vet1" (at_ 10 0) 30 "confirmed" ]})).2
              (createAppointment "owner1" (request (at_ 11 0) None) notifyDown
                 (clinic {[ "a1" := booking "vet1" (at_ 10 0) 30 "confirmed" ]})).1)
    as (Hpets & _ & Hother & _).
  - apply surjective_pairing.
  - split; [exact Hpets |]. rewrite (Hother "a1"); [reflexivity | discriminate].
Defined.

(** X4: the conflict rule create implements.  A 409 is always caused by
    a pending or confirmed appointment of the requested veterinarian whose
    start lies in [t, t + duration) of the request; and when create
    accepts, no pending or confirmed appointment of that veterinarian
    starts in that window.  Cancelled, completed and no-show appointments
    and other veterinarians' appointments play no part. *)
Theorem create_conflict_rule (uid : string) (body : CreateBody) (e : Env) (w w' : World)
  (r : Response) (t : Z) :
  createAppointment uid body e w = (Returned r, w') ->
  body_dateTime body = Some (ValidDate t) ->
  (forall code, r = ErrorJson 409 code ->
     exists id b, appointments w !! id = Some b
       /\ veterinarianId b = str (body_veterinarianId body)
       /\ isBlocking (status b) = true
       /\ t <= dateTime b < t + default 30 (body_duration body) * 60000)
  /\ (forall c p, r = Json c p ->
        forall id b, appointments w !! id = Some b ->
          veterinarianId b = str (body_veterinarianId body) ->
          isBlocking (status b) = true ->
          ~ (t <= dateTime b < t + default 30 (body_duration body) * 60000)).
Proof.
  intros Hrun Ht. split.
  - intros code ->. apply create_conflict_inv in Hrun as (t' & id & b & Ht' & Hin).
    rewrite Ht in Ht'. injection Ht' as <-.
    apply elem_of_conflictSnapshot in Hin as [Hb Hf].
    apply conflictFilter_spec in Hf as (Hvet & Hblk & Hwin).
    exists id, b. auto.
  - intros c p -> id b Hb Hvet Hblk Hwin.
    apply create_success_full in Hrun
      as (_ & _ & t' & _ & _ & _ & _ & _ & _ & Ht' & _ & Hq & _).
    rewrite Ht in Ht'. injection Ht' as <-.
    assert (Hin : In (id, b) (conflictSnapshot w (str (body_veterinarianId body)) t
                               (t + default 30 (body_duration body) * 60000))).
    { apply elem_of_conflictSnapshot. split; [exact Hb |].
      apply conflictFilter_spec. auto. }
    rewrite Hq in Hin. destruct Hin.
Qed.

Lemma create_conflict_rule_witness :
  exists id b,
    appointments (clinic {[ "a1" := booking "vet1" (at_ 10 0) 30 "confirmed" ]}) !! id = Some b
    /\ veterinarianId b = "vet1"
    /\ isBlocking (status b) = true
    /\ at_ 9 45 <= dateTime b < at_ 9 45 + 30 * 60000.
Proof.
  refine (proj1 (create_conflict_rule "owner1" (request (at_ 9 45) (Some 30)) quiet
                   (clinic {[ "a1" := booking "vet1" (at_ 10 0) 30 "confirmed" ]})
                   (clinic {[ "a1" := booking "vet1" (at_ 10 0) 30 "confirmed" ]})
                   (ErrorJson 409 "TIME_CONFLICT") (at_ 9 45) _ _)
            "TIME_CONFLICT" _).
  - vm_compute. reflexivity.
  - reflexivity.
  - reflexivity.
Defined.

(** X5: a create request with a zero or negative duration is never
    answered 409: its conflict window is empty. *)
Theorem nonpositive_duration_never_conflicts (uid : string) (body : CreateBody) (e : Env)
  (w : World) (d : Z) :
  body_duration body = Some d -> d <= 0 ->
  forall code, (createAppointment uid body e w).1 <> Returned (ErrorJson 409 code).
Proof.
  intros Hd Hle code Hr.
  destruct (createAppointment uid body e w) as [r w'] eqn:Hrun. cbn in Hr. subst r.
  apply create_conflict_inv in Hrun as (t & id & b & _ & Hin).
  apply elem_of_conflictSnapshot in Hin as [_ Hf].
  apply conflictFilter_spec in Hf as (_ & _ & Hwin).
  rewrite Hd in Hwin. cbn in Hwin. lia.
Qed.

Lemma nonpositive_duration_never_conflicts_witness :
  (createAppointment "owner1" (request (at_ 10 0) (Some 0)) quiet
     (clinic {[ "a1" := booking "vet1" (at_ 10 0) 30 "confirmed" ]})).1
  <> Returned (ErrorJson 409 "TIME_CONFLICT").
Proof.
  apply (nonpositive_duration_never_conflicts "owner1" (request (at_ 10 0) (Some 0)) quiet
           (clinic {[ "a1" := booking "vet1" (at_ 10 0) 30 "confirmed" ]}) 0).
  - reflexivity.
  - lia.
Defined.

(** X6: no second booking at the same start while the first one stands.
    An appointment that create accepted for a veterinarian at [t] is
    stored as pending under the fresh id; in the state create returned,
    and in every later state in which that document is still pending or
    confirmed for the same veterinarian at the same start, create accepts
    no request for that veterinarian at [t] with a positive duration,
    whoever asks.  (Once the appointment is cancelled, completed, marked
    as no-show or moved, nothing is claimed.) *)
Theorem create_twice_same_start (uid1 uid2 : string) (body1 body2 : CreateBody)
  (e1 e2 : Env) (w w1 : World) (c1 : Z) (p1 : Payload) (t : Z) :
  createAppointment uid1 body1 e1 w = (Returned (Json c1 p1), w1) ->
  body_dateTime body1 = Some (ValidDate t) ->
  str (body_veterinarianId body2) = str (body_veterinarianId body1) ->
  body_dateTime body2 = body_dateTime body1 ->
  0 < default 30 (body_duration body2) ->
  stillBooked w1 (autoId e1) (str (body_veterinarianId body1)) t
  /\ forall w2,
       stillBooked w2 (autoId e1) (str (body_veterinarianId body1)) t ->
       isJson (createAppointment uid2 body2 e2 w2).1 = false.
Proof.
  intros Hfirst Ht Hvet Hdate Hd. unfold stillBooked. split.
  - apply create_success_full in Hfirst
      as (pet & vet & t' & _ & _ & _ & _ & _ & _ & Ht' & _ & _ & _ & _ & ->).
    rewrite Ht in Ht'. injection Ht' as <-.
    eexists. split; [apply lookup_insert_eq |]. repeat split.
  - intros w2 (b & Hb & Hblk & Hbvet & Hbt).
    destruct (createAppointment uid2 body2 e2 w2) as [[[c2 p2 | c2 code] |] w3] eqn:Hsecond;
      [| reflexivity | reflexivity].
    exfalso. apply create_success_full in Hsecond
      as (_ & _ & t2 & _ & _ & _ & _ & _ & _ & Ht2 & _ & Hq & _).
    rewrite Hdate, Ht in Ht2. injection Ht2 as <-.
    assert (Hin : In (autoId e1, b) []).
    { rewrite <- Hq. apply elem_of_conflictSnapshot. split; [exact Hb |].
      apply conflictFilter_spec. split; [congruence |]. split; [exact Hblk | lia]. }
    destruct Hin.
Qed.

Lemma create_twice_same_start_witness :
  let w1 := (createAppointment "owner1" (request (at_ 10 0) None) quiet (clinic ∅)).2 in
  let w2 :=
    (updateStatus "vet1" "new1" {| sb_status := "confirmed"; sb_reason := Some "ok" |}
       quiet w1).2 in
  isJson (createAppointment "owner1" (request (at_ 10 0) (Some 45)) (quietWith "new2") w2).1
  = false.
Proof.
  cbv zeta.
  refine (proj2 (create_twice_same_start "owner1" "owner1" (request (at_ 10 0) None)
                   (request (at_ 10 0) (Some 45)) quiet (quietWith "new2") (clinic ∅)
                   (createAppointment "owner1" (request (at_ 10 0) None) quiet (clinic ∅)).2
                   201 (Created "new1"
                          (createdDocument "owner1" (request (at_ 10 0) None) (at_ 10 0)
                             (now quiet)))
                   (at_ 10 0) _ _ _ _ _) _ _).
  - vm_compute. reflexivity.
  - reflexivity.
  - reflexivity.
  - reflexivity.
  - cbn. lia.
  - eexists. split; [vm_compute; reflexivity |]. repeat split.
Defined.

(** Adding a pending or confirmed document whose start no other blocking
    appointment of the veterinarian shares keeps the starts distinct. *)
Lemma distinctStarts_insert m id a :
  distinctStarts m ->
  (forall id' b, id' <> id -> m !! id' = Some b ->
     veterinarianId b = veterinarianId a -> isBlocking (status b) = true ->
     dateTime b <> dateTime a) ->
  distinctStarts (<[id := a]> m).
Proof.
  intros Hm Hnew id1 id2 a1 a2 Hne H1 H2 Hvet Hb1 Hb2.
  destruct (decide (id1 = id)) as [-> | Hn1]; destruct (decide (id2 = id)) as [-> | Hn2].
  - congruence.
  - rewrite lookup_insert_eq in H1. injection H1 as <-.
    rewrite lookup_insert_ne in H2 by congruence.
    intros Heq. apply (Hnew id2 a2); auto.
  - rewrite lookup_insert_eq in H2. injection H2 as <-.
    rewrite lookup_insert_ne in H1 by congruence.
    apply (Hnew id1 a1); auto.
  - rewrite lookup_insert_ne in H1 by congruence.
    rewrite lookup_insert_ne in H2 by congruence.
    apply (Hm id1 id2 a1 a2); auto.
Qed.

Lemma distinctStarts_singleton id a : distinctStarts {[ id := a ]}.
Proof.
  intros id1 id2 a1 a2 Hne H1 H2.
  apply lookup_singleton_Some in H1 as [<- _].
  apply lookup_singleton_Some in H2 as [<- _]. congruence.
Qed.

(** X7: create keeps the starts of a veterinarian's pending and confirmed
    appointments distinct, for every request of positive duration and
    whatever it answers. *)
Theorem create_keeps_starts_distinct (uid : string) (body : CreateBody) (e : Env)
  (w w' : World) (r : outcome Response) :
  distinctStarts (appointments w) ->
  0 < default 30 (body_duration body) ->
  createAppointment uid body e w = (r, w') ->
  distinctStarts (appointments w').
Proof.
  intros Hinv Hd Hrun.
  assert (Hcase : appointments w' = appointments w
                  \/ exists t,
                       conflictSnapshot w (str (body_veterinarianId body)) t
                         (t + default 30 (body_duration body) * 60000) = []
                       /\ appointments w'
                          = <[autoId e := createdDocument uid body t (now e)]> (appointments w)).
  { apply create_write_inv in Hrun
      as [[-> _] | (pet & t & _ & _ & Hq & [[_ ->] | [_ ->]])];
      [left; reflexivity | right; exists t; auto | right; exists t; auto]. }
  destruct Hcase as [-> | (t & Hq & ->)]; [exact Hinv |].
  apply distinctStarts_insert; [exact Hinv |].
  intros id' b _ Hb Hvet Hblk Hsame. cbn in Hvet, Hsame.
  assert (Hin : In (id', b) []).
  { rewrite <- Hq. apply elem_of_conflictSnapshot. split; [exact Hb |].
    apply conflictFilter_spec. split; [exact Hvet |]. split; [exact Hblk | lia]. }
  destruct Hin.
Qed.

Lemma create_keeps_starts_distinct_witness :
  distinctStarts
    (appointments
       (createAppointment "owner1" (request (at_ 10 30) None) quiet
          (clinic {[ "a1" := booking "vet1" (at_ 10 0) 30 "confirmed";
                     "a2" := booking "vet1" (at_ 11 0) 30 "pending" ]})).2)
  /\ (createAppointment "owner1" (request (at_ 10 30) None) quiet
        (clinic {[ "a1" := booking "vet1" (at_ 10 0) 30 "confirmed";
                   "a2" := booking "vet1" (at_ 11 0) 30 "pending" ]})).1
     = Returned (Json 201 (Created "new1"
                             (createdDocument "owner1" (request (at_ 10 30) None) (at_ 10 30)
                                (now quiet)))).
Proof.
  split; [| vm_compute; reflexivity].
  apply (create_keeps_starts_distinct "owner1" (request (at_ 10 30) None) quiet
           (clinic {[ "a1" := booking "vet1" (at_ 10 0) 30 "confirmed";
                      "a2" := booking "vet1" (at_ 11 0) 30 "pending" ]})
           (createAppointment "owner1" (request (at_ 10 30) None) quiet
              (clinic {[ "a1" := booking "vet1" (at_ 10 0) 30 "confirmed";
                         "a2" := booking "vet1" (at_ 11 0) 30 "pending" ]})).2
           (createAppointment "owner1" (request (at_ 10 30) None) quiet
              (clinic {[ "a1" := booking "vet1" (at_ 10 0) 30 "confirmed";
                         "a2" := booking "vet1" (at_ 11 0) 30 "pending" ]})).1).
  - cbn [clinic appointments]. apply distinctStarts_insert.
    + apply distinctStarts_singleton.
    + intros id' b _ Hb _ _. apply lookup_singleton_Some in Hb as [_ <-].
      vm_compute. discriminate.
  - cbn. lia.
  - apply surjective_pairing.
Defined.

(** A 201 of create comes with exactly one new notification, the
    last of the collection: it is addressed to the veterinarian of the new
    appointment, names the new appointment's id and has type
    [new_appointment]. *)
Lemma create_notifies_veterinarian (uid : string) (body : CreateBody) (e : Env)
  (w w' : World) (c : Z) (id : string) (a : Appointment) :
  createAppointment uid body e w = (Returned (Json c (Created id a)), w') ->
  exists n,
    notifications w' = (notifications w ++ [n])%list
    /\ userId n = veterinarianId a /\ n_appointmentId n = id
    /\ n_type n = "new_appointment".
Proof.
  intros Hrun. apply create_success_full in Hrun
    as (pet & vet & t & _ & _ & _ & _ & _ & _ & _ & _ & _ & _ & [= -> ->] & ->).
  eexists. split; [reflexivity |]. repeat split.
Qed.

(** ** Trimmed text *)

(** What [trimFront] returns does not start with a code point that the
    predicates recognise. *)
Lemma trimFront_startsWith sp1 sp2 sp3 : forall (n : nat) s,
  (String.length s <= n)%nat ->
  startsWith sp1 sp2 sp3 (trimFront sp1 sp2 sp3 s) = false.
Proof.
  induction n as [| n IH]; intros s Hn.
  - destruct s; [reflexivity | cbn in Hn; lia].
  - destruct s as [| c1 s1]; [reflexivity |]. cbn [trimFront].
    destruct (sp1 c1) eqn:H1; [apply IH; cbn in Hn; lia |].
    destruct s1 as [| c2 s2]; [cbn; rewrite H1; reflexivity |].
    destruct (sp2 c1 c2) eqn:H2; [apply IH; cbn in Hn; lia |].
    destruct s2 as [| c3 s3]; [cbn; rewrite H1, H2; reflexivity |].
    destruct (sp3 c1 c2 c3) eqn:H3; [apply IH; cbn in Hn; lia |].
    cbn. rewrite H1, H2, H3. reflexivity.
Qed.

(** [trimFront] drops a front part of the string. *)
Lemma trimFront_suffix sp1 sp2 sp3 : forall (n : nat) s,
  (String.length s <= n)%nat ->
  exists dropped, s = dropped +:+ trimFront sp1 sp2 sp3 s.
Proof.
  induction n as [| n IH]; intros s Hn.
  - destruct s; [exists ""; reflexivity | cbn in Hn; lia].
  - destruct s as [| c1 s1]; [exists ""; reflexivity |]. cbn [trimFront].
    destruct (sp1 c1).
    { destruct (IH s1) as [d Hd]; [cbn in Hn; lia |].
      exists (String c1 d). change (String c1 d +:+ ?x) with (String c1 (d +:+ x)).
      rewrite <- Hd. reflexivity. }
    destruct s1 as [| c2 s2]; [exists ""; reflexivity |].
    destruct (sp2 c1 c2).
    { destruct (IH s2) as [d Hd]; [cbn in Hn; lia |].
      exists (String c1 (String c2 d)).
      change (String c1 (String c2 d) +:+ ?x) with (String c1 (String c2 (d +:+ x))).
      rewrite <- Hd. reflexivity. }
    destruct s2 as [| c3 s3]; [exists ""; reflexivity |].
    destruct (sp3 c1 c2 c3); [| exists ""; reflexivity].
    destruct (IH s3) as [d Hd]; [cbn in Hn; lia |].
    exists (String c1 (String c2 (String c3 d))).
    change (String c1 (String c2 (String c3 d)) +:+ ?x)
      with (String c1 (String c2 (String c3 (d +:+ x)))).
    rewrite <- Hd. reflexivity.
Qed.

(** A recognised code point at the start stays at the start when text is
    appended. *)
Lemma startsWith_app sp1 sp2 sp3 s r :
  startsWith sp1 sp2 sp3 s = true -> startsWith sp1 sp2 sp3 (s +:+ r) = true.
Proof.
  destruct s as [| c1 [| c2 [| c3 s3]]]; cbn [startsWith].
  - discriminate.
  - rewrite orb_false_r. intros H1.
    change (String c1 "" +:+ r) with (String c1 r). cbn [startsWith]. rewrite H1. reflexivity.
  - rewrite orb_false_r. intros H.
    change (String c1 (String c2 "") +:+ r) with (String c1 (String c2 r)).
    cbn [startsWith]. apply orb_true_iff in H as [-> | ->]; [reflexivity |].
    rewrite orb_true_l, orb_true_r. reflexivity.
  - intros H.
    change (String c1 (String c2 (String c3 s3)) +:+ r)
      with (String c1 (String c2 (String c3 (s3 +:+ r)))).
    exact H.
Qed.

Lemma list_ascii_of_string_app s r :
  list_ascii_of_string (s +:+ r) = (list_ascii_of_string s ++ list_ascii_of_string r)%list.
Proof.
  induction s as [| c s IH]; [reflexivity |].
  change (String c s +:+ r) with (String c (s +:+ r)). cbn [list_ascii_of_string].
  rewrite IH. reflexivity.
Qed.

Lemma string_of_list_ascii_app l k :
  string_of_list_ascii (l ++ k) = string_of_list_ascii l +:+ string_of_list_ascii k.
Proof.
  induction l as [| c l IH]; [reflexivity |].
  cbn [app string_of_list_ascii]. rewrite IH. reflexivity.
Qed.

Lemma reverse_app s r : reverse (s +:+ r) = reverse r +:+ reverse s.
Proof.
  unfold reverse. rewrite list_ascii_of_string_app, rev_app_distr.
  apply string_of_list_ascii_app.
Qed.

Lemma reverse_involutive s : reverse (reverse s) = s.
Proof.
  unfold reverse. rewrite list_ascii_of_string_of_list_ascii, rev_involutive.
  apply string_of_list_ascii_of_string.
Qed.

(** [trim] leaves no white space code point at either end, and nothing
    of a string of white space. *)
Lemma trim_spec s :
  startsWithSpace (trim s) = false
  /\ endsWithSpace (trim s) = false
  /\ (blank s = true -> trim s = "").
Proof.
  unfold trim, trimEnd. split; [| split].
  - set (y := trimStart s).
    assert (Hy : startsWithSpace y = false)
      by (apply (trimFront_startsWith _ _ _ (String.length s)); lia).
    destruct (trimFront_suffix isSpace (fun c2 c1 => isSpace2 c1 c2)
                (fun c3 c2 c1 => isSpace3 c1 c2 c3) (String.length (reverse y)) (reverse y))
      as [d Hd]; [lia |].
    set (kept := trimFront _ _ _ (reverse y)) in *.
    assert (Hsplit : y = reverse kept +:+ reverse d).
    { rewrite <- reverse_app, <- Hd. symmetry. apply reverse_involutive. }
    destruct (startsWithSpace (reverse kept)) eqn:Hk; [| reflexivity].
    apply (startsWith_app _ _ _ _ (reverse d)) in Hk.
    fold (startsWithSpace (reverse kept +:+ reverse d)) in Hk.
    rewrite <- Hsplit, Hy in Hk. discriminate Hk.
  - unfold endsWithSpace. rewrite reverse_involutive.
    apply (trimFront_startsWith _ _ _ (String.length (reverse (trimStart s)))). lia.
  - unfold blank. intros H. apply String.eqb_eq in H. rewrite H. reflexivity.
Qed.

(** X8: the reason create stores is the request's reason trimmed: it
    neither starts nor ends with a white space code point (of one, two or
    three bytes in UTF-8).  The required-field check looks at the reason
    before trimming, so a reason made of white space only is accepted and
    stored as the empty string. *)
Theorem created_reason_is_trimmed (uid : string) (body : CreateBody) (e : Env)
  (w w' : World) (c : Z) (id : string) (a : Appointment) :
  createAppointment uid body e w = (Returned (Json c (Created id a)), w') ->
  reason a = trim (str (body_reason body))
  /\ startsWithSpace (reason a) = false
  /\ endsWithSpace (reason a) = false
  /\ (blank (str (body_reason body)) = true -> reason a = "").
Proof.
  intros Hrun. apply create_success_full in Hrun
    as (pet & vet & t & _ & _ & _ & _ & _ & _ & _ & _ & _ & _ & [= -> ->] & _).
  cbn [createdDocument reason]. split; [reflexivity |]. apply trim_spec.
Qed.

Lemma created_reason_is_trimmed_witness :
  exists a,
    (createAppointment "owner1"
       {| body_petId := Some "pet1"; body_veterinarianId := Some "vet1";
          body_dateTime := Some (ValidDate (at_ 10 0)); body_type := Some "checkup";
          body_reason := Some (nbsp +:+ " " +:+ bom); body_notes := None;
          body_duration := None |}
       quiet (clinic ∅)).1
    = Returned (Json 201 (Created "new1" a))
    /\ reason a = "".
Proof.
  eexists. split; [vm_compute; reflexivity |].
  refine (proj2 (proj2 (proj2 (created_reason_is_trimmed "owner1"
            {| body_petId := Some "pet1"; body_veterinarianId := Some "vet1";
               body_dateTime := Some (ValidDate (at_ 10 0)); body_type := Some "checkup";
               body_reason := Some (nbsp +:+ " " +:+ bom); body_notes := None;
               body_duration := None |}
            quiet (clinic ∅) _ 201 "new1" _ _))) _).
  - vm_compute. reflexivity.
  - reflexivity.
Defined.

(** ** Status changes: permissions, written fields, notification *)

(** Everything a 200 of the status route tells. *)
Lemma updateStatus_success_inv uid id body e w c p w' :
  updateStatus uid id body e w = (Returned (Json c p), w') ->
  exists a,
    appointments w !! id = Some a
    /\ existsb (String.eqb (sb_status body)) validStatuses = true
    /\ permissionError (sb_status body) uid a = None
    /\ w' = {| appointments :=
                 <[id := statusUpdate (sb_status body) (sb_reason body) (now e) a]>
                   (appointments w);
               pets := pets w; users := users w;
               notifications :=
                 notifications w ++ [statusNotification uid id (sb_status body) a] |}.
Proof.
  unfold updateStatus. unfold_db.
  destruct (existsb _ validStatuses) eqn:Hvalid; cbn [negb]; [| intros [=]].
  destruct (fails e ReadAppointment); [intros [=] |].
  destruct (appointments w !! id) as [a|] eqn:Ha; [| intros [=]].
  destruct (permissionError _ uid a) as [denied|] eqn:Hperm.
  { unfold permissionError in Hperm.
    repeat match type of Hperm with
           | (if ?b then _ else _) = _ => destruct b
           end; try discriminate Hperm; injection Hperm as <-; intros [=]. }
  destruct (fails e WriteAppointment); [intros [=] |].
  rewrite Ha. cbn.
  destruct (sb_reason body); [| intros [=]].
  destruct (fails e WriteNotification); [intros [=] |].
  intros [= <- <- <-]. exists a. auto.
Qed.

Lemma validStatuses_spec s :
  existsb (String.eqb s) validStatuses = true
  <-> s = "confirmed" \/ s = "cancelled" \/ s = "completed" \/ s = "no_show".
Proof.
  unfold validStatuses. cbn [existsb]. rewrite !orb_true_iff, !String.eqb_eq.
  intuition discriminate.
Qed.

(** What the permission check lets through. *)
Lemma permissionError_None st uid a :
  existsb (String.eqb st) validStatuses = true ->
  permissionError st uid a = None ->
  veterinarianId a = uid \/ (st = "cancelled" /\ ownerId a = uid).
Proof.
  intros Hvalid. apply validStatuses_spec in Hvalid.
  unfold permissionError.
  destruct (String.eqb (veterinarianId a) uid) eqn:Hvet;
    [apply String.eqb_eq in Hvet; auto |].
  destruct (String.eqb (ownerId a) uid) eqn:Hown.
  - apply String.eqb_eq in Hown.
    destruct Hvalid as [-> | [-> | [-> | ->]]]; cbn; try discriminate. auto.
  - destruct Hvalid as [-> | [-> | [-> | ->]]]; cbn; discriminate.
Qed.

(** X9: who may change a status.  A 200 of the status route means that
    the appointment exists, that the requested status is one of confirmed,
    cancelled, completed and no_show, and that the caller is the
    appointment's veterinarian or is its owner asking for a cancellation:
    an owner can cancel and nothing else, a third party can do nothing. *)
Theorem status_change_is_permitted (uid id : string) (body : StatusBody) (e : Env)
  (w w' : World) (c : Z) (p : Payload) :
  updateStatus uid id body e w = (Returned (Json c p), w') ->
  exists a,
    appointments w !! id = Some a
    /\ (sb_status body = "confirmed" \/ sb_status body = "cancelled"
        \/ sb_status body = "completed" \/ sb_status body = "no_show")
    /\ (veterinarianId a = uid \/ (sb_status body = "cancelled" /\ ownerId a = uid)).
Proof.
  intros Hrun. apply updateStatus_success_inv in Hrun as (a & Ha & Hvalid & Hperm & _).
  exists a. split; [exact Ha |]. split; [apply validStatuses_spec; exact Hvalid |].
  apply permissionError_None; assumption.
Qed.

Lemma status_change_is_permitted_witness :
  exists a,
    appointments (clinic {[ "a1" := booking "vet1" (at_ 10 0) 30 "pending" ]}) !! "a1" = Some a
    /\ (veterinarianId a = "owner1" \/ ("cancelled" = "cancelled" /\ ownerId a = "owner1")).
Proof.
  destruct (status_change_is_permitted "owner1" "a1"
              {| sb_status := "cancelled"; sb_reason := Some "away" |} quiet
              (clinic {[ "a1" := booking "vet1" (at_ 10 0) 30 "pending" ]})
              (updateStatus "owner1" "a1"
                 {| sb_status := "cancelled"; sb_reason := Some "away" |} quiet
                 (clinic {[ "a1" := booking "vet1" (at_ 10 0) 30 "pending" ]})).2
              200 (Message "Appointment status updated successfully"))
    as (a & Ha & _ & Hwho).
  - vm_compute. reflexivity.
  - exists a. split; [exact Ha | exact Hwho].
Defined.

(** X10: what a status change writes.  After a 200 the stored document
    has the requested status and [updatedAt] set to the time of the
    request; [confirmedAt], [completedAt] or [cancelledAt] is set to that
    time for the matching status and no timestamp is set for no_show;
    [statusReason] is the trimmed reason when one is given and is kept
    otherwise; the parties, the pet, the start, the duration, the type,
    the reason, the notes, the creation time and the reschedule fields are
    as before, and so are all other appointments, the pets and the
    users. *)
Theorem status_change_frame (uid id : string) (body : StatusBody) (e : Env)
  (w w' : World) (c : Z) (p : Payload) :
  updateStatus uid id body e w = (Returned (Json c p), w') ->
  exists a a',
    appointments w !! id = Some a /\ appointments w' !! id = Some a'
    /\ status a' = sb_status body /\ updatedAt a' = now e
    /\ confirmedAt a'
       = (if String.eqb (sb_status body) "confirmed" then Some (now e) else confirmedAt a)
    /\ completedAt a'
       = (if String.eqb (sb_status body) "completed" then Some (now e) else completedAt a)
    /\ cancelledAt a'
       = (if String.eqb (sb_status body) "cancelled" then Some (now e) else cancelledAt a)
    /\ (sb_status body = "no_show" ->
        confirmedAt a' = confirmedAt a /\ completedAt a' = completedAt a
        /\ cancelledAt a' = cancelledAt a)
    /\ statusReason a'
       = (if truthy (sb_reason body) then Some (trim (str (sb_reason body)))
          else statusReason a)
    /\ ownerId a' = ownerId a /\ petId a' = petId a
    /\ veterinarianId a' = veterinarianId a
    /\ dateTime a' = dateTime a /\ duration a' = duration a
    /\ type a' = type a /\ reason a' = reason a /\ notes a' = notes a
    /\ createdAt a' = createdAt a
    /\ rescheduledAt a' = rescheduledAt a /\ rescheduleReason a' = rescheduleReason a
    /\ (forall id', id' <> id -> appointments w' !! id' = appointments w !! id')
    /\ pets w' = pets w /\ users w' = users w.
Proof.
  intros Hrun. apply updateStatus_success_inv in Hrun as (a & Ha & _ & _ & ->).
  exists a, (statusUpdate (sb_status body) (sb_reason body) (now e) a).
  split; [exact Ha |]. split; [apply lookup_insert_eq |].
  cbn [statusUpdate status updatedAt confirmedAt completedAt cancelledAt statusReason
       ownerId petId veterinarianId dateTime duration type reason notes createdAt
       rescheduledAt rescheduleReason appointments pets users].
  repeat (split; [reflexivity |]).
  split; [intros ->; cbn; auto |].
  repeat (split; [reflexivity |]).
  split; [| split; reflexivity].
  intros id' Hne. apply lookup_insert_ne. congruence.
Qed.

Lemma status_change_frame_witness :
  exists a a',
    appointments (clinic {[ "a1" := confirmedBooking "vet1" (at_ 10 0) 30 ]}) !! "a1" = Some a
    /\ status a' = "no_show" /\ updatedAt a' = now quiet
    /\ confirmedAt a' = confirmedAt a
    /\ statusReason a' = Some "did not come"
    /\ dateTime a' = dateTime a.
Proof.
  destruct (status_change_frame "vet1" "a1"
              {| sb_status := "no_show"; sb_reason := Some (bom +:+ "did not come" +:+ nbsp) |}
              quiet (clinic {[ "a1" := confirmedBooking "vet1" (at_ 10 0) 30 ]})
              (updateStatus "vet1" "a1"
                 {| sb_status := "no_show";
                    sb_reason := Some (bom +:+ "did not come" +:+ nbsp) |}
                 quiet (clinic {[ "a1" := confirmedBooking "vet1" (at_ 10 0) 30 ]})).2
              200 (Message "Appointment status updated successfully"))
    as (a & a' & Ha & _ & Hst & Hup & Hconf & _ & _ & _ & Hrsn & _ & _ & _ & Hdt & _).
  - vm_compute. reflexivity.
  - exists a, a'. split; [exact Ha |]. split; [exact Hst |]. split; [exact Hup |].
    split; [exact Hconf |]. split; [exact Hrsn | exact Hdt].
Defined.

(** X11: a status outside confirmed, cancelled, completed and no_show
    (pending, for one) is refused with 400 INVALID_STATUS before any
    database call, so even when the appointment does not exist or the
    database is down; a valid status for an appointment that does not
    exist is refused with 404; a caller who is neither the veterinarian
    nor the owner is refused with 403 for every valid status.  Nothing is
    written in any of these cases. *)
Theorem status_change_rejections (uid id : string) (body : StatusBody) (e : Env) (w : World) :
  (existsb (String.eqb (sb_status body)) validStatuses = false ->
   updateStatus uid id body e w = (Returned (ErrorJson 400 "INVALID_STATUS"), w))
  /\ (existsb (String.eqb (sb_status body)) validStatuses = true ->
      fails e ReadAppointment = false -> appointments w !! id = None ->
      updateStatus uid id body e w = (Returned (ErrorJson 404 "APPOINTMENT_NOT_FOUND"), w))
  /\ (existsb (String.eqb (sb_status body)) validStatuses = true ->
      fails e ReadAppointment = false ->
      forall a, appointments w !! id = Some a ->
        veterinarianId a <> uid -> ownerId a <> uid ->
        exists code, updateStatus uid id body e w = (Returned (ErrorJson 403 code), w)).
Proof.
  unfold updateStatus. unfold_db. split; [| split].
  - intros ->. reflexivity.
  - intros -> Hread Ha. cbn [negb]. rewrite Hread, Ha. reflexivity.
  - intros Hvalid Hread a Ha Hvet Hown. rewrite Hvalid. cbn [negb]. rewrite Hread, Ha.
    apply validStatuses_spec in Hvalid. apply String.eqb_neq in Hvet, Hown.
    unfold permissionError. rewrite Hvet, Hown.
    destruct Hvalid as [-> | [-> | [-> | ->]]]; cbn; eexists; reflexivity.
Qed.

Lemma status_change_rejections_witness :
  updateStatus "vet1" "a1" {| sb_status := "pending"; sb_reason := None |} quiet
    (clinic {[ "a1" := booking "vet1" (at_ 10 0) 30 "confirmed" ]})
  = (Returned (ErrorJson 400 "INVALID_STATUS"),
     clinic {[ "a1" := booking "vet1" (at_ 10 0) 30 "confirmed" ]}).
Proof.
  apply (proj1 (status_change_rejections "vet1" "a1"
                  {| sb_status := "pending"; sb_reason := None |} quiet
                  (clinic {[ "a1" := booking "vet1" (at_ 10 0) 30 "confirmed" ]}))).
  reflexivity.
Defined.

(** The other party is never the caller when owner and veterinarian
    differ and the caller is one of them. *)
Lemma otherParty_spec uid a :
  ownerId a = uid \/ veterinarianId a = uid ->
  (veterinarianId a = uid -> otherParty uid a = ownerId a)
  /\ (veterinarianId a <> uid -> otherParty uid a = veterinarianId a)
  /\ (ownerId a <> veterinarianId a -> otherParty uid a <> uid).
Proof.
  intros Hwho. unfold otherParty.
  destruct (String.eqb (veterinarianId a) uid) eqn:Hvet.
  - apply String.eqb_eq in Hvet. repeat split; [congruence | congruence].
  - apply String.eqb_neq in Hvet. repeat split; [congruence | congruence].
Qed.

(** X12: after a successful status change exactly one notification is
    added, the last of the collection; it names the appointment and goes
    to the owner when the veterinarian made the change, to the
    veterinarian otherwise, so never to the caller when owner and
    veterinarian are different users. *)
Theorem status_change_notifies_other_party (uid id : string) (body : StatusBody) (e : Env)
  (w w' : World) (c : Z) (p : Payload) :
  updateStatus uid id body e w = (Returned (Json c p), w') ->
  exists a n,
    appointments w !! id = Some a
    /\ notifications w' = (notifications w ++ [n])%list
    /\ n_appointmentId n = id /\ message n = statusMessage (sb_status body)
    /\ (veterinarianId a = uid -> userId n = ownerId a)
    /\ (veterinarianId a <> uid -> userId n = veterinarianId a)
    /\ (ownerId a <> veterinarianId a -> userId n <> uid).
Proof.
  intros Hrun. apply updateStatus_success_inv in Hrun as (a & Ha & Hvalid & Hperm & ->).
  exists a, (statusNotification uid id (sb_status body) a).
  split; [exact Ha |]. split; [reflexivity |]. split; [reflexivity |].
  split; [reflexivity |]. cbn [statusNotification userId].
  apply otherParty_spec.
  destruct (permissionError_None _ _ _ Hvalid Hperm) as [H | [_ H]]; auto.
Qed.

Lemma status_change_notifies_other_party_witness :
  exists a n,
    appointments (clinic {[ "a1" := booking "vet1" (at_ 10 0) 30 "pending" ]}) !! "a1" = Some a
    /\ n_appointmentId n = "a1"
    /\ (veterinarianId a = "vet1" -> userId n = ownerId a).
Proof.
  destruct (status_change_notifies_other_party "vet1" "a1"
              {| sb_status := "confirmed"; sb_reason := Some "see you then" |} quiet
              (clinic {[ "a1" := booking "vet1" (at_ 10 0) 30 "pending" ]})
              (updateStatus "vet1" "a1"
                 {| sb_status := "confirmed"; sb_reason := Some "see you then" |}
                 quiet (clinic {[ "a1" := booking "vet1" (at_ 10 0) 30 "pending" ]})).2
              200 (Message "Appointment status updated successfully"))
    as (a & n & Ha & _ & Hid & _ & Hvet & _).
  - vm_compute. reflexivity.
  - exists a, n. auto.
Defined.

(** ** Reschedule: permissions, conflict rule, invariant *)

(** Whatever the reschedule route answers, it either leaves the database
    as it was or has passed every check and rewritten the appointment. *)
Lemma reschedule_write_inv uid id body e w r w' :
  reschedule uid id body e w = (r, w') ->
  (w' = w /\ forall c p, r <> Returned (Json c p))
  \/ exists X t,
       appointments w !! id = Some X
       /\ (ownerId X = uid \/ veterinarianId X = uid)
       /\ rb_newDateTime body = Some (ValidDate t) /\ now e < t
       /\ hasConflict (conflictSnapshot w (veterinarianId X) t (t + duration X * 60000)) id
          = false
       /\ ((r = Returned (ErrorJson 500 "RESCHEDULE_FAILED")
            /\ w' = setAppointments
                      (<[id := rescheduleUpdate t (rb_reason body) (now e) X]> (appointments w))
                      w)
           \/ (r = Returned (Json 200 (Message "Appointment rescheduled successfully"))
               /\ w' = {| appointments :=
                            <[id := rescheduleUpdate t (rb_reason body) (now e) X]>
                              (appointments w);
                          pets := pets w; users := users w;
                          notifications :=
                            notifications w ++ [rescheduleNotification e uid id t X] |})).
Proof.
  unfold reschedule. unfold_db.
  destruct (rb_newDateTime body) as [d|];
    [| intros [= <- <-]; left; split; [reflexivity | discriminate]].
  destruct (fails e ReadAppointment);
    [intros [= <- <-]; left; split; [reflexivity | discriminate] |].
  destruct (appointments w !! id) as [X|] eqn:HX;
    [| intros [= <- <-]; left; split; [reflexivity | discriminate]].
  destruct (negb (String.eqb (ownerId X) uid) && negb (String.eqb (veterinarianId X) uid))
    eqn:Hacc; [intros [= <- <-]; left; split; [reflexivity | discriminate] |].
  destruct (dateLeb d (now e)) eqn:Hd;
    [intros [= <- <-]; left; split; [reflexivity | discriminate] |].
  destruct d as [t|]; cbn [timestampFromDate ret throw];
    [| intros [= <- <-]; left; split; [reflexivity | discriminate]].
  destruct (validTimestamp t); cbn [timestampFromDate ret throw];
    [| intros [= <- <-]; left; split; [reflexivity | discriminate]].
  destruct (validTimestamp (t + _)); cbn [timestampFromDate ret throw];
    [| intros [= <- <-]; left; split; [reflexivity | discriminate]].
  destruct (fails e QueryAppointments);
    [intros [= <- <-]; left; split; [reflexivity | discriminate] |].
  fold (conflictSnapshot w (veterinarianId X) t (t + duration X * 60000)).
  destruct (hasConflict _ id) eqn:Hc;
    [intros [= <- <-]; left; split; [reflexivity | discriminate] |].
  destruct (fails e WriteAppointment);
    [intros [= <- <-]; left; split; [reflexivity | discriminate] |].
  rewrite HX. cbn.
  assert (Hwho : ownerId X = uid \/ veterinarianId X = uid).
  { apply andb_false_iff in Hacc as [H | H]; apply negb_false_iff, String.eqb_eq in H; auto. }
  cbn in Hd. apply Z.leb_gt in Hd.
  destruct (rb_reason body); [destruct (fails e WriteNotification) |];
    intros [= <- <-]; right; exists X, t;
    (split; [reflexivity |]); (split; [exact Hwho |]); (split; [reflexivity |]);
    (split; [exact Hd |]); (split; [exact Hc |]); [left | right | left]; split; reflexivity.
Qed.

Lemma reschedule_success_full uid id body e w c p w' :
  reschedule uid id body e w = (Returned (Json c p), w') ->
  exists X t,
    appointments w !! id = Some X
    /\ (ownerId X = uid \/ veterinarianId X = uid)
    /\ rb_newDateTime body = Some (ValidDate t) /\ now e < t
    /\ hasConflict (conflictSnapshot w (veterinarianId X) t (t + duration X * 60000)) id
       = false
    /\ w' = {| appointments :=
                 <[id := rescheduleUpdate t (rb_reason body) (now e) X]> (appointments w);
               pets := pets w; users := users w;
               notifications := notifications w ++ [rescheduleNotification e uid id t X] |}.
Proof.
  intros Hrun. apply reschedule_write_inv in Hrun
    as [[_ Hr] | (X & t & HX & Hwho & Ht & Hfuture & Hc & [[[=] _] | [_ ->]])].
  - destruct (Hr c p eq_refl).
  - exists X, t. auto 10.
Qed.

(** X13: who may reschedule, and to when.  A 200 of the reschedule route
    means that the appointment exists, that the caller is its owner or
    its veterinarian, and that the new start is a valid date strictly
    after the time of the request; exactly one notification is added, for
    the other party. *)
Theorem reschedule_is_permitted (uid id : string) (body : RescheduleBody) (e : Env)
  (w w' : World) (c : Z) (p : Payload) :
  reschedule uid id body e w = (Returned (Json c p), w') ->
  exists X t n,
    appointments w !! id = Some X
    /\ (ownerId X = uid \/ veterinarianId X = uid)
    /\ rb_newDateTime body = Some (ValidDate t) /\ now e < t
    /\ notifications w' = (notifications w ++ [n])%list
    /\ n_appointmentId n = id
    /\ (veterinarianId X = uid -> userId n = ownerId X)
    /\ (veterinarianId X <> uid -> userId n = veterinarianId X)
    /\ (ownerId X <> veterinarianId X -> userId n <> uid).
Proof.
  intros Hrun. apply reschedule_success_full in Hrun
    as (X & t & HX & Hwho & Ht & Hfuture & _ & ->).
  exists X, t, (rescheduleNotification e uid id t X).
  repeat (split; [first [assumption | reflexivity] |]).
  cbn [rescheduleNotification userId]. apply otherParty_spec. exact Hwho.
Qed.

Lemma reschedule_is_permitted_witness :
  exists X t n,
    appointments (clinic {[ "a1" := booking "vet1" (at_ 10 0) 30 "pending" ]}) !! "a1" = Some X
    /\ (ownerId X = "owner1" \/ veterinarianId X = "owner1")
    /\ Some (ValidDate (at_ 15 0)) = Some (ValidDate t) /\ now quiet < t
    /\ userId n <> "owner1".
Proof.
  destruct (reschedule_is_permitted "owner1" "a1"
              {| rb_newDateTime := Some (ValidDate (at_ 15 0)); rb_reason := Some "work" |}
              quiet
              (clinic {[ "a1" := booking "vet1" (at_ 10 0) 30 "pending" ]})
              (reschedule "owner1" "a1"
                 {| rb_newDateTime := Some (ValidDate (at_ 15 0)); rb_reason := Some "work" |}
                 quiet
                 (clinic {[ "a1" := booking "vet1" (at_ 10 0) 30 "pending" ]})).2
              200 (Message "Appointment rescheduled successfully"))
    as (X & t & n & HX & Hwho & Ht & Hfut & _ & _ & _ & _ & Hother).
  - vm_compute. reflexivity.
  - exists X, t, n. repeat (split; [assumption |]). apply Hother.
    cbn in HX. rewrite lookup_singleton_eq in HX. injection HX as <-. discriminate.
Defined.

(** X14: the conflict rule of reschedule.  A 409 is always caused by
    another appointment (a different id) of the same veterinarian that is
    pending or confirmed and starts in [t, t + duration), where the
    duration is the stored one of the rescheduled appointment; and when
    the reschedule succeeds, no other pending or confirmed appointment of
    that veterinarian starts in that window. *)
Theorem reschedule_conflict_rule (uid id : string) (body : RescheduleBody) (e : Env)
  (w w' : World) (r : Response) :
  reschedule uid id body e w = (Returned r, w') ->
  (forall code, r = ErrorJson 409 code ->
     exists X t id' Y,
       appointments w !! id = Some X /\ rb_newDateTime body = Some (ValidDate t)
       /\ id' <> id /\ appointments w !! id' = Some Y
       /\ veterinarianId Y = veterinarianId X /\ isBlocking (status Y) = true
       /\ t <= dateTime Y < t + duration X * 60000)
  /\ (forall c p, r = Json c p ->
        exists X t,
          appointments w !! id = Some X /\ rb_newDateTime body = Some (ValidDate t)
          /\ forall id' Y, id' <> id -> appointments w !! id' = Some Y ->
               veterinarianId Y = veterinarianId X -> isBlocking (status Y) = true ->
               ~ (t <= dateTime Y < t + duration X * 60000)).
Proof.
  intros Hrun. split.
  - intros code ->. apply reschedule_conflict_inv in Hrun as (X & t & HX & Ht & Hc).
    apply hasConflict_spec in Hc as (id' & Y & Hin & Hne).
    apply elem_of_conflictSnapshot in Hin as [HY Hf].
    apply conflictFilter_spec in Hf as (Hvet & Hblk & Hwin).
    exists X, t, id', Y. auto 10.
  - intros c p ->. apply reschedule_success_full in Hrun
      as (X & t & HX & _ & Ht & _ & Hc & _).
    exists X, t. split; [exact HX |]. split; [exact Ht |].
    intros id' Y Hne HY Hvet Hblk Hwin.
    assert (Htrue : hasConflict
                      (conflictSnapshot w (veterinarianId X) t (t + duration X * 60000)) id
                    = true).
    { apply hasConflict_spec. exists id', Y. split; [| exact Hne].
      apply elem_of_conflictSnapshot. split; [exact HY |].
      apply conflictFilter_spec. auto. }
    congruence.
Qed.

Lemma reschedule_conflict_rule_witness :
  exists X t id' Y,
    appointments (clinic {[ "a1" := booking "vet1" (at_ 10 0) 60 "confirmed";
                            "a2" := booking "vet1" (at_ 14 30) 30 "pending" ]}) !! "a1"
    = Some X
    /\ rb_newDateTime {| rb_newDateTime := Some (ValidDate (at_ 14 0)); rb_reason := None |}
       = Some (ValidDate t)
    /\ id' <> "a1"
    /\ appointments (clinic {[ "a1" := booking "vet1" (at_ 10 0) 60 "confirmed";
                               "a2" := booking "vet1" (at_ 14 30) 30 "pending" ]}) !! id'
       = Some Y
    /\ veterinarianId Y = veterinarianId X /\ isBlocking (status Y) = true
    /\ t <= dateTime Y < t + duration X * 60000.
Proof.
  refine (proj1 (reschedule_conflict_rule "vet1" "a1"
                   {| rb_newDateTime := Some (ValidDate (at_ 14 0)); rb_reason := None |} quiet
                   (clinic {[ "a1" := booking "vet1" (at_ 10 0) 60 "confirmed";
                              "a2" := booking "vet1" (at_ 14 30) 30 "pending" ]})
                   (clinic {[ "a1" := booking "vet1" (at_ 10 0) 60 "confirmed";
                              "a2" := booking "vet1" (at_ 14 30) 30 "pending" ]})
                   (ErrorJson 409 "TIME_CONFLICT") _) "TIME_CONFLICT" _).
  - vm_compute. reflexivity.
  - reflexivity.
Defined.

(** X15: reschedule keeps the starts of a veterinarian's pending and
    confirmed appointments distinct when the rescheduled appointment has a
    positive duration, whatever it answers. *)
Theorem reschedule_keeps_starts_distinct (uid id : string) (body : RescheduleBody) (e : Env)
  (w w' : World) (r : outcome Response) :
  distinctStarts (appointments w) ->
  (forall X, appointments w !! id = Some X -> 0 < duration X) ->
  reschedule uid id body e w = (r, w') ->
  distinctStarts (appointments w').
Proof.
  intros Hinv Hd Hrun.
  assert (Hcase : appointments w' = appointments w
                  \/ exists X t,
                       appointments w !! id = Some X
                       /\ hasConflict
                            (conflictSnapshot w (veterinarianId X) t (t + duration X * 60000)) id
                          = false
                       /\ appointments w'
                          = <[id := rescheduleUpdate t (rb_reason body) (now e) X]>
                              (appointments w)).
  { apply reschedule_write_inv in Hrun
      as [[-> _] | (X & t & HX & _ & _ & _ & Hc & [[_ ->] | [_ ->]])];
      [left; reflexivity | right; exists X, t; auto | right; exists X, t; auto]. }
  destruct Hcase as [-> | (X & t & HX & Hc & ->)]; [exact Hinv |].
  apply distinctStarts_insert; [exact Hinv |].
  intros id' b Hne Hb Hvet Hblk Hsame. cbn in Hvet, Hsame.
  assert (Htrue : hasConflict
                    (conflictSnapshot w (veterinarianId X) t (t + duration X * 60000)) id
                  = true).
  { apply hasConflict_spec. exists id', b. split; [| exact Hne].
    apply elem_of_conflictSnapshot. split; [exact Hb |].
    apply conflictFilter_spec. split; [exact Hvet |]. split; [exact Hblk |].
    specialize (Hd X HX). lia. }
  congruence.
Qed.

Lemma reschedule_keeps_starts_distinct_witness :
  let w := clinic {[ "a1" := booking "vet1" (at_ 10 0) 30 "confirmed";
                     "a2" := booking "vet1" (at_ 11 0) 30 "pending" ]} in
  let body := {| rb_newDateTime := Some (ValidDate (at_ 14 0));
                 rb_reason := Some "later" |} in
  distinctStarts (appointments (reschedule "vet1" "a1" body quiet w).2)
  /\ (reschedule "vet1" "a1" body quiet w).1
     = Returned (Json 200 (Message "Appointment rescheduled successfully"))
  /\ dateTime <$> appointments (reschedule "vet1" "a1" body quiet w).2 !! "a1"
     = Some (at_ 14 0).
Proof.
  cbv zeta. split; [| split; vm_compute; reflexivity].
  apply (reschedule_keeps_starts_distinct "vet1" "a1"
           {| rb_newDateTime := Some (ValidDate (at_ 14 0)); rb_reason := Some "later" |} quiet
           (clinic {[ "a1" := booking "vet1" (at_ 10 0) 30 "confirmed";
                      "a2" := booking "vet1" (at_ 11 0) 30 "pending" ]})
           (reschedule "vet1" "a1"
              {| rb_newDateTime := Some (ValidDate (at_ 14 0)); rb_reason := Some "later" |}
              quiet
              (clinic {[ "a1" := booking "vet1" (at_ 10 0) 30 "confirmed";
                         "a2" := booking "vet1" (at_ 11 0) 30 "pending" ]})).2
           (reschedule "vet1" "a1"
              {| rb_newDateTime := Some (ValidDate (at_ 14 0)); rb_reason := Some "later" |}
              quiet
              (clinic {[ "a1" := booking "vet1" (at_ 10 0) 30 "confirmed";
                         "a2" := booking "vet1" (at_ 11 0) 30 "pending" ]})).1).
  - cbn [clinic appointments]. apply distinctStarts_insert.
    + apply distinctStarts_singleton.
    + intros id' b _ Hb _ _. apply lookup_singleton_Some in Hb as [_ <-].
      vm_compute. discriminate.
  - intros X HX. cbn [clinic appointments] in HX.
    rewrite lookup_insert_eq in HX. injection HX as <-. cbn. lia.
  - apply surjective_pairing.
Defined.

(** X16: the rejections of reschedule, none of which writes anything: a
    request without a new date is refused with 400 MISSING_DATETIME
    before any database call; an unknown appointment gives 404; a caller
    who is neither owner nor veterinarian gives 403; and for a party a new
    start at or before the time of the request gives 400 INVALID_DATE. *)
Theorem reschedule_rejections (uid id : string) (body : RescheduleBody) (e : Env)
  (w : World) :
  (rb_newDateTime body = None ->
   reschedule uid id body e w = (Returned (ErrorJson 400 "MISSING_DATETIME"), w))
  /\ (is_Some (rb_newDateTime body) -> fails e ReadAppointment = false ->
      appointments w !! id = None ->
      reschedule uid id body e w = (Returned (ErrorJson 404 "APPOINTMENT_NOT_FOUND"), w))
  /\ (is_Some (rb_newDateTime body) -> fails e ReadAppointment = false ->
      forall X, appointments w !! id = Some X ->
        ownerId X <> uid -> veterinarianId X <> uid ->
        reschedule uid id body e w = (Returned (ErrorJson 403 "ACCESS_DENIED"), w))
  /\ (fails e ReadAppointment = false ->
      forall X t, appointments w !! id = Some X ->
        ownerId X = uid \/ veterinarianId X = uid ->
        rb_newDateTime body = Some (ValidDate t) -> t <= now e ->
        reschedule uid id body e w = (Returned (ErrorJson 400 "INVALID_DATE"), w)).
Proof.
  unfold reschedule. unfold_db. split; [| split; [| split]].
  - intros ->. reflexivity.
  - intros [d ->] Hread HX. rewrite Hread, HX. reflexivity.
  - intros [d ->] Hread X HX Hown Hvet. rewrite Hread, HX.
    apply String.eqb_neq in Hown, Hvet. rewrite Hown, Hvet. reflexivity.
  - intros Hread X t HX Hwho -> Hpast. rewrite Hread, HX.
    replace (negb (String.eqb (ownerId X) uid) && negb (String.eqb (veterinarianId X) uid))
      with false.
    2: { symmetry. apply andb_false_iff.
         destruct Hwho as [<- | <-]; [left | right]; rewrite String.eqb_refl; reflexivity. }
    cbn [dateLeb]. apply Z.leb_le in Hpast. rewrite Hpast. reflexivity.
Qed.

Lemma reschedule_rejections_witness :
  reschedule "owner1" "a1"
    {| rb_newDateTime := Some (ValidDate (now quiet)); rb_reason := None |} quiet
    (clinic {[ "a1" := booking "vet1" (at_ 10 0) 30 "confirmed" ]})
  = (Returned (ErrorJson 400 "INVALID_DATE"),
     clinic {[ "a1" := booking "vet1" (at_ 10 0) 30 "confirmed" ]}).
Proof.
  apply (proj2 (proj2 (proj2 (reschedule_rejections "owner1" "a1"
           {| rb_newDateTime := Some (ValidDate (now quiet)); rb_reason := None |} quiet
           (clinic {[ "a1" := booking "vet1" (at_ 10 0) 30 "confirmed" ]}))))
         eq_refl (booking "vet1" (at_ 10 0) 30 "confirmed") (now quiet)).
  - reflexivity.
  - left. reflexivity.
  - reflexivity.
  - lia.
Defined.

(** ** The list route: scope, order, enrichment, pages *)

Lemma insertBy_In {A} (leb : A -> A -> bool) x y l :
  In y (insertBy leb x l) <-> y = x \/ In y l.
Proof.
  induction l as [| z l IH]; cbn [insertBy In]; [intuition |].
  destruct (leb x z); cbn [In]; [intuition | rewrite IH; intuition].
Qed.

Lemma orderBy_In {A} (leb : A -> A -> bool) y l : In y (orderBy leb l) <-> In y l.
Proof.
  unfold orderBy. induction l as [| x l IH]; cbn [foldr In]; [reflexivity |].
  rewrite insertBy_In, IH. intuition.
Qed.

(** Insertion along a total and transitive comparison keeps a list
    sorted. *)
Lemma insertBy_sorted {A} (leb : A -> A -> bool) x l :
  (forall a b, leb a b = false -> leb b a = true) ->
  (forall a b c, leb a b = true -> leb b c = true -> leb a c = true) ->
  StronglySorted (fun a b => leb a b = true) l ->
  StronglySorted (fun a b => leb a b = true) (insertBy leb x l).
Proof.
  intros Htotal Htrans. induction 1 as [| z l Hl IH Hz]; cbn [insertBy].
  - repeat constructor.
  - destruct (leb x z) eqn:Hxz.
    + constructor; [constructor; assumption |].
      constructor; [exact Hxz |].
      eapply Forall_impl; [exact Hz |]. cbn. intros b Hb. eapply Htrans; eassumption.
    + constructor; [exact IH |].
      apply Forall_forall. intros b Hb. apply list_elem_of_In, insertBy_In in Hb as [-> | Hb].
      * apply Htotal. exact Hxz.
      * rewrite Forall_forall in Hz. apply Hz, list_elem_of_In. exact Hb.
Qed.

Lemma orderBy_sorted {A} (leb : A -> A -> bool) l :
  (forall a b, leb a b = false -> leb b a = true) ->
  (forall a b c, leb a b = true -> leb b c = true -> leb a c = true) ->
  StronglySorted (fun a b => leb a b = true) (orderBy leb l).
Proof.
  intros Htotal Htrans. unfold orderBy.
  induction l as [| x l IH]; cbn [foldr]; [constructor |].
  apply insertBy_sorted; assumption.
Qed.

Lemma StronglySorted_weaken {A} (R R' : A -> A -> Prop) l :
  (forall x y, R x y -> R' x y) -> StronglySorted R l -> StronglySorted R' l.
Proof.
  intros HR. induction 1 as [| x l _ IH Hx]; constructor; [exact IH |].
  eapply Forall_impl; [exact Hx |]. intros y. apply HR.
Qed.

Lemma StronglySorted_map {A B} (f : A -> B) (R : B -> B -> Prop) l :
  StronglySorted (fun x y => R (f x) (f y)) l -> StronglySorted R (map f l).
Proof.
  induction 1 as [| x l _ IH Hx]; cbn [map]; constructor; [exact IH |].
  apply List.Forall_map. exact Hx.
Qed.

(** The matches of a list request are the stored appointments that pass
    the filter, in the order of the query. *)
Lemma matchingAppointments_In w uid q t id a :
  In (id, a) (matchingAppointments w uid q t)
  <-> appointments w !! id = Some a
      /\ listFilter (role <$> users w !! uid) uid q t (id, a) = true.
Proof.
  unfold matchingAppointments.
  rewrite orderBy_In, filter_In, <- list_elem_of_In, elem_of_map_to_list. tauto.
Qed.

Lemma matchingAppointments_sorted w uid q t :
  StronglySorted (fun x y : string * Appointment => inQueryOrder (q_upcoming q) x.2 y.2)
    (matchingAppointments w uid q t).
Proof.
  unfold matchingAppointments, inQueryOrder.
  eapply StronglySorted_weaken; [| apply orderBy_sorted].
  - intros x y. cbn. destruct (q_upcoming q); apply Z.leb_le.
  - intros x y H. destruct (q_upcoming q); apply Z.leb_gt in H; apply Z.leb_le; lia.
  - intros x y z H1 H2.
    destruct (q_upcoming q); apply Z.leb_le in H1, H2; apply Z.leb_le; lia.
Qed.

(** A batch read returns, for every requested id, what the collection
    holds, and writes nothing. *)
Lemma getAll_run {A} op (coll : World -> gmap string A) ids e w (r : outcome (gmap string A)) w' :
  getAll op coll ids e w = (r, w') ->
  w' = w /\ forall m, r = Returned m -> forall k, k ∈ ids -> m !! k = coll w !! k.
Proof.
  unfold getAll, await, ret. destruct (bool_decide (ids = [])) eqn:Hids.
  - apply bool_decide_eq_true in Hids. subst ids. intros [= <- <-].
    split; [reflexivity |]. intros m _ k Hk. inversion Hk.
  - destruct (fails e op); intros [= <- <-]; (split; [reflexivity |]); [intros m [=] |].
    intros m [= <-] k Hk.
    destruct (coll w !! k) as [v|] eqn:Hv.
    + apply elem_of_list_to_map_1'.
      * intros y Hy. apply list_elem_of_omap in Hy as (k' & _ & Hy).
        destruct (coll w !! k') eqn:Hk'; cbn in Hy; [| discriminate].
        injection Hy as <- <-. congruence.
      * apply list_elem_of_omap. exists k. rewrite Hv. auto.
    + apply not_elem_of_list_to_map_1. intros Hin.
      apply list_elem_of_fmap in Hin as ([k' y] & -> & Hy).
      apply list_elem_of_omap in Hy as (k'' & _ & Hy).
      destruct (coll w !! k'') eqn:Hk'; cbn in Hy; [| discriminate].
      injection Hy as <- <-. cbn in Hv. congruence.
Qed.

(** Everything a 200 of the list route tells: the items are the page of
    the matches, each with its pet and veterinarian documents. *)
Lemma listAppointments_success_full uid q e w c items hasMore w' :
  listAppointments uid q e w = (Returned (Json c (AppointmentList items hasMore)), w') ->
  0 <= default 20 (q_limit q) /\ 0 <= default 0 (q_offset q)
  /\ items = map (enrich w) (pageOf w uid q (now e))
  /\ w' = w.
Proof.
  unfold listAppointments, getPage. unfold_db.
  destruct (fails e ReadUser) eqn:Hru; [intros [=] |].
  destruct ((_ <? 0) || (_ <? 0)) eqn:Hneg; [intros [=] |].
  apply orb_false_iff in Hneg as [Hl Ho]. apply Z.ltb_ge in Hl, Ho.
  destruct (fails e QueryAppointments); [intros [=] |].
  fold (matchingAppointments w uid q (now e)). fold (pageOf w uid q (now e)).
  set (snapshot := pageOf w uid q (now e)).
  destruct (getAll ReadPet pets _ e w) as [[petMap|] w1] eqn:Hpets; [| intros [=]].
  apply getAll_run in Hpets as [-> Hpets]. specialize (Hpets petMap eq_refl).
  destruct (getAll ReadUser users _ e w) as [[vetMap|] w2] eqn:Hvets; [| intros [=]].
  apply getAll_run in Hvets as [-> Hvets]. specialize (Hvets vetMap eq_refl).
  intros [= <- <- <- <-]. repeat split; try assumption.
  apply map_ext_in. intros [id a] Hin. unfold enrich. cbn [fst snd].
  rewrite Hpets, Hvets; [reflexivity | |]; apply elem_of_remove_dups, list_elem_of_In;
    apply in_map_iff; exists (id, a); split; auto.
Qed.

Lemma pageOf_In w uid q t doc : In doc (pageOf w uid q t) -> In doc (matchingAppointments w uid q t).
Proof.
  unfold pageOf. intros H. apply list_elem_of_In in H. apply list_elem_of_In.
  apply (subseteq_drop (Z.to_nat (default 0 (q_offset q)))).
  apply (subseteq_take (Z.to_nat (default 20 (q_limit q)))). exact H.
Qed.

(** X17: the list route returns only the caller's own appointments.
    Every item of a 200 response is a stored appointment with its stored
    id; it names the caller as veterinarian when the caller's role is
    veterinarian and as owner otherwise; it has the requested status when
    a status other than [all] is requested; and it starts at or after the
    time of the request when upcoming appointments are requested. *)
Theorem list_returns_own_appointments (uid : string) (q : ListQuery) (e : Env)
  (w w' : World) (c : Z) (items : list (string * Appointment * option Pet * option User))
  (hasMore : bool) :
  listAppointments uid q e w = (Returned (Json c (AppointmentList items hasMore)), w') ->
  Forall (fun item =>
            appointments w !! itemId item = Some (itemAppointment item)
            /\ (role <$> users w !! uid = Some "veterinarian" ->
                veterinarianId (itemAppointment item) = uid)
            /\ (role <$> users w !! uid <> Some "veterinarian" ->
                ownerId (itemAppointment item) = uid)
            /\ (forall st, q_status q = Some st -> st <> "" -> st <> "all" ->
                status (itemAppointment item) = st)
            /\ (q_upcoming q = true -> now e <= dateTime (itemAppointment item)))
         items.
Proof.
  intros Hrun. apply listAppointments_success_full in Hrun as (_ & _ & -> & _).
  apply Forall_forall. intros item Hitem. apply list_elem_of_In, in_map_iff in Hitem
    as ([id a] & <- & Hin).
  apply pageOf_In, matchingAppointments_In in Hin as [Ha Hf].
  unfold enrich, itemId, itemAppointment. cbn [fst snd].
  split; [exact Ha |].
  unfold listFilter in Hf. cbn [snd] in Hf.
  apply andb_true_iff in Hf as [Hf Hup]. apply andb_true_iff in Hf as [Hwho Hst].
  split; [| split; [| split]].
  - intros Hrole. rewrite bool_decide_eq_true_2 in Hwho by exact Hrole.
    apply String.eqb_eq. exact Hwho.
  - intros Hrole. rewrite bool_decide_eq_false_2 in Hwho by exact Hrole.
    apply String.eqb_eq. exact Hwho.
  - intros st Hq Hne Hall. rewrite Hq in Hst.
    cbv beta iota delta [truthy str default from_option Datatypes.id] in Hst.
    apply String.eqb_neq in Hne, Hall. rewrite Hne, Hall in Hst. cbn in Hst.
    apply String.eqb_eq. exact Hst.
  - intros Hq. rewrite Hq in Hup. apply Z.leb_le. exact Hup.
Qed.

Lemma list_returns_own_appointments_witness :
  Forall (fun item =>
            appointments (clinic {[ "a1" := booking "vet1" (at_ 10 0) 30 "confirmed";
                                    "a2" := booking "vet2" (at_ 11 0) 30 "pending" ]})
              !! itemId item = Some (itemAppointment item)
            /\ veterinarianId (itemAppointment item) = "vet1")
    [("a1", booking "vet1" (at_ 10 0) 30 "confirmed",
      Some (mkPet "owner1" "Rex"), Some (mkUser "veterinarian" "approved" "Vera" "Vet"))].
Proof.
  eapply Forall_impl.
  - apply (list_returns_own_appointments "vet1" (mkListQuery None None None false) quiet
             (clinic {[ "a1" := booking "vet1" (at_ 10 0) 30 "confirmed";
                        "a2" := booking "vet2" (at_ 11 0) 30 "pending" ]})
             (clinic {[ "a1" := booking "vet1" (at_ 10 0) 30 "confirmed";
                        "a2" := booking "vet2" (at_ 11 0) 30 "pending" ]})
             200 _ false).
    vm_compute. reflexivity.
  - cbn beta. intros item (Ha & Hvet & _). split; [exact Ha |]. apply Hvet. reflexivity.
Defined.

Lemma insertBy_Permutation {A} (leb : A -> A -> bool) x l :
  Permutation (insertBy leb x l) (x :: l).
Proof.
  induction l as [| y l IH]; cbn [insertBy]; [reflexivity |].
  destruct (leb x y); [reflexivity |]. rewrite IH. apply perm_swap.
Qed.

Lemma orderBy_Permutation {A} (leb : A -> A -> bool) l : Permutation (orderBy leb l) l.
Proof.
  unfold orderBy. induction l as [| x l IH]; cbn [foldr]; [reflexivity |].
  rewrite insertBy_Permutation, IH. reflexivity.
Qed.

Lemma filter_NoDup_fst {A B} (p : A * B -> bool) l :
  NoDup (map fst l) -> NoDup (map fst (List.filter p l)).
Proof.
  induction l as [| x l IH]; cbn [List.filter map]; [auto |].
  intros Hnd. apply NoDup_cons in Hnd as [Hx Hl].
  destruct (p x); [| auto]. cbn [map]. apply NoDup_cons. split; [| auto].
  intros Hin. apply Hx. apply list_elem_of_In in Hin. apply list_elem_of_In.
  apply in_map_iff in Hin as (y & Hy & Hin). apply filter_In in Hin as [Hin _].
  apply in_map_iff. exists y. auto.
Qed.

(** No document id occurs twice among the matches. *)
Lemma matchingAppointments_NoDup w uid q t :
  NoDup (map fst (matchingAppointments w uid q t)).
Proof.
  unfold matchingAppointments.
  rewrite (Permutation_map fst (orderBy_Permutation _ _)).
  apply filter_NoDup_fst. apply NoDup_fst_map_to_list.
Qed.

(** X18: a page of the list route is in the order of the query (by
    start, ascending for upcoming appointments and descending otherwise),
    holds at most [limit] appointments and never holds the same
    appointment twice. *)
Theorem list_page_ordered_bounded (uid : string) (q : ListQuery) (e : Env)
  (w w' : World) (c : Z) (items : list (string * Appointment * option Pet * option User))
  (hasMore : bool) :
  listAppointments uid q e w = (Returned (Json c (AppointmentList items hasMore)), w') ->
  StronglySorted (fun i j => inQueryOrder (q_upcoming q) (itemAppointment i) (itemAppointment j))
    items
  /\ Z.of_nat (length items) <= default 20 (q_limit q)
  /\ NoDup (map itemId items).
Proof.
  intros Hrun. apply listAppointments_success_full in Hrun as (Hl & _ & -> & _).
  pose proof (matchingAppointments_sorted w uid q (now e)) as Hsorted.
  pose proof (matchingAppointments_NoDup w uid q (now e)) as Hnd.
  unfold pageOf.
  set (L := matchingAppointments w uid q (now e)) in *.
  set (n := Z.to_nat (default 20 (q_limit q))). set (k := Z.to_nat (default 0 (q_offset q))).
  split; [| split].
  - apply StronglySorted_map.
    rewrite <- (take_drop k L) in Hsorted. apply StronglySorted_app_1_r in Hsorted.
    rewrite <- (take_drop n (drop k L)) in Hsorted.
    apply StronglySorted_app_1_l in Hsorted. exact Hsorted.
  - rewrite length_map, length_take. lia.
  - rewrite map_map. change (fun x => itemId (enrich w x)) with (@fst string Appointment).
    rewrite <- (take_drop k L), fmap_app in Hnd. apply NoDup_app in Hnd as (_ & _ & Hnd).
    rewrite <- (take_drop n (drop k L)), fmap_app in Hnd.
    apply NoDup_app in Hnd as (Hnd & _ & _). exact Hnd.
Qed.

Lemma list_page_ordered_bounded_witness :
  exists items,
    (listAppointments "owner1" (mkListQuery None (Some 1) None false) quiet
       (clinic {[ "a1" := booking "vet1" (at_ 10 0) 30 "confirmed";
                  "a2" := booking "vet1" (at_ 11 0) 30 "pending" ]})).1
    = Returned (Json 200 (AppointmentList items true))
    /\ Z.of_nat (length items) <= 1
    /\ NoDup (map itemId items).
Proof.
  eexists. split; [vm_compute; reflexivity |].
  refine (proj2 (list_page_ordered_bounded "owner1" (mkListQuery None (Some 1) None false)
                   quiet
                   (clinic {[ "a1" := booking "vet1" (at_ 10 0) 30 "confirmed";
                              "a2" := booking "vet1" (at_ 11 0) 30 "pending" ]})
                   _ 200 _ true _)).
  vm_compute. reflexivity.
Defined.

(** X19: every appointment of a list response comes with its own pet and
    veterinarian: the pet document stored under the appointment's
    [petId] and the user document stored under its [veterinarianId], or
    nothing where no such document exists. *)
Theorem list_items_are_enriched (uid : string) (q : ListQuery) (e : Env)
  (w w' : World) (c : Z) (items : list (string * Appointment * option Pet * option User))
  (hasMore : bool) :
  listAppointments uid q e w = (Returned (Json c (AppointmentList items hasMore)), w') ->
  Forall (fun item =>
            itemPet item = pets w !! petId (itemAppointment item)
            /\ itemVet item = users w !! veterinarianId (itemAppointment item))
         items.
Proof.
  intros Hrun. apply listAppointments_success_full in Hrun as (_ & _ & -> & _).
  apply Forall_forall. intros item Hitem.
  apply list_elem_of_In, in_map_iff in Hitem as (doc & <- & _).
  split; reflexivity.
Qed.

Lemma list_items_are_enriched_witness :
  Forall (fun item =>
            itemPet item
            = pets (clinic {[ "a2" := booking "vet2" (at_ 11 0) 30 "pending" ]})
                !! petId (itemAppointment item)
            /\ itemVet item
               = users (clinic {[ "a2" := booking "vet2" (at_ 11 0) 30 "pending" ]})
                   !! veterinarianId (itemAppointment item))
    [("a2", booking "vet2" (at_ 11 0) 30 "pending", Some (mkPet "owner1" "Rex"), @None User)].
Proof.
  apply (list_items_are_enriched "owner1" (mkListQuery None None None false) quiet
           (clinic {[ "a2" := booking "vet2" (at_ 11 0) 30 "pending" ]})
           (clinic {[ "a2" := booking "vet2" (at_ 11 0) 30 "pending" ]})
           200 _ false).
  vm_compute. reflexivity.
Defined.

(** Without the upcoming filter the matches do not depend on the time of
    the request. *)
Lemma matchingAppointments_any_time w uid q t t' :
  q_upcoming q = false ->
  matchingAppointments w uid q t = matchingAppointments w uid q t'.
Proof.
  intros Hup. unfold matchingAppointments. f_equal.
  apply filter_ext. intros doc. unfold listFilter. rewrite Hup. reflexivity.
Qed.

(** X20: consecutive pages fit together.  For one caller, filter, order
    and database state and a positive limit, the page at [offset] followed
    by the page at [offset + limit] is the page of twice the limit at
    [offset]: paging through the list neither skips nor repeats an
    appointment.  The three requests may be made at different times, with
    one proviso: when upcoming appointments are requested the filter moves
    with the time of the request, and the pages fit together if the three
    requests read the same time. *)
Theorem consecutive_pages_compose (uid : string) (st : option string) (up : bool)
  (l o : Z) (e1 e2 e3 : Env) (w w1 w2 w3 : World) (c1 c2 c3 : Z)
  (i1 i2 i3 : list (string * Appointment * option Pet * option User)) (h1 h2 h3 : bool) :
  0 < l ->
  (up = true -> now e2 = now e1 /\ now e3 = now e1) ->
  listAppointments uid (mkListQuery st (Some l) (Some o) up) e1 w
  = (Returned (Json c1 (AppointmentList i1 h1)), w1) ->
  listAppointments uid (mkListQuery st (Some l) (Some (o + l)) up) e2 w
  = (Returned (Json c2 (AppointmentList i2 h2)), w2) ->
  listAppointments uid (mkListQuery st (Some (2 * l)) (Some o) up) e3 w
  = (Returned (Json c3 (AppointmentList i3 h3)), w3) ->
  i3 = (i1 ++ i2)%list.
Proof.
  intros Hpos Htime H1 H2 H3.
  apply listAppointments_success_full in H1 as (Hl & Ho & -> & _).
  apply listAppointments_success_full in H2 as (_ & _ & -> & _).
  apply listAppointments_success_full in H3 as (_ & _ & -> & _).
  cbn in Hl, Ho. rewrite <- map_app. f_equal. unfold pageOf.
  cbn [q_limit q_offset default from_option Datatypes.id].
  set (L := matchingAppointments w uid (mkListQuery st (Some l) (Some o) up) (now e1)).
  assert (H2 : matchingAppointments w uid (mkListQuery st (Some l) (Some (o + l)) up) (now e2)
               = L).
  { destruct up.
    - destruct (Htime eq_refl) as [-> _]. reflexivity.
    - apply (matchingAppointments_any_time w uid
               (mkListQuery st (Some l) (Some (o + l)) false) (now e2) (now e1)).
      reflexivity. }
  assert (H3 : matchingAppointments w uid (mkListQuery st (Some (2 * l)) (Some o) up) (now e3)
               = L).
  { destruct up.
    - destruct (Htime eq_refl) as [_ ->]. reflexivity.
    - apply (matchingAppointments_any_time w uid
               (mkListQuery st (Some (2 * l)) (Some o) false) (now e3) (now e1)).
      reflexivity. }
  rewrite H2, H3.
  replace (Z.to_nat (2 * l)) with (Z.to_nat l + Z.to_nat l)%nat by lia.
  replace (Z.to_nat (o + l)) with (Z.to_nat o + Z.to_nat l)%nat by lia.
  rewrite <- (drop_drop L (Z.to_nat l) (Z.to_nat o)).
  symmetry. apply take_take_drop.
Qed.

Lemma consecutive_pages_compose_witness :
  [("a2", booking "vet1" (at_ 11 0) 30 "pending",
    Some (mkPet "owner1" "Rex"), Some (mkUser "veterinarian" "approved" "Vera" "Vet"));
   ("a1", booking "vet1" (at_ 10 0) 30 "confirmed",
    Some (mkPet "owner1" "Rex"), Some (mkUser "veterinarian" "approved" "Vera" "Vet"))]
  = ([("a2", booking "vet1" (at_ 11 0) 30 "pending",
       Some (mkPet "owner1" "Rex"), Some (mkUser "veterinarian" "approved" "Vera" "Vet"))]
     ++ [("a1", booking "vet1" (at_ 10 0) 30 "confirmed",
          Some (mkPet "owner1" "Rex"),
          Some (mkUser "veterinarian" "approved" "Vera" "Vet"))])%list.
Proof.
  refine (consecutive_pages_compose "owner1" None false 1 0 quiet evening (quietWith "new2")
            (clinic {[ "a1" := booking "vet1" (at_ 10 0) 30 "confirmed";
                       "a2" := booking "vet1" (at_ 11 0) 30 "pending" ]})
            (clinic {[ "a1" := booking "vet1" (at_ 10 0) 30 "confirmed";
                       "a2" := booking "vet1" (at_ 11 0) 30 "pending" ]})
            (clinic {[ "a1" := booking "vet1" (at_ 10 0) 30 "confirmed";
                       "a2" := booking "vet1" (at_ 11 0) 30 "pending" ]})
            (clinic {[ "a1" := booking "vet1" (at_ 10 0) 30 "confirmed";
                       "a2" := booking "vet1" (at_ 11 0) 30 "pending" ]})
            200 200 200 _ _ _ true true true _ _ _ _ _).
  - lia.
  - discriminate.
  - vm_compute. reflexivity.
  - vm_compute. reflexivity.
  - vm_compute. reflexivity.
Defined.

(** ** The read routes write nothing *)

Lemma getAll_world {A} op (coll : World -> gmap string A) ids e w r w' :
  getAll op coll ids e w = (r, w') -> w' = w.
Proof. intros H. apply getAll_run in H as [-> _]. reflexivity. Qed.

Lemma listAppointments_world uid q e w r w' :
  listAppointments uid q e w = (r, w') -> w' = w.
Proof.
  unfold listAppointments, getPage. unfold_db.
  destruct (fails e ReadUser); [intros [= <- <-]; reflexivity |].
  destruct ((_ <? 0) || (_ <? 0)); [intros [= <- <-]; reflexivity |].
  destruct (fails e QueryAppointments); [intros [= <- <-]; reflexivity |].
  destruct (getAll ReadPet pets _ e w) as [[petMap|] w1] eqn:Hpets;
    apply getAll_world in Hpets as ->; [| intros [= <- <-]; reflexivity].
  destruct (getAll ReadUser users _ e w) as [[vetMap|] w2] eqn:Hvets;
    apply getAll_world in Hvets as ->; intros [= <- <-]; reflexivity.
Qed.

Lemma getAvailability_world vet date e w r w' :
  getAvailability vet date e w = (r, w') -> w' = w.
Proof.
  unfold getAvailability. unfold_db.
  destruct date as [[d |] |]; [| intros [= <- <-]; reflexivity ..].
  destruct (d <? _); [intros [= <- <-]; reflexivity |].
  destruct (fails e ReadUser); [intros [= <- <-]; reflexivity |].
  destruct (match users w !! vet with Some _ => _ | None => _ end);
    [intros [= <- <-]; reflexivity |].
  cbn [timestampFromDate ret throw].
  destruct (validTimestamp (setHours d 0 0 0 0)); cbn [timestampFromDate ret throw];
    [| intros [= <- <-]; reflexivity].
  destruct (validTimestamp (setHours d 23 59 59 999)); cbn [timestampFromDate ret throw];
    [| intros [= <- <-]; reflexivity].
  destruct (fails e QueryAppointments); intros [= <- <-]; reflexivity.
Qed.

Lemma getAppointmentById_world uid id e w r w' :
  getAppointmentById uid id e w = (r, w') -> w' = w.
Proof.
  unfold getAppointmentById. unfold_db.
  destruct (fails e ReadAppointment); [intros [= <- <-]; reflexivity |].
  destruct (appointments w !! id) as [a|]; [| intros [= <- <-]; reflexivity].
  destruct (_ && _); [intros [= <- <-]; reflexivity |].
  destruct (fails e ReadPet); [intros [= <- <-]; reflexivity |].
  destruct (fails e ReadUser); intros [= <- <-]; reflexivity.
Qed.

(** X21: the list route, the availability route and the
    single-appointment route never write: whatever they answer, also when
    a database call fails, the database is left exactly as it was. *)
Theorem read_routes_write_nothing :
  (forall uid q e w r w', listAppointments uid q e w = (r, w') -> w' = w)
  /\ (forall vet date e w r w', getAvailability vet date e w = (r, w') -> w' = w)
  /\ (forall uid id e w r w', getAppointmentById uid id e w = (r, w') -> w' = w).
Proof.
  split; [| split].
  - apply listAppointments_world.
  - apply getAvailability_world.
  - apply getAppointmentById_world.
Qed.

Lemma read_routes_write_nothing_witness :
  (listAppointments "owner1" (mkListQuery None None None false) notifyDown
     (clinic {[ "a1" := booking "vet1" (at_ 10 0) 30 "confirmed" ]})).2
  = clinic {[ "a1" := booking "vet1" (at_ 10 0) 30 "confirmed" ]}.
Proof.
  apply (proj1 read_routes_write_nothing "owner1" (mkListQuery None None None false)
           notifyDown (clinic {[ "a1" := booking "vet1" (at_ 10 0) 30 "confirmed" ]})
           (listAppointments "owner1" (mkListQuery None None None false) notifyDown
              (clinic {[ "a1" := booking "vet1" (at_ 10 0) 30 "confirmed" ]})).1).
  apply surjective_pairing.
Defined.

(** ** Availability: the rule, the bounds, the rejections *)

Lemma isBooked_spec booked t :
  isBooked booked t = true
  <-> exists b, In b booked /\ start b <= t < start b + slot_duration b * 60000.
Proof.
  unfold isBooked. rewrite existsb_exists. split; intros (b & Hin & Hb); exists b;
    (split; [exact Hin |]).
  - apply andb_true_iff in Hb as [Hs He]. apply Z.leb_le in Hs. apply Z.ltb_lt in He. lia.
  - apply andb_true_iff. split; [apply Z.leb_le | apply Z.ltb_lt]; lia.
Qed.

Lemma dayFilter_spec vet dayStart dayEnd id a :
  dayFilter vet dayStart dayEnd (id, a) = true
  <-> veterinarianId a = vet /\ isBlocking (status a) = true
      /\ dayStart <= dateTime a <= dayEnd.
Proof.
  unfold dayFilter. cbn [snd].
  rewrite !andb_true_iff, String.eqb_eq, !Z.leb_le. tauto.
Qed.

(** The booked slots of a day are the pending and confirmed appointments
    of the veterinarian that start on that day. *)
Lemma dayBookings_In w vet d b :
  In b (dayBookings w vet d)
  <-> exists id a,
        appointments w !! id = Some a
        /\ veterinarianId a = vet /\ isBlocking (status a) = true
        /\ setHours d 0 0 0 0 <= dateTime a <= setHours d 23 59 59 999
        /\ b = {| start := dateTime a; slot_duration := duration a |}.
Proof.
  unfold dayBookings. rewrite in_map_iff. split.
  - intros ([id a] & <- & Hin). apply filter_In in Hin as [Hin Hf].
    apply list_elem_of_In, elem_of_map_to_list in Hin.
    apply dayFilter_spec in Hf as (Hvet & Hblk & Hday).
    exists id, a. cbn [snd]. auto.
  - intros (id & a & Ha & Hvet & Hblk & Hday & ->). exists (id, a).
    split; [reflexivity |]. apply filter_In. split.
    + apply list_elem_of_In, elem_of_map_to_list. exact Ha.
    + apply dayFilter_spec. auto.
Qed.

(** X22: the rule the availability route implements.  In a 200 response
    an instant is offered exactly when it is 09:00 of the requested date
    plus a whole number of half hours, lies before 17:00, lies strictly
    after the time of the request, and lies in the interval [start,
    start + duration) of no pending or confirmed appointment of the
    veterinarian that starts on the requested date. *)
Theorem availability_rule (vet : string) (date : option JsDate) (e : Env) (w w' : World)
  (c : Z) (vet' : string) (slots : list Z) :
  getAvailability vet date e w = (Returned (Json c (Availability vet' slots)), w') ->
  exists d,
    date = Some (ValidDate d)
    /\ forall t,
         In t slots
         <-> (exists k : nat, t = setHours d 9 0 0 0 + Z.of_nat k * (30 * 60000))
             /\ t < setHours d 17 0 0 0 /\ now e < t
             /\ ~ (exists id a,
                      appointments w !! id = Some a
                      /\ veterinarianId a = vet /\ isBlocking (status a) = true
                      /\ setHours d 0 0 0 0 <= dateTime a <= setHours d 23 59 59 999
                      /\ dateTime a <= t < dateTime a + duration a * 60000).
Proof.
  intros Hrun. apply getAvailability_success_inv in Hrun as (d & -> & [= -> ->] & _).
  exists d. split; [reflexivity |]. intros t. rewrite generateSlots_In.
  assert (Hbooked :
    isBooked (dayBookings w vet d) t = false
    <-> ~ (exists id a,
              appointments w !! id = Some a
              /\ veterinarianId a = vet /\ isBlocking (status a) = true
              /\ setHours d 0 0 0 0 <= dateTime a <= setHours d 23 59 59 999
              /\ dateTime a <= t < dateTime a + duration a * 60000)).
  { rewrite <- not_true_iff_false, isBooked_spec. split; intros Hno Hyes; apply Hno.
    - destruct Hyes as (id & a & Ha & Hvet & Hblk & Hday & Hin).
      exists {| start := dateTime a; slot_duration := duration a |}.
      split; [| exact Hin]. apply dayBookings_In. exists id, a. auto.
    - destruct Hyes as (b & Hb & Hin).
      apply dayBookings_In in Hb as (id & a & Ha & Hvet & Hblk & Hday & ->).
      exists id, a. auto. }
  rewrite Hbooked. tauto.
Qed.

Lemma availability_rule_witness :
  exists d,
    Some (ValidDate june1) = Some (ValidDate d)
    /\ forall t,
         In t (generateSlots (now quiet)
                 (dayBookings (clinic {[ "a1" := booking "vet1" (at_ 9 30) 30 "confirmed" ]})
                    "vet1" june1)
                 (setHours june1 9 0 0 0) (setHours june1 17 0 0 0))
         <-> (exists k : nat, t = setHours d 9 0 0 0 + Z.of_nat k * (30 * 60000))
             /\ t < setHours d 17 0 0 0 /\ now quiet < t
             /\ ~ (exists id a,
                      appointments (clinic {[ "a1" := booking "vet1" (at_ 9 30) 30 "confirmed" ]})
                        !! id = Some a
                      /\ veterinarianId a = "vet1" /\ isBlocking (status a) = true
                      /\ setHours d 0 0 0 0 <= dateTime a <= setHours d 23 59 59 999
                      /\ dateTime a <= t < dateTime a + duration a * 60000).
Proof.
  apply (availability_rule "vet1" (Some (ValidDate june1)) quiet
           (clinic {[ "a1" := booking "vet1" (at_ 9 30) 30 "confirmed" ]})
           (clinic {[ "a1" := booking "vet1" (at_ 9 30) 30 "confirmed" ]})
           200 "vet1").
  vm_compute. reflexivity.
Defined.

(** The loop emits at most one slot per half hour left before
    [workEnd]. *)
Lemma slotLoop_length fuel now booked workEnd : forall time (n : nat),
  workEnd - time <= Z.of_nat n * (30 * 60000) ->
  (length (slotLoop fuel now booked workEnd time) <= n)%nat.
Proof.
  induction fuel as [| fuel IH]; intros time n Hn; cbn [slotLoop]; [cbn; lia |].
  destruct (time <? workEnd) eqn:Hlt; [| cbn; lia].
  apply Z.ltb_lt in Hlt. destruct n as [| n]; [lia |].
  assert (Hrest : (length (slotLoop fuel now booked workEnd (time + 30 * 60000)) <= n)%nat)
    by (apply IH; lia).
  destruct (time <=? now); [lia |].
  destruct (negb (isBooked booked time)); cbn [length]; lia.
Qed.

(** With nothing booked and the first slot in the future, the loop emits
    every half hour up to [workEnd]. *)
Lemma slotLoop_free now booked : forall (n fuel : nat) time,
  (forall t, isBooked booked t = false) ->
  (n < fuel)%nat -> now < time ->
  slotLoop fuel now booked (time + Z.of_nat n * (30 * 60000)) time
  = map (fun k : nat => time + Z.of_nat k * (30 * 60000)) (seq 0 n).
Proof.
  induction n as [| n IH]; intros fuel time Hfree Hfuel Hnow;
    (destruct fuel as [| fuel]; [lia |]); cbn [slotLoop seq map].
  - replace (time <? time + Z.of_nat 0 * (30 * 60000)) with false
      by (symmetry; apply Z.ltb_ge; lia). reflexivity.
  - replace (time <? time + Z.of_nat (S n) * (30 * 60000)) with true
      by (symmetry; apply Z.ltb_lt; lia).
    replace (time <=? now) with false by (symmetry; apply Z.leb_gt; lia).
    rewrite Hfree. cbn [negb].
    replace (time + Z.of_nat 0 * (30 * 60000)) with time by lia. f_equal.
    replace (time + Z.of_nat (S n) * (30 * 60000))
      with (time + 30 * 60000 + Z.of_nat n * (30 * 60000)) by lia.
    rewrite (IH fuel (time + 30 * 60000) Hfree) by lia.
    rewrite <- seq_shift, map_map. apply map_ext. intros k. lia.
Qed.

Lemma workday_length d : setHours d 17 0 0 0 = setHours d 9 0 0 0 + Z.of_nat 16 * (30 * 60000).
Proof. unfold setHours. lia. Qed.

(** X23: a 200 response of the availability route offers at most 16
    slots; and when the request is made before 09:00 of the requested
    date and the veterinarian has no pending or confirmed appointment
    starting on that date, it offers exactly the 16 half hours from 09:00
    to 16:30, in order. *)
Theorem availability_bounds (vet : string) (date : option JsDate) (e : Env) (w w' : World)
  (c : Z) (vet' : string) (slots : list Z) :
  getAvailability vet date e w = (Returned (Json c (Availability vet' slots)), w') ->
  (length slots <= 16)%nat
  /\ (forall d, date = Some (ValidDate d) ->
        now e < setHours d 9 0 0 0 ->
        (forall id a, appointments w !! id = Some a ->
           veterinarianId a = vet -> isBlocking (status a) = true ->
           ~ (setHours d 0 0 0 0 <= dateTime a <= setHours d 23 59 59 999)) ->
        slots = map (fun k : nat => setHours d 9 0 0 0 + Z.of_nat k * (30 * 60000))
                  (seq 0 16)).
Proof.
  intros Hrun. apply getAvailability_success_inv in Hrun as (d & -> & [= -> ->] & _).
  split.
  - unfold generateSlots. apply slotLoop_length. rewrite (workday_length d). lia.
  - intros d' [= <-] Hearly Hfree. unfold generateSlots.
    assert (Hfuel : slotFuel (setHours d 9 0 0 0) (setHours d 17 0 0 0) = 17%nat).
    { unfold slotFuel. rewrite (workday_length d).
      replace (setHours d 9 0 0 0 + Z.of_nat 16 * (30 * 60000) - setHours d 9 0 0 0)
        with (16 * (30 * 60000)) by lia.
      reflexivity. }
    rewrite Hfuel, (workday_length d). apply slotLoop_free; [| lia | exact Hearly].
    intros t. apply not_true_iff_false. intros Hb.
    apply isBooked_spec in Hb as (b & Hb & _).
    apply dayBookings_In in Hb as (id & a & Ha & Hvet & Hblk & Hday & _).
    exact (Hfree id a Ha Hvet Hblk Hday).
Qed.

Lemma availability_bounds_witness :
  (length (generateSlots (now quiet) (dayBookings (clinic ∅) "vet1" june1)
             (setHours june1 9 0 0 0) (setHours june1 17 0 0 0)) <= 16)%nat
  /\ generateSlots (now quiet) (dayBookings (clinic ∅) "vet1" june1)
       (setHours june1 9 0 0 0) (setHours june1 17 0 0 0)
     = map (fun k : nat => setHours june1 9 0 0 0 + Z.of_nat k * (30 * 60000)) (seq 0 16).
Proof.
  destruct (availability_bounds "vet1" (Some (ValidDate june1)) quiet (clinic ∅) (clinic ∅)
              200 "vet1"
              (generateSlots (now quiet) (dayBookings (clinic ∅) "vet1" june1)
                 (setHours june1 9 0 0 0) (setHours june1 17 0 0 0)))
    as [Hlen Hall].
  - vm_compute. reflexivity.
  - split; [exact Hlen |]. apply (Hall june1).
    + reflexivity.
    + vm_compute. reflexivity.
    + intros id a Ha. cbn [clinic appointments] in Ha. rewrite lookup_empty in Ha.
      discriminate Ha.
Defined.

(** X24: the rejections of the availability route, in order: no date
    gives 400 MISSING_DATE and an unparseable date 400 INVALID_DATE, both
    before any database call; a date before the start of the current day
    gives 400 INVALID_DATE; and for an acceptable date the answer is 404
    VET_NOT_FOUND exactly when no user document exists under the id or
    its role is not veterinarian. *)
Theorem availability_rejections (vet : string) (e : Env) (w : World) :
  getAvailability vet None e w = (Returned (ErrorJson 400 "MISSING_DATE"), w)
  /\ getAvailability vet (Some InvalidDate) e w = (Returned (ErrorJson 400 "INVALID_DATE"), w)
  /\ (forall d, d < setHours (now e) 0 0 0 0 ->
        getAvailability vet (Some (ValidDate d)) e w
        = (Returned (ErrorJson 400 "INVALID_DATE"), w))
  /\ (forall d, setHours (now e) 0 0 0 0 <= d -> reliable e ->
        ((getAvailability vet (Some (ValidDate d)) e w).1
         = Returned (ErrorJson 404 "VET_NOT_FOUND")
         <-> (users w !! vet = None
              \/ exists u, users w !! vet = Some u /\ role u <> "veterinarian"))).
Proof.
  unfold getAvailability. unfold_db. split; [reflexivity |]. split; [reflexivity |]. split.
  - intros d Hd. apply Z.ltb_lt in Hd. rewrite Hd. reflexivity.
  - intros d Hd Hrel. apply Z.ltb_ge in Hd. rewrite Hd, Hrel.
    destruct (users w !! vet) as [u|] eqn:Hu.
    + destruct (String.eqb (role u) "veterinarian") eqn:Hrole; cbn [negb].
      * apply String.eqb_eq in Hrole.
        split; [| intros [[=] | (u' & [= <-] & Hne)]; congruence].
        cbn [timestampFromDate ret throw].
        destruct (validTimestamp (setHours d 0 0 0 0)); cbn [timestampFromDate ret throw];
          [| discriminate].
        destruct (validTimestamp (setHours d 23 59 59 999));
          cbn [timestampFromDate ret throw]; [| discriminate].
        rewrite Hrel. discriminate.
      * cbn [fst]. apply String.eqb_neq in Hrole. split; [| reflexivity].
        intros _. right. exists u. auto.
    + cbn [fst]. split; [auto | reflexivity].
Qed.

Lemma availability_rejections_witness :
  getAvailability "vet1" (Some (ValidDate (now quiet - 86400000))) quiet (clinic ∅)
  = (Returned (ErrorJson 400 "INVALID_DATE"), clinic ∅).
Proof.
  apply (proj1 (proj2 (proj2 (availability_rejections "vet1" quiet (clinic ∅))))).
  vm_compute. reflexivity.
Defined.

(** For an acceptable date whose day bounds are instants a [Timestamp]
    holds, and a user with the veterinarian role, the availability route
    answers 200 with the generated slots. *)
Lemma getAvailability_ok vet d e w u :
  reliable e -> setHours (now e) 0 0 0 0 <= d ->
  validTimestamp (setHours d 0 0 0 0) = true ->
  validTimestamp (setHours d 23 59 59 999) = true ->
  users w !! vet = Some u -> role u = "veterinarian" ->
  getAvailability vet (Some (ValidDate d)) e w
  = (Returned (Json 200 (Availability vet
                           (generateSlots (now e) (dayBookings w vet d)
                              (setHours d 9 0 0 0) (setHours d 17 0 0 0)))), w).
Proof.
  intros Hrel Hd Hstart Hend Hu Hrole. unfold getAvailability. unfold_db.
  apply Z.ltb_ge in Hd. rewrite Hd, Hrel, Hu, Hrole, String.eqb_refl.
  cbn [negb timestampFromDate ret]. rewrite Hstart.
  cbn [timestampFromDate ret]. rewrite Hend. cbn [ret]. rewrite Hrel. reflexivity.
Qed.

(** The bounds of the current day are instants a [Timestamp] holds,
    because the clock reading is one. *)
Lemma today_valid e d :
  setHours d 16 30 0 0 <= now e -> setHours (now e) 0 0 0 0 <= d ->
  validTimestamp (setHours d 0 0 0 0) = true
  /\ validTimestamp (setHours d 23 59 59 999) = true.
Proof.
  intros Hlate Hd. pose proof (now_valid e) as Hnow.
  unfold validTimestamp, minTimestamp, maxTimestamp, setHours in *.
  apply andb_true_iff in Hnow as [Hlo Hhi]. apply Z.leb_le in Hlo, Hhi.
  rewrite !andb_true_iff, !Z.leb_le.
  Z.div_mod_to_equations. lia.
Qed.

(** X25: approval matters for booking, not for availability.  For a user
    with the veterinarian role whose application is not approved, the
    availability route answers 200 with a slot list for every acceptable
    date whose day starts and ends at instants a [Timestamp] holds (a date
    up to the year 9999), while no create request naming that veterinarian
    is accepted. *)
Theorem unapproved_vet_listed_not_bookable (vet : string) (u : User) (w : World) :
  users w !! vet = Some u -> role u = "veterinarian" -> vetApplicationStatus u <> "approved" ->
  (forall d e, reliable e -> setHours (now e) 0 0 0 0 <= d ->
     validTimestamp (setHours d 0 0 0 0) = true ->
     validTimestamp (setHours d 23 59 59 999) = true ->
     exists slots,
       getAvailability vet (Some (ValidDate d)) e w
       = (Returned (Json 200 (Availability vet slots)), w))
  /\ (forall uid body e,
        str (body_veterinarianId body) = vet ->
        isJson (createAppointment uid body e w).1 = false).
Proof.
  intros Hu Hrole Happr. split.
  - intros d e Hrel Hd Hstart Hend. eexists.
    apply (getAvailability_ok vet d e w u); assumption.
  - intros uid body e Hvet.
    destruct (createAppointment uid body e w) as [[[c p | c code] |] w'] eqn:Hrun;
      [| reflexivity | reflexivity].
    exfalso. apply create_success_full in Hrun
      as (pet & v & t & _ & _ & _ & Hv & _ & Hok & _).
    rewrite Hvet, Hu in Hv. injection Hv as <-. contradiction.
Qed.

Lemma unapproved_vet_listed_not_bookable_witness :
  let w := {| appointments := ∅; pets := {[ "pet1" := mkPet "owner1" "Rex" ]};
              users := {[ "vet1" := mkUser "veterinarian" "pending" "Vera" "Vet" ]};
              notifications := [] |} in
  (exists slots,
      getAvailability "vet1" (Some (ValidDate june1)) quiet w
      = (Returned (Json 200 (Availability "vet1" slots)), w))
  /\ isJson (createAppointment "owner1" (request (at_ 10 0) None) quiet w).1 = false.
Proof.
  cbv zeta.
  pose proof (unapproved_vet_listed_not_bookable "vet1"
                (mkUser "veterinarian" "pending" "Vera" "Vet")
                {| appointments := ∅; pets := {[ "pet1" := mkPet "owner1" "Rex" ]};
                   users := {[ "vet1" := mkUser "veterinarian" "pending" "Vera" "Vet" ]};
                   notifications := [] |}) as H.
  destruct H as [Hlist Hbook].
  - reflexivity.
  - reflexivity.
  - discriminate.
  - split.
    + apply (Hlist june1 quiet).
      * intros op. reflexivity.
      * vm_compute. discriminate.
      * reflexivity.
      * reflexivity.
    + apply (Hbook "owner1" (request (at_ 10 0) None) quiet). reflexivity.
Defined.

(** X26: a request for the current day is not an error, also after
    working hours: when the time of the request is 16:30 of the requested
    date or later, a 200 response offers no slot at all, and for a known
    veterinarian and a working database the response is that 200 with the
    empty list. *)
Theorem availability_after_hours (vet : string) (d : Z) (e : Env) (w : World) :
  setHours d 16 30 0 0 <= now e ->
  (forall c vet' slots w',
      getAvailability vet (Some (ValidDate d)) e w
      = (Returned (Json c (Availability vet' slots)), w') ->
      slots = [])
  /\ (forall u, reliable e -> setHours (now e) 0 0 0 0 <= d ->
        users w !! vet = Some u -> role u = "veterinarian" ->
        getAvailability vet (Some (ValidDate d)) e w
        = (Returned (Json 200 (Availability vet [])), w)).
Proof.
  intros Hlate.
  assert (Hnone : generateSlots (now e) (dayBookings w vet d)
                    (setHours d 9 0 0 0) (setHours d 17 0 0 0) = []).
  { destruct (generateSlots _ _ _ _) as [| t rest] eqn:Hgen; [reflexivity |].
    assert (Hin : In t (generateSlots (now e) (dayBookings w vet d)
                          (setHours d 9 0 0 0) (setHours d 17 0 0 0)))
      by (rewrite Hgen; left; reflexivity).
    apply generateSlots_In in Hin as ((k & ->) & Hlt & Hnow & _).
    unfold setHours in *. lia. }
  split.
  - intros c vet' slots w' Hrun.
    apply getAvailability_success_inv in Hrun as (d' & [= <-] & [= _ ->] & _). exact Hnone.
  - intros u Hrel Hd Hu Hrole. rewrite <- Hnone.
    destruct (today_valid e d Hlate Hd) as [Hstart Hend].
    apply (getAvailability_ok vet d e w u); assumption.
Qed.

Lemma availability_after_hours_witness :
  getAvailability "vet1" (Some (ValidDate june1)) evening (clinic ∅)
  = (Returned (Json 200 (Availability "vet1" [])), clinic ∅).
Proof.
  refine (proj2 (availability_after_hours "vet1" june1 evening (clinic ∅) _)
            (mkUser "veterinarian" "approved" "Vera" "Vet") _ _ _ _).
  - vm_compute. discriminate.
  - intros op. reflexivity.
  - vm_compute. discriminate.
  - reflexivity.
  - reflexivity.
Defined.

(** ** The single-appointment route *)

(** With a working database a party of the appointment reads the stored
    document with its pet and veterinarian. *)
Lemma getAppointmentById_ok uid id e w a :
  reliable e -> appointments w !! id = Some a ->
  ownerId a = uid \/ veterinarianId a = uid ->
  getAppointmentById uid id e w
  = (Returned (DetailJson 200 id a (pets w !! petId a) (users w !! veterinarianId a)), w).
Proof.
  intros Hrel Ha Hwho. unfold getAppointmentById. unfold_db. rewrite Hrel, Ha.
  replace (negb (String.eqb (ownerId a) uid) && negb (String.eqb (veterinarianId a) uid))
    with false.
  2: { symmetry. apply andb_false_iff.
       destruct Hwho as [<- | <-]; [left | right]; rewrite String.eqb_refl; reflexivity. }
  rewrite !Hrel. reflexivity.
Qed.

(** X27: who may read one appointment.  A 200 of the single-appointment
    route always carries the document stored under the requested id, and
    the caller is its owner or its veterinarian.  With a working database
    the answer is 404 when nothing is stored under the id, 403 when the
    caller is neither party, and otherwise the 200 with the stored
    document, the pet stored under its [petId] and the user stored under
    its [veterinarianId]. *)
Theorem single_appointment_access (uid id : string) (e : Env) (w : World) :
  (forall c id' a pet vet w',
      getAppointmentById uid id e w = (Returned (DetailJson c id' a pet vet), w') ->
      id' = id /\ appointments w !! id = Some a
      /\ (ownerId a = uid \/ veterinarianId a = uid))
  /\ (reliable e ->
      (appointments w !! id = None ->
       getAppointmentById uid id e w
       = (Returned (DetailError 404 "APPOINTMENT_NOT_FOUND"), w))
      /\ (forall a, appointments w !! id = Some a ->
            ownerId a <> uid -> veterinarianId a <> uid ->
            getAppointmentById uid id e w = (Returned (DetailError 403 "ACCESS_DENIED"), w))
      /\ (forall a, appointments w !! id = Some a ->
            ownerId a = uid \/ veterinarianId a = uid ->
            getAppointmentById uid id e w
            = (Returned (DetailJson 200 id a (pets w !! petId a)
                           (users w !! veterinarianId a)), w))).
Proof.
  unfold getAppointmentById. unfold_db. split.
  - intros c id' a pet vet w'.
    destruct (fails e ReadAppointment); [intros [=] |].
    destruct (appointments w !! id) as [a0|]; [| intros [=]].
    destruct (negb (String.eqb (ownerId a0) uid) && negb (String.eqb (veterinarianId a0) uid))
      eqn:Hacc; [intros [=] |].
    destruct (fails e ReadPet); [intros [=] |].
    destruct (fails e ReadUser); [intros [=] |].
    intros [= <- <- <- <- <- <-]. split; [reflexivity |]. split; [reflexivity |].
    apply andb_false_iff in Hacc as [H | H]; apply negb_false_iff, String.eqb_eq in H; auto.
  - intros Hrel. rewrite Hrel. split; [| split].
    + intros ->. reflexivity.
    + intros a -> Hown Hvet. apply String.eqb_neq in Hown, Hvet. rewrite Hown, Hvet.
      reflexivity.
    + intros a -> Hwho.
      replace (negb (String.eqb (ownerId a) uid) && negb (String.eqb (veterinarianId a) uid))
        with false.
      2: { symmetry. apply andb_false_iff.
           destruct Hwho as [<- | <-]; [left | right]; rewrite String.eqb_refl; reflexivity. }
      rewrite !Hrel. reflexivity.
Qed.

Lemma single_appointment_access_witness :
  getAppointmentById "stranger" "a1" quiet
    (clinic {[ "a1" := booking "vet1" (at_ 10 0) 30 "confirmed" ]})
  = (Returned (DetailError 403 "ACCESS_DENIED"),
     clinic {[ "a1" := booking "vet1" (at_ 10 0) 30 "confirmed" ]}).
Proof.
  refine (proj1 (proj2 (proj2 (single_appointment_access "stranger" "a1" quiet
                                 (clinic {[ "a1" := booking "vet1" (at_ 10 0) 30 "confirmed" ]}))
                          _))
            (booking "vet1" (at_ 10 0) 30 "confirmed") _ _ _).
  - intros op. reflexivity.
  - reflexivity.
  - discriminate.
  - discriminate.
Defined.

(** X28: create and read back.  After create accepted an appointment,
    the single-appointment route, with a working database, returns to the
    creating owner exactly the created document under the returned id,
    together with the owner's pet and the approved veterinarian; the
    appointment's veterinarian can read it as well. *)
Theorem create_then_read (uid : string) (body : CreateBody) (e e2 : Env) (w w' : World)
  (c : Z) (id : string) (a : Appointment) :
  createAppointment uid body e w = (Returned (Json c (Created id a)), w') ->
  reliable e2 ->
  exists pet vet,
    pet_ownerId pet = uid /\ vetApplicationStatus vet = "approved"
    /\ getAppointmentById uid id e2 w'
       = (Returned (DetailJson 200 id a (Some pet) (Some vet)), w')
    /\ getAppointmentById (veterinarianId a) id e2 w'
       = (Returned (DetailJson 200 id a (Some pet) (Some vet)), w').
Proof.
  intros Hrun Hrel. apply create_success_full in Hrun
    as (pet & vet & t & _ & Hpet & Hown & Hvet & _ & Happr & _ & _ & _ & _ & [= -> ->] & ->).
  exists pet, vet. split; [exact Hown |]. split; [exact Happr |].
  set (w' := {| appointments := _; pets := pets w; users := users w; notifications := _ |}).
  assert (Hstored : appointments w' !! autoId e = Some (createdDocument uid body t (now e)))
    by apply lookup_insert_eq.
  split.
  - rewrite (getAppointmentById_ok uid (autoId e) e2 w' _ Hrel Hstored)
      by (left; reflexivity).
    cbn [createdDocument petId veterinarianId pets users w']. rewrite Hpet, Hvet. reflexivity.
  - rewrite (getAppointmentById_ok _ (autoId e) e2 w' _ Hrel Hstored)
      by (right; reflexivity).
    cbn [createdDocument petId veterinarianId pets users w']. rewrite Hpet, Hvet. reflexivity.
Qed.

Lemma create_then_read_witness :
  exists pet vet,
    pet_ownerId pet = "owner1" /\ vetApplicationStatus vet = "approved"
    /\ getAppointmentById "owner1" "new1" quiet
         (createAppointment "owner1" (request (at_ 10 0) None) quiet (clinic ∅)).2
       = (Returned (DetailJson 200 "new1"
                      (createdDocument "owner1" (request (at_ 10 0) None) (at_ 10 0) (now quiet))
                      (Some pet) (Some vet)),
          (createAppointment "owner1" (request (at_ 10 0) None) quiet (clinic ∅)).2).
Proof.
  destruct (create_then_read "owner1" (request (at_ 10 0) None) quiet quiet (clinic ∅)
              (createAppointment "owner1" (request (at_ 10 0) None) quiet (clinic ∅)).2
              201 "new1"
              (createdDocument "owner1" (request (at_ 10 0) None) (at_ 10 0) (now quiet)))
    as (pet & vet & Hown & Happr & Hread & _).
  - vm_compute. reflexivity.
  - intros op. reflexivity.
  - exists pet, vet. auto.
Defined.

(** ** A booked start is not offered *)

(** X29: once create accepted an appointment of positive duration, no
    later availability response for its veterinarian offers the
    appointment's start, as long as the database is unchanged. *)
Theorem booked_start_not_offered (uid : string) (body : CreateBody) (e e2 : Env)
  (w w' w2 : World) (c c2 : Z) (id vet' : string) (a : Appointment) (date : option JsDate)
  (slots : list Z) :
  createAppointment uid body e w = (Returned (Json c (Created id a)), w') ->
  0 < duration a ->
  getAvailability (veterinarianId a) date e2 w'
  = (Returned (Json c2 (Availability vet' slots)), w2) ->
  ~ In (dateTime a) slots.
Proof.
  intros Hcreate Hd Havail Hin.
  apply create_success_full in Hcreate
    as (pet & vet & t & _ & _ & _ & _ & _ & _ & _ & _ & _ & _ & [= -> ->] & ->).
  apply getAvailability_success_inv in Havail as (d & _ & [= _ ->] & _).
  apply generateSlots_In in Hin as ((k & Hk) & Hlt & _ & Hfree).
  apply not_true_iff_false in Hfree. apply Hfree. apply isBooked_spec.
  exists {| start := t; slot_duration := default 30 (body_duration body) |}.
  cbn [createdDocument dateTime duration veterinarianId] in *.
  split; [| cbn; lia].
  apply dayBookings_In. exists (autoId e), (createdDocument uid body t (now e)).
  split; [apply lookup_insert_eq |]. split; [reflexivity |]. split; [reflexivity |].
  split; [| reflexivity].
  cbn [createdDocument dateTime]. unfold setHours in *. lia.
Qed.

Lemma booked_start_not_offered_witness :
  ~ In (at_ 10 0)
      (generateSlots (now quiet)
         (dayBookings (createAppointment "owner1" (request (at_ 10 0) None) quiet (clinic ∅)).2
            "vet1" june1)
         (setHours june1 9 0 0 0) (setHours june1 17 0 0 0)).
Proof.
  refine (booked_start_not_offered "owner1" (request (at_ 10 0) None) quiet quiet (clinic ∅)
            (createAppointment "owner1" (request (at_ 10 0) None) quiet (clinic ∅)).2
            (createAppointment "owner1" (request (at_ 10 0) None) quiet (clinic ∅)).2
            201 200 "new1" "vet1"
            (createdDocument "owner1" (request (at_ 10 0) None) (at_ 10 0) (now quiet))
            (Some (ValidDate june1)) _ _ _ _).
  - vm_compute. reflexivity.
  - cbn. lia.
  - vm_compute. reflexivity.
Defined.

(** ** The token middleware *)

Lemma append_empty_r s : s +:+ "" = s.
Proof.
  induction s as [| c s IH]; [reflexivity |].
  change (String c s +:+ "") with (String c (s +:+ "")). f_equal. exact IH.
Qed.

Lemma append_assoc_char cur c s : (cur +:+ String c "") +:+ s = cur +:+ String c s.
Proof.
  induction cur as [| x cur IH]; [reflexivity |].
  change ((String x cur +:+ String c "") +:+ s) with (String x ((cur +:+ String c "") +:+ s)).
  change (String x cur +:+ String c s) with (String x (cur +:+ String c s)).
  f_equal. exact IH.
Qed.

(** A string without an occurrence of the separator is one piece. *)
Lemma splitFrom_no_occurrence sep s : forall cur,
  occurs sep s = false -> splitFrom sep 0 cur s = [cur +:+ s].
Proof.
  induction s as [| c s IH]; intros cur Hocc; cbn [splitFrom].
  - rewrite append_empty_r. reflexivity.
  - cbn [occurs] in Hocc. apply orb_false_iff in Hocc as [Hp Hs].
    rewrite Hp, (IH _ Hs), append_assoc_char. reflexivity.
Qed.

(** The characters of an occurrence are passed over. *)
Lemma splitFrom_skip sep rest : forall cur s,
  splitFrom sep (String.length rest) cur (rest +:+ s) = splitFrom sep 0 cur s.
Proof.
  induction rest as [| c rest IH]; intros cur s; cbn [String.length String.append].
  - destruct s; reflexivity.
  - cbn [splitFrom]. apply IH.
Qed.

Lemma split_bearer tok :
  occurs "Bearer " tok = false -> split "Bearer " ("Bearer " +:+ tok) !! 1%nat = Some tok.
Proof.
  intros Hocc. unfold split.
  change ("Bearer " +:+ tok) with (String "B" ("earer " +:+ tok)).
  cbn [splitFrom].
  replace (String.prefix "Bearer " (String "B" ("earer " +:+ tok))) with true
    by (cbn; destruct tok; reflexivity).
  change (String.length "Bearer " - 1)%nat with (String.length "earer ").
  rewrite splitFrom_skip, (splitFrom_no_occurrence _ _ _ Hocc). reflexivity.
Qed.

(** X30: the token gate.  Without an [Authorization] header, or with one
    that does not start with "Bearer ", the middleware answers 401
    NO_TOKEN and the route handler does not run; for a header "Bearer "
    followed by a token (that does not itself contain "Bearer "), exactly
    that token is given to the identity provider, and the handler runs
    with the uid of the decoded token or the answer is 401 INVALID_TOKEN;
    and every outcome of a guarded route is one of the two 401 answers on
    an unchanged database or an outcome of the handler for a uid that the
    identity provider vouched for. *)
Theorem verifyToken_gate (verifyIdToken : string -> option string)
  (next : string -> Handler Response) (e : Env) (w : World) :
  verifyToken verifyIdToken None next e w = (Returned (ErrorJson 401 "NO_TOKEN"), w)
  /\ (forall h, String.prefix "Bearer " h = false ->
        verifyToken verifyIdToken (Some h) next e w = (Returned (ErrorJson 401 "NO_TOKEN"), w))
  /\ (forall tok, occurs "Bearer " tok = false ->
        verifyToken verifyIdToken (Some ("Bearer " +:+ tok)) next e w
        = match verifyIdToken tok with
          | Some uid => next uid e w
          | None => (Returned (ErrorJson 401 "INVALID_TOKEN"), w)
          end)
  /\ (forall header r w',
        verifyToken verifyIdToken header next e w = (r, w') ->
        (r = Returned (ErrorJson 401 "NO_TOKEN") /\ w' = w)
        \/ (r = Returned (ErrorJson 401 "INVALID_TOKEN") /\ w' = w)
        \/ exists tok uid, verifyIdToken tok = Some uid /\ next uid e w = (r, w')).
Proof.
  unfold verifyToken, ret. split; [reflexivity |]. split; [| split].
  - intros h Hh. rewrite Hh. cbn [negb]. rewrite orb_true_r. reflexivity.
  - intros tok Hocc.
    replace (String.prefix "Bearer " ("Bearer " +:+ tok)) with true
      by (cbn; destruct tok; reflexivity).
    cbn [truthy negb orb]. rewrite (split_bearer tok Hocc).
    destruct (verifyIdToken tok); reflexivity.
  - intros header r w'. destruct header as [h |]; [| intros [= <- <-]; auto].
    destruct (negb (truthy (Some h)) || negb (String.prefix "Bearer " h));
      [intros [= <- <-]; auto |].
    destruct (split "Bearer " h !! 1%nat) as [tok |]; [| intros [= <- <-]; auto].
    destruct (verifyIdToken tok) as [uid |] eqn:Htok; [| intros [= <- <-]; auto].
    intros Hnext. right. right. exists tok, uid. auto.
Qed.

Lemma verifyToken_gate_witness :
  verifyToken (fun tok => if String.eqb tok "t0k3n" then Some "owner1" else None)
    (Some "Bearer t0k3n")
    (fun uid => getAvailability uid None) quiet (clinic ∅)
  = getAvailability "owner1" None quiet (clinic ∅).
Proof.
  apply (proj1 (proj2 (proj2 (verifyToken_gate
           (fun tok => if String.eqb tok "t0k3n" then Some "owner1" else None)
           (fun uid => getAvailability uid None) quiet (clinic ∅)))) "t0k3n").
  reflexivity.
Defined.
